(** * Extra Flips Live: the scanner page's derived state

    A shallow embedding of the script block of the scanner page (the Vue
    single-file component of the repository): the computed values that
    normalise the fetched snapshot, the address lookup, the countdown label
    and the line-chart geometry, together with the properties the
    specification states about them.  The formatting helpers of the
    template, the chain of blocks the page shows and the handler of the
    scan endpoint are embedded as well, with further properties read off
    the code.

    Conventions of the embedding.
    - A decoded snapshot is a value of type [any]: the JavaScript values that
      JSON decoding can produce, plus [undefined].
    - A JavaScript [number] is [NaN], a signed infinity, or a finite number
      carried by its exact rational value; the rounding and overflow of
      binary64 arithmetic and the sign of zero are not modelled.
    - A string is a sequence of 8-bit characters.
    - An evaluation that may raise is a [Completion]: [Normal v] or
      [Throw e].  Each computed of the page becomes a function of the
      reactive values it reads. *)

From Stdlib Require Import ZArith QArith Qround Qabs Bool List Ascii String Lia Lqa.
From Stdlib Require Import DecimalString.
Import ListNotations.

Set Warnings "-register-all".
Local Open Scope string_scope.
Local Open Scope Z_scope.

(* ================================================================== *)
(** ** Numbers *)

Inductive number : Type :=
| NaN : number
| Infinity (negative : bool) : number
| Fin (q : Q) : number.

Definition num_of_Z (z : Z) : number := Fin (inject_Z z).

Definition isFinite (n : number) : bool :=
  match n with Fin _ => true | _ => false end.

Definition isNaN (n : number) : bool :=
  match n with NaN => true | _ => false end.

Definition Qlt_bool (x y : Q) : bool := negb (Qle_bool y x).

(** [a < b] *)
Definition num_ltb (a b : number) : bool :=
  match a, b with
  | NaN, _ | _, NaN => false
  | Infinity sa, Infinity sb => sa && negb sb
  | Infinity sa, Fin _ => sa
  | Fin _, Infinity sb => negb sb
  | Fin x, Fin y => Qlt_bool x y
  end.

(** [a <= b] *)
Definition num_leb (a b : number) : bool :=
  match a, b with
  | NaN, _ | _, NaN => false
  | Infinity sa, Infinity sb => sa || negb sb
  | Infinity sa, Fin _ => sa
  | Fin _, Infinity sb => negb sb
  | Fin x, Fin y => Qle_bool x y
  end.

(** [a > b] *)
Definition num_gtb (a b : number) : bool := num_ltb b a.

(** [a - b] *)
Definition num_sub (a b : number) : number :=
  match a, b with
  | NaN, _ | _, NaN => NaN
  | Infinity sa, Infinity sb => if Bool.eqb sa sb then NaN else Infinity sa
  | Infinity sa, Fin _ => Infinity sa
  | Fin _, Infinity sb => Infinity (negb sb)
  | Fin x, Fin y => Fin (x - y)
  end.

(** [a * b] *)
Definition num_mul (a b : number) : number :=
  match a, b with
  | NaN, _ | _, NaN => NaN
  | Infinity sa, Infinity sb => Infinity (xorb sa sb)
  | Infinity sa, Fin y =>
      if Qeq_bool y 0 then NaN else Infinity (xorb sa (Qlt_bool y 0))
  | Fin x, Infinity sb =>
      if Qeq_bool x 0 then NaN else Infinity (xorb (Qlt_bool x 0) sb)
  | Fin x, Fin y => Fin (x * y)
  end.

(** [a / b].  A zero divisor is read as the positive zero; no divisor of
    this program is zero (each is a positive constant or guarded by [> 0]). *)
Definition num_div (a b : number) : number :=
  match a, b with
  | NaN, _ | _, NaN => NaN
  | Infinity _, Infinity _ => NaN
  | Infinity sa, Fin y => Infinity (xorb sa (Qlt_bool y 0))
  | Fin _, Infinity _ => Fin 0
  | Fin x, Fin y =>
      if Qeq_bool y 0
      then (if Qeq_bool x 0 then NaN else Infinity (Qlt_bool x 0))
      else Fin (x / y)
  end.

(** Truncation towards zero, as the remainder operator uses it. *)
Definition Qtrunc (x : Q) : Z :=
  if Qlt_bool x 0 then Qceiling x else Qfloor x.

(** [a % b] *)
Definition num_rem (a b : number) : number :=
  match a, b with
  | NaN, _ | _, NaN => NaN
  | Infinity _, _ => NaN
  | Fin x, Infinity _ => Fin x
  | Fin x, Fin y =>
      if Qeq_bool y 0 then NaN
      else Fin (x - y * inject_Z (Qtrunc (x / y)))
  end.

(** [Math.floor] *)
Definition Math_floor (a : number) : number :=
  match a with
  | Fin x => Fin (inject_Z (Qfloor x))
  | _ => a
  end.

Definition max2 (a b : number) : number :=
  match a, b with
  | NaN, _ | _, NaN => NaN
  | _, _ => if num_ltb a b then b else a
  end.

(** [Math.max(...args)]: [-Infinity] without arguments, [NaN] as soon as one
    argument is [NaN]. *)
Definition Math_max (args : list number) : number :=
  fold_left max2 args (Infinity true).

(* ================================================================== *)
(** ** Strings *)

Definition Z_to_string (z : Z) : string :=
  NilZero.string_of_int (Z.to_int z).

(** [s.padStart(targetLength, pad)] for a one-character [pad]. *)
Definition padStart (targetLength : nat) (pad : ascii) (s : string) : string :=
  string_of_list_ascii (repeat pad (targetLength - String.length s)) ++ s.

(** White space and line terminators among the 8-bit characters. *)
Definition isWhiteSpace (c : ascii) : bool :=
  let n := nat_of_ascii c in
  ((9 <=? n) && (n <=? 13) || (n =? 32) || (n =? 160))%nat.

Fixpoint dropWhile {A} (p : A -> bool) (l : list A) : list A :=
  match l with
  | [] => []
  | x :: r => if p x then dropWhile p r else l
  end.

(** [s.trim()] *)
Definition trim (s : string) : string :=
  string_of_list_ascii
    (rev (dropWhile isWhiteSpace
            (rev (dropWhile isWhiteSpace (list_ascii_of_string s))))).

Definition lowerChar (c : ascii) : ascii :=
  let n := nat_of_ascii c in
  if ((65 <=? n) && (n <=? 90)
      || (192 <=? n) && (n <=? 222) && negb (n =? 215))%nat
  then ascii_of_nat (n + 32) else c.

(** [s.toLowerCase()] *)
Definition toLowerCase (s : string) : string :=
  string_of_list_ascii (map lowerChar (list_ascii_of_string s)).

(* ================================================================== *)
(** ** Values and completions *)

Inductive any : Type :=
| undefined : any
| null : any
| JBool (b : bool) : any
| JNumber (n : number) : any
| JString (s : string) : any
| JArray (elements : list any) : any
| JObject (props : list (string * any)) : any.

Inductive Error : Type := TypeError.

Inductive Completion (A : Type) : Type :=
| Normal (a : A)
| Throw (e : Error).

Arguments Normal {A} a.
Arguments Throw {A} e.

Definition bind {A B} (c : Completion A) (k : A -> Completion B) : Completion B :=
  match c with
  | Normal a => k a
  | Throw e => Throw e
  end.

Notation "x <- c ;; k" := (bind c (fun x => k))
  (at level 61, c at next level, right associativity).

(** [array.map(f)] for a callback that may raise: the elements are visited
    in order and the first exception ends the traversal. *)
Fixpoint mapM {A B} (f : A -> Completion B) (l : list A) : Completion (list B) :=
  match l with
  | [] => Normal []
  | x :: r => y <- f x ;; ys <- mapM f r ;; Normal (y :: ys)
  end.

(** [array.find(f)] for a callback that may raise. *)
Fixpoint findM {A} (f : A -> Completion bool) (l : list A) : Completion (option A) :=
  match l with
  | [] => Normal None
  | x :: r => b <- f x ;; if b then Normal (Some x) else findM f r
  end.

(** [.filter(Boolean)] on the results of a callback that answers an object
    or [null]. *)
Fixpoint compact {A} (l : list (option A)) : list A :=
  match l with
  | [] => []
  | Some x :: r => x :: compact r
  | None :: r => compact r
  end.

Definition typeof (v : any) : string :=
  match v with
  | undefined => "undefined"
  | null => "object"
  | JBool _ => "boolean"
  | JNumber _ => "number"
  | JString _ => "string"
  | JArray _ => "object"
  | JObject _ => "object"
  end.

Definition ToBoolean (v : any) : bool :=
  match v with
  | undefined | null => false
  | JBool b => b
  | JNumber NaN => false
  | JNumber (Infinity _) => true
  | JNumber (Fin q) => negb (Qeq_bool q 0)
  | JString s => negb (s =? "")%string
  | JArray _ | JObject _ => true
  end.

(** The own property [k] of a decoded object (its keys are distinct). *)
Fixpoint lookup (k : string) (props : list (string * any)) : option any :=
  match props with
  | [] => None
  | (k', v) :: r => if (k =? k')%string then Some v else lookup k r
  end.

Definition hasOwn (k : string) (props : list (string * any)) : bool :=
  match lookup k props with Some _ => true | None => false end.

(** [v.k].  Reading a property of [undefined] or [null] raises.  The names
    this page reads are defined on no prototype, so on an array or a
    primitive value the read answers [undefined]. *)
Definition Get (v : any) (k : string) : Completion any :=
  match v with
  | undefined | null => Throw TypeError
  | JObject props =>
      Normal (match lookup k props with Some x => x | None => undefined end)
  | _ => Normal undefined
  end.

(** [v?.k] *)
Definition GetOpt (v : any) (k : string) : Completion any :=
  match v with
  | undefined | null => Normal undefined
  | _ => Get v k
  end.

(** [v ?? d] *)
Definition nullish (v d : any) : any :=
  match v with
  | undefined | null => d
  | _ => v
  end.

(** [a === b] where [b] is a string. *)
Definition strictEqString (a : any) (b : string) : bool :=
  match a with
  | JString s => (s =? b)%string
  | _ => false
  end.

(* ================================================================== *)
(** ** Entities *)

Record ProgressPoint : Type := {
  timestamp : string;
  flipsSeen : number;
  uniqueAuthors : number
}.

Record ProgressEpochSeries : Type := {
  epoch : number;
  points : list ProgressPoint
}.

Record ChartPoint : Type := {
  elapsedSeconds : number;
  value : number
}.

Record ChartLine : Type := {
  line_epoch : number;
  path : string;
  opacity : Q
}.

(* ================================================================== *)
(** ** A sample host

    One instance of the built-ins, used to run the page on concrete
    snapshots: integer literals convert to their value, three instants of
    1 January 2024 parse to their time value in milliseconds. *)

Definition hostNumber (s : string) : number :=
  if (s =? "")%string then Fin 0
  else match NilZero.int_of_string s with
       | Some i => Fin (inject_Z (Z.of_int i))
       | None => NaN
       end.

Definition hostDate (s : string) : number :=
  if (s =? "2024-01-01T00:00:00.000Z")%string then Fin 1704067200000
  else if (s =? "2024-01-01T00:01:30.000Z")%string then Fin 1704067290000
  else if (s =? "2024-01-01T00:03:00.000Z")%string then Fin 1704067380000
  else NaN.

(** The digits of a fraction; no run below prints one. *)
Definition hostDigits (q : Q) : string := "".

Definition sampleAddress : string :=
  "0xaaaaaaaaaaaaaaaaaaaaaaaaaaaaaaaaaaaaaaaa".

Definition sampleRow : any :=
  JObject [("rank", JNumber (Fin 1));
           ("address", JString sampleAddress);
           ("flipCount", JNumber (Fin 12))].

Definition samplePoints : list any :=
  [ JObject [("timestamp", JString "2024-01-01T00:00:00.000Z");
             ("flipsSeen", JNumber (Fin 4));
             ("uniqueAuthors", JNumber (Fin 2))];
    JNumber (Fin 5);
    JObject [("timestamp", JNumber (Fin 7)); ("flipsSeen", JNumber (Fin 9))];
    JObject [("timestamp", JString "not a date");
             ("flipsSeen", JString "many");
             ("uniqueAuthors", null)];
    JObject [("timestamp", JString "2024-01-01T00:03:00.000Z");
             ("flipsSeen", JString "10");
             ("uniqueAuthors", JNumber (Fin 5))] ].

Definition samplePrevious : list any :=
  [ JObject [("epoch", JNumber (Fin 0)); ("points", JArray samplePoints)];
    JObject [("epoch", JString "170"); ("points", JArray samplePoints)];
    null;
    JObject [("epoch", JNumber (Fin 169)); ("points", JArray [])];
    JObject [("epoch", JNumber (Fin 168)); ("points", JArray [])] ].

(** A snapshot as the scan answers it, with some malformed parts: among the
    candidate points a number, a point whose timestamp is a number and a
    point whose counters are not numeric; among the previous epochs an epoch
    0, an epoch given as a string, a [null] and one entry more than the page
    keeps; an empty [identityLookup]. *)
Definition sampleSnapshot : any :=
  JObject
    [("success", JBool true);
     ("data",
      JObject
        [("gradeLeaderboard",
          JObject [("topIdentities", JArray [sampleRow]);
                   ("identityLookup", JArray [])]);
         ("session",
          JObject [("nextValidationTime", JString "2024-01-01T00:01:30.000Z")]);
         ("progress",
          JObject
            [("minRefreshSeconds", JString "soon");
             ("series",
              JObject
                [("currentEpoch",
                  JObject [("epoch", JNumber (Fin 171));
                           ("points", JArray samplePoints)]);
                 ("previousEpochs", JArray samplePrevious)])])])].

Definition sampleKeptPoints : list ProgressPoint :=
  [ {| timestamp := "2024-01-01T00:00:00.000Z";
       flipsSeen := Fin 4; uniqueAuthors := Fin 2 |};
    {| timestamp := "not a date";
       flipsSeen := Fin 0; uniqueAuthors := Fin 0 |};
    {| timestamp := "2024-01-01T00:03:00.000Z";
       flipsSeen := Fin 10; uniqueAuthors := Fin 5 |} ].

Definition sampleKeptPrevious : list ProgressEpochSeries :=
  [ {| epoch := Fin 170; points := sampleKeptPoints |};
    {| epoch := Fin 169; points := [] |} ].

(** A leaderboard whose rows are not rows. *)
Definition uncheckedRowsSnapshot : any :=
  JObject
    [("data",
      JObject
        [("gradeLeaderboard",
          JObject [("topIdentities", JArray [null; JNumber (Fin 7)])])])].

(** A current series without an epoch, a previous series whose epoch is
    2.5. *)
Definition oddEpochsSnapshot : any :=
  JObject
    [("data",
      JObject
        [("progress",
          JObject
            [("series",
              JObject
                [("currentEpoch", JObject [("points", JArray [])]);
                 ("previousEpochs",
                  JArray [JObject [("epoch", JNumber (Fin (5 # 2)))]])])])])].

(** A candidate point whose [flipsSeen] is an object with an own [toString]
    property, and the snapshot that carries it as the only point of the
    current epoch. *)
Definition shadowedPoint : any :=
  JObject [("timestamp", JString "2024-01-01T00:00:00.000Z");
           ("flipsSeen", JObject [("toString", JNumber (Fin 1))])].

Definition shadowedCounterSnapshot : any :=
  JObject
    [("data",
      JObject
        [("progress",
          JObject
            [("series",
              JObject
                [("currentEpoch",
                  JObject [("epoch", JNumber (Fin 171));
                           ("points", JArray [shadowedPoint])])])])])].

(** Two well-formed previous epochs followed by an entry whose [epoch] is
    such an object. *)
Definition shadowedEpochRows : list any :=
  [ JObject [("epoch", JNumber (Fin 170)); ("points", JArray [])];
    JObject [("epoch", JNumber (Fin 169)); ("points", JArray [])];
    JObject [("epoch", JObject [("toString", JNumber (Fin 1))])] ].

Definition shadowedEpochSnapshot : any :=
  JObject
    [("data",
      JObject
        [("progress",
          JObject
            [("series",
              JObject [("previousEpochs", JArray shadowedEpochRows)])])])].

(* ================================================================== *)
(** ** Built-in conversions *)

Section Page.

(** The numeric value of a string (the StringToNumber operation applied by
    [Number(s)]), the time value of a date string ([Date.parse]), and the
    digits [Number::toString] chooses for a finite number that is not an
    integer below 10^21 in magnitude: built-ins of the host, taken as given. *)
Variable StringToNumber : string -> number.
Variable Date_parse : string -> number.
Variable ShortestDigits : Q -> string.

(** [new Date(t).toLocaleString()] for a time value [t]: the wording depends
    on the locale and the time zone of the host. *)
Variable Date_toLocaleString : number -> string.

Set Default Proof Using "Type".

Definition isInteger (q : Q) : bool :=
  Qnum q mod Zpos (Qden q) =? 0.

(** [String(n)] *)
Definition NumberToString (n : number) : string :=
  match n with
  | NaN => "NaN"
  | Infinity s => if s then "-Infinity" else "Infinity"
  | Fin q =>
      if isInteger q && Qlt_bool (Qabs q) (inject_Z (10 ^ 21))
      then Z_to_string (Qfloor q)
      else ShortestDigits q
  end.

(** [n.toFixed(2)]: the sign, then the nearest multiple of 1/100 (a tie goes
    to the larger magnitude) written with two decimals; from 10^21 on, and for
    the values that are not finite, the result of [String(n)]. *)
Definition toFixed2 (n : number) : string :=
  match n with
  | Fin q =>
      if Qlt_bool (Qabs q) (inject_Z (10 ^ 21))
      then
        let k := Qfloor (Qabs q * inject_Z 100 + (1 # 2)) in
        (if Qlt_bool q 0 then "-" else "")
          ++ Z_to_string (k / 100) ++ "."
          ++ padStart 2 "0" (Z_to_string (k mod 100))
      else NumberToString n
  | _ => NumberToString n
  end.

(** [String(v)], as [Array.prototype.join] and the conversion of an object to
    a primitive apply it.  An object decoded from JSON holds no function: an
    own [toString] property hides [Object.prototype.toString] with a value
    that cannot be called, [Object.prototype.valueOf] answers the object
    itself, and the conversion raises.  Without one the object converts to
    "[object Object]".  An array converts to its elements joined by commas,
    [undefined] and [null] elements giving the empty string. *)
Fixpoint ToString (v : any) : Completion string :=
  match v with
  | undefined => Normal "undefined"
  | null => Normal "null"
  | JBool b => Normal (if b then "true" else "false")
  | JNumber n => Normal (NumberToString n)
  | JString s => Normal s
  | JArray l =>
      parts <-
        (fix join (l : list any) : Completion (list string) :=
           match l with
           | [] => Normal []
           | x :: r =>
               s <- match x with
                    | undefined | null => Normal ""
                    | _ => ToString x
                    end ;;
               ss <- join r ;;
               Normal (s :: ss)
           end) l ;;
      Normal (String.concat "," parts)
  | JObject props =>
      if hasOwn "toString" props then Throw TypeError
      else Normal "[object Object]"
  end.

(** [Number(v)] *)
Definition ToNumber (v : any) : Completion number :=
  match v with
  | undefined => Normal NaN
  | null => Normal (Fin 0)
  | JBool b => Normal (Fin (if b then 1 else 0))
  | JNumber n => Normal n
  | JString s => Normal (StringToNumber s)
  | JArray _ | JObject _ => s <- ToString v ;; Normal (StringToNumber s)
  end.

(* ================================================================== *)
(** ** The normalising computeds

    [data] stands for [data.value], the body the fetch answered. *)

Definition isObjectLike (v : any) : bool :=
  ToBoolean v && (typeof v =? "object")%string.

Definition payload (data : any) : Completion any :=
  v <- GetOpt data "data" ;;
  Normal (nullish v null).

Definition gradeLeaderboard (data : any) : Completion any :=
  p <- payload data ;;
  value <- GetOpt p "gradeLeaderboard" ;;
  Normal (if isObjectLike value then value else null).

Definition topIdentities (data : any) : Completion (list any) :=
  g <- gradeLeaderboard data ;;
  value <- GetOpt g "topIdentities" ;;
  Normal (match value with JArray l => l | _ => [] end).

Definition identityLookup (data : any) : Completion (list any) :=
  g <- gradeLeaderboard data ;;
  value <- GetOpt g "identityLookup" ;;
  match value with
  | JArray (x :: l) => Normal (x :: l)
  | _ => topIdentities data
  end.

Definition topFlips (data : any) : Completion (list any) :=
  g <- gradeLeaderboard data ;;
  value <- GetOpt g "topFlips" ;;
  Normal (match value with JArray l => l | _ => [] end).

Definition progressPayload (data : any) : Completion any :=
  p <- payload data ;;
  value <- GetOpt p "progress" ;;
  Normal (if isObjectLike value then value else null).

(** The callback both series computeds map over a [points] array. *)
Definition normalizePoint (point : any) : Completion (option ProgressPoint) :=
  if negb (isObjectLike point) then Normal None
  else
    ts <- Get point "timestamp" ;;
    match ts with
    | JString ts =>
        fs <- Get point "flipsSeen" ;;
        flipsSeen <- ToNumber (nullish fs (JNumber (Fin 0))) ;;
        ua <- Get point "uniqueAuthors" ;;
        uniqueAuthors <- ToNumber (nullish ua (JNumber (Fin 0))) ;;
        Normal (Some {|
          timestamp := ts;
          flipsSeen := if isFinite flipsSeen then flipsSeen else Fin 0;
          uniqueAuthors := if isFinite uniqueAuthors then uniqueAuthors else Fin 0
        |})
    | _ => Normal None
    end.

Definition normalizePoints (pts : any) : Completion (list ProgressPoint) :=
  match pts with
  | JArray l => rs <- mapM normalizePoint l ;; Normal (compact rs)
  | _ => Normal []
  end.

Definition progressCurrentSeries (data : any)
  : Completion (option ProgressEpochSeries) :=
  pp <- progressPayload data ;;
  series <- GetOpt pp "series" ;;
  value <- GetOpt series "currentEpoch" ;;
  if negb (isObjectLike value) then Normal None
  else
    e <- Get value "epoch" ;;
    let epoch := match e with JNumber n => n | _ => Fin 0 end in
    pts <- Get value "points" ;;
    points <- normalizePoints pts ;;
    Normal (Some {| epoch := epoch; points := points |}).

(** The callback mapped over [previousEpochs]. *)
Definition normalizeSeries (series : any)
  : Completion (option ProgressEpochSeries) :=
  if negb (isObjectLike series) then Normal None
  else
    e <- Get series "epoch" ;;
    epoch <- ToNumber (nullish e (JNumber (Fin 0))) ;;
    if negb (isFinite epoch) || num_leb epoch (Fin 0) then Normal None
    else
      pts <- Get series "points" ;;
      points <- normalizePoints pts ;;
      Normal (Some {| epoch := epoch; points := points |}).

Definition progressPreviousSeries (data : any)
  : Completion (list ProgressEpochSeries) :=
  pp <- progressPayload data ;;
  series <- GetOpt pp "series" ;;
  rows <- GetOpt series "previousEpochs" ;;
  match rows with
  | JArray l => rs <- mapM normalizeSeries l ;; Normal (firstn 2 (compact rs))
  | _ => Normal []
  end.

Definition progressMinRefresh (data : any) : Completion number :=
  pp <- progressPayload data ;;
  value <- GetOpt pp "minRefreshSeconds" ;;
  Normal (match value with
          | JNumber n => if isFinite n then n else Fin 30
          | _ => Fin 30
          end).

Definition nextSessionTime (data : any) : Completion (option string) :=
  p <- payload data ;;
  session <- GetOpt p "session" ;;
  value <- GetOpt session "nextValidationTime" ;;
  Normal (match value with JString s => Some s | _ => None end).

(* ================================================================== *)
(** ** Address lookup

    [searchAddress] stands for [searchAddress.value], the text typed in the
    input. *)

Definition normalizedSearchAddress (searchAddress : string) : string :=
  toLowerCase (trim searchAddress).

Definition hasSearchValue (searchAddress : string) : bool :=
  (0 <? String.length (normalizedSearchAddress searchAddress))%nat.

Definition isLowerHex (c : ascii) : bool :=
  let n := nat_of_ascii c in
  ((48 <=? n) && (n <=? 57) || (97 <=? n) && (n <=? 102))%nat.

(** [addressPattern.test(s)] for [addressPattern = /^0x[a-f0-9]{40}$/]. *)
Definition addressPattern_test (s : string) : bool :=
  match s with
  | String "0" (String "x" rest) =>
      (String.length rest =? 40)%nat
      && forallb isLowerHex (list_ascii_of_string rest)
  | _ => false
  end.

Definition isSearchAddressValid (searchAddress : string) : bool :=
  if negb (hasSearchValue searchAddress) then true
  else addressPattern_test (normalizedSearchAddress searchAddress).

Definition foundIdentity (searchAddress : string) (data : any) : Completion any :=
  if negb (hasSearchValue searchAddress) || negb (isSearchAddressValid searchAddress)
  then Normal null
  else
    let address := normalizedSearchAddress searchAddress in
    rows <- identityLookup data ;;
    r <- findM (fun row => a <- Get row "address" ;;
                           Normal (strictEqString a address)) rows ;;
    Normal (match r with Some row => nullish row null | None => null end).

Definition showSearchNotFound (searchAddress : string) (data : any)
  : Completion bool :=
  if hasSearchValue searchAddress then
    if isSearchAddressValid searchAddress then
      f <- foundIdentity searchAddress data ;;
      Normal (negb (ToBoolean f))
    else Normal false
  else Normal false.

(** What the lookup panel of the template shows: its chain of
    [v-if] / [v-else-if] blocks, in order. *)
Inductive LookupPanel : Type :=
| EnterAnAddress
| FormatLooksInvalid
| ResultCard (row : any)
| AddressNotFound
| NothingShown.

Definition lookupPanel (searchAddress : string) (data : any)
  : Completion LookupPanel :=
  if negb (hasSearchValue searchAddress) then Normal EnterAnAddress
  else if negb (isSearchAddressValid searchAddress) then Normal FormatLooksInvalid
  else
    f <- foundIdentity searchAddress data ;;
    if ToBoolean f then Normal (ResultCard f)
    else
      nf <- showSearchNotFound searchAddress data ;;
      Normal (if nf then AddressNotFound else NothingShown).

(* ================================================================== *)
(** ** Countdown *)

Definition formatDuration (totalSeconds : number) : string :=
  let safe := Math_max [Fin 0; Math_floor totalSeconds] in
  let days := Math_floor (num_div safe (Fin 86400)) in
  let hours := Math_floor (num_div (num_rem safe (Fin 86400)) (Fin 3600)) in
  let minutes := Math_floor (num_div (num_rem safe (Fin 3600)) (Fin 60)) in
  let seconds := num_rem safe (Fin 60) in
  NumberToString days ++ "d "
    ++ padStart 2 "0" (NumberToString hours) ++ "h "
    ++ padStart 2 "0" (NumberToString minutes) ++ "m "
    ++ padStart 2 "0" (NumberToString seconds) ++ "s".

(** [nextSessionTime] is the string of the snapshot or [null]; [nowMs] is
    the reading of the clock the timer stores. *)
Definition secondsUntilNextSession (nextSessionTime : option string)
                                   (nowMs : number) : option number :=
  match nextSessionTime with
  | None => None
  | Some iso =>
      if (iso =? "")%string then None
      else
        let ms := Date_parse iso in
        if negb (isFinite ms) then None
        else Some (Math_floor (num_div (num_sub ms nowMs) (Fin 1000)))
  end.

Definition nextSessionCountdownLabel (nextSessionTime : option string)
                                     (nowMs : number) : string :=
  match secondsUntilNextSession nextSessionTime nowMs with
  | None => "Unavailable"
  | Some seconds =>
      if num_leb seconds (Fin 0) then "Session started"
      else formatDuration seconds
  end.

(* ================================================================== *)
(** ** Chart geometry *)

Definition CHART_WIDTH : number := Fin 720.
Definition CHART_HEIGHT : number := Fin 220.

Definition toChartPoints (points : list ProgressPoint)
                         (selector : ProgressPoint -> number) : list ChartPoint :=
  match points with
  | [] => []
  | first :: _ =>
      let baseTime := Date_parse (timestamp first) in
      if negb (isFinite baseTime) then []
      else
        compact
          (map (fun point =>
                  let ts := Date_parse (timestamp point) in
                  if negb (isFinite ts) then None
                  else Some {|
                    elapsedSeconds :=
                      Math_max [Fin 0; num_div (num_sub ts baseTime) (Fin 1000)];
                    value := selector point
                  |})
               points)
  end.

(** [array.map((x, index) => ...)] *)
Fixpoint mapi_from {A B} (i : nat) (f : A -> nat -> B) (l : list A) : list B :=
  match l with
  | [] => []
  | x :: r => f x i :: mapi_from (S i) f r
  end.

Definition mapi {A B} (f : A -> nat -> B) (l : list A) : list B :=
  mapi_from 0 f l.

Definition buildLinePath (points : list ChartPoint)
                         (maxElapsedSeconds maxValue : number) : string :=
  match points with
  | [] => ""
  | _ =>
      let safeMaxElapsed :=
        if num_gtb maxElapsedSeconds (Fin 0) then maxElapsedSeconds else Fin 1 in
      let safeMax := if num_gtb maxValue (Fin 0) then maxValue else Fin 1 in
      match points with
      | [only] =>
          let y := num_sub CHART_HEIGHT
                     (num_mul (num_div (value only) safeMax) CHART_HEIGHT) in
          "M0 " ++ toFixed2 y ++ " L" ++ NumberToString CHART_WIDTH
            ++ " " ++ toFixed2 y
      | _ =>
          String.concat " "
            (mapi (fun point index =>
                     let x := num_mul (num_div (elapsedSeconds point) safeMaxElapsed)
                                CHART_WIDTH in
                     let y := num_sub CHART_HEIGHT
                                (num_mul (num_div (value point) safeMax)
                                   CHART_HEIGHT) in
                     (if (index =? 0)%nat then "M" else "L")
                       ++ toFixed2 x ++ " " ++ toFixed2 y)
                  points)
      end
  end.

Record MetricChart : Type := {
  currentPath : string;
  trailingPaths : list ChartLine;
  chart_maxValue : number;
  chart_maxElapsedSeconds : number;
  latestValue : number
}.

Definition buildMetricChart (currentSeries : option ProgressEpochSeries)
                            (previousSeries : list ProgressEpochSeries)
                            (selector : ProgressPoint -> number) : MetricChart :=
  let currentPoints :=
    toChartPoints (match currentSeries with Some s => points s | None => [] end)
      selector in
  let trailingSeries :=
    map (fun series => (epoch series, toChartPoints (points series) selector))
      previousSeries in
  let allSeries := currentPoints :: map snd trailingSeries in
  let maxElapsedSeconds :=
    Math_max (Fin 1 :: flat_map (fun series => map elapsedSeconds series) allSeries) in
  let maxValue :=
    Math_max (Fin 1 :: flat_map (fun series => map value series) allSeries) in
  let trailingPaths :=
    mapi (fun series index => {|
            line_epoch := fst series;
            path := buildLinePath (snd series) maxElapsedSeconds maxValue;
            opacity := if (index =? 0)%nat then 45 # 100 else 24 # 100
          |}) trailingSeries in
  let currentPath := buildLinePath currentPoints maxElapsedSeconds maxValue in
  let latestValue := last (map value currentPoints) (Fin 0) in
  {| currentPath := currentPath;
     trailingPaths := trailingPaths;
     chart_maxValue := maxValue;
     chart_maxElapsedSeconds := maxElapsedSeconds;
     latestValue := latestValue |}.

Definition metricChart (selector : ProgressPoint -> number) (data : any)
  : Completion MetricChart :=
  currentSeries <- progressCurrentSeries data ;;
  previousSeries <- progressPreviousSeries data ;;
  Normal (buildMetricChart currentSeries previousSeries selector).

Definition flipsChart (data : any) : Completion MetricChart :=
  metricChart flipsSeen data.

Definition authorsChart (data : any) : Completion MetricChart :=
  metricChart uniqueAuthors data.

(* ================================================================== *)
(** ** The other computeds and helpers of the page *)

Definition progressNextRefreshAt (data : any) : Completion (option string) :=
  pp <- progressPayload data ;;
  value <- GetOpt pp "nextRefreshAt" ;;
  Normal (match value with JString s => Some s | _ => None end).

(** [array.join(separator)] *)
Definition joinWith (separator : string) (l : list any) : Completion string :=
  parts <- mapM (fun x => match x with
                          | undefined | null => Normal ""
                          | _ => ToString x
                          end) l ;;
  Normal (String.concat separator parts).

Definition gradeStatusLabel (data : any) : Completion string :=
  g <- gradeLeaderboard data ;;
  filters <- GetOpt g "filters" ;;
  statusList <- GetOpt filters "status" ;;
  match statusList with
  | JArray (x :: l) => joinWith ", " (x :: l)
  | _ => Normal "All"
  end.

(** The time value of [new Date(s)]: the parsed value, clipped. *)
Definition TimeClip (t : number) : number :=
  match t with
  | Fin q =>
      if Qle_bool (Qabs q) (inject_Z 8640000000000000)
      then Fin (inject_Z (Qtrunc q))
      else NaN
  | _ => NaN
  end.

(** [value] is a string or [undefined]. *)
Definition formatTimestamp (value : option string) : string :=
  match value with
  | None => "-"
  | Some value =>
      if (value =? "")%string then "-"
      else
        let parsed := TimeClip (Date_parse value) in
        if isNaN parsed then "-" else Date_toLocaleString parsed
  end.

(** [s.slice(0, n)] and [s.slice(-n)] *)
Definition sliceFirst (n : nat) (s : string) : string :=
  string_of_list_ascii (firstn n (list_ascii_of_string s)).

Definition sliceLast (n : nat) (s : string) : string :=
  string_of_list_ascii
    (skipn (String.length s - n) (list_ascii_of_string s)).

Definition shortAddress (address : option string) : string :=
  match address with
  | None => "-"
  | Some address =>
      if (address =? "")%string then "-"
      else if (String.length address <? 18)%nat then address
      else sliceFirst 10 address ++ "..." ++ sliceLast 6 address
  end.

Definition shortHash (value : option string) : string :=
  match value with
  | None => "-"
  | Some value =>
      if (value =? "")%string then "-"
      else if (String.length value <? 24)%nat then value
      else sliceFirst 12 value ++ "..." ++ sliceLast 8 value
  end.

(** The test of the filter in [formatWords]: [Boolean(value && value.trim())]. *)
Definition keepsWord (value : option string) : bool :=
  match value with
  | None => false
  | Some value =>
      if (value =? "")%string then false else negb (trim value =? "")%string
  end.

Definition formatWords (word1 word2 : option string) : string :=
  let words :=
    flat_map (fun value => match value with Some w => [w] | None => [] end)
             (filter keepsWord [word1; word2]) in
  if (0 <? List.length words)%nat then String.concat " / " words else "-".

Definition chartElapsedLabel (data : any) : Completion string :=
  chart <- flipsChart data ;;
  Normal (formatDuration (chart_maxElapsedSeconds chart)).

(** What the page shows: the chain of [v-if] / [v-else-if] blocks under the
    header.  [pending], [error] and [data] are the values of the refs of the
    fetch. *)
Inductive PageBlock : Type :=
| Scanning
| NetworkError (message : any)
| ScriptError (message : any)
| Dashboard (payload : any)
| NoBlock.

Definition pageBlock (pending : bool) (error data : any) : Completion PageBlock :=
  if pending then Normal Scanning
  else if ToBoolean error then
    message <- Get error "message" ;; Normal (NetworkError message)
  else
    failed <- (if ToBoolean data
               then success <- Get data "success" ;;
                    Normal (negb (ToBoolean success))
               else Normal false) ;;
    if failed then message <- Get data "error" ;; Normal (ScriptError message)
    else
      p <- payload data ;;
      Normal (if ToBoolean p then Dashboard p else NoBlock).

(* ================================================================== *)
(** ** The scan endpoint

    The handler of [/api/scan] runs its steps in order inside one [try];
    a step answers a value or throws an [Error] with a message.  [ScanRun]
    holds what the steps of one request do. *)

Inductive Outcome (A : Type) : Type :=
| Done (a : A)
| Failed (message : string).

Arguments Done {A} a.
Arguments Failed {A} message.

Definition andThen {A B} (o : Outcome A) (k : A -> Outcome B) : Outcome B :=
  match o with
  | Done a => k a
  | Failed m => Failed m
  end.

Record ScanRun : Type := {
  existsSync_outDir : bool;
  rm_outDir : Outcome unit;
  mkdir_outDir : Outcome unit;
  execAsync_command : Outcome unit;
  readdir_outDir : Outcome (list string);
  readFile_in_outDir : string -> Outcome string;
  JSON_parse : string -> Outcome any
}.

(** [s.endsWith(suffix)] *)
Definition endsWith (suffix s : string) : bool :=
  (sliceLast (String.length suffix) s =? suffix)%string
  && (String.length suffix <=? String.length s)%nat.

Definition scanSteps (run : ScanRun) : Outcome any :=
  andThen (if existsSync_outDir run then rm_outDir run else Done tt) (fun _ =>
  andThen (mkdir_outDir run) (fun _ =>
  andThen (execAsync_command run) (fun _ =>
  andThen (readdir_outDir run) (fun files =>
  match find (endsWith ".meta.json") files with
  | None => Failed "The Python script did not generate any JSON file."
  | Some jsonFile =>
      andThen (readFile_in_outDir run jsonFile) (fun content =>
      andThen (JSON_parse run content) (fun parsed =>
      Done (JObject [("success", JBool true); ("data", parsed)])))
  end)))).

Definition scanHandler (run : ScanRun) : any :=
  match scanSteps run with
  | Done response => response
  | Failed message =>
      JObject [("success", JBool false);
               ("error", JString message);
               ("command_failed", JBool true)]
  end.

(* ================================================================== *)
(** ** Vocabulary of the statements *)

(** No object inside [v] has an own property named [toString]: the values on
    which the conversion to a primitive cannot raise. *)
Fixpoint plain (v : any) : bool :=
  match v with
  | JArray l => forallb plain l
  | JObject props =>
      negb (hasOwn "toString" props)
      && forallb (fun kv => plain (snd kv)) props
  | _ => true
  end.

(** A point as the normaliser types it: both counters are finite. *)
Definition finitePoint (p : ProgressPoint) : bool :=
  isFinite (flipsSeen p) && isFinite (uniqueAuthors p).

Definition finiteSeries (s : ProgressEpochSeries) : bool :=
  forallb finitePoint (points s).

(** A candidate point the normaliser keeps: object-shaped, with a string
    under [timestamp]. *)
Definition keepsPoint (point : any) : bool :=
  isObjectLike point
  && match Get point "timestamp" with
     | Normal (JString _) => true
     | _ => false
     end.

(** The value a kept point gets for a counter read as [v]: the coercion of
    [v ?? 0], or 0 when that is not finite. *)
Definition counterOf (v : any) : Completion number :=
  n <- ToNumber (nullish v (JNumber (Fin 0))) ;;
  Normal (if isFinite n then n else Fin 0).

Definition field (point : any) (k : string) : any :=
  match Get point k with Normal x => x | Throw _ => undefined end.

Definition keptPoint (point : any) : Completion ProgressPoint :=
  flipsSeen <- counterOf (field point "flipsSeen") ;;
  uniqueAuthors <- counterOf (field point "uniqueAuthors") ;;
  Normal {|
    timestamp := match field point "timestamp" with JString s => s | _ => "" end;
    flipsSeen := flipsSeen;
    uniqueAuthors := uniqueAuthors
  |}.

(** The counter and the point kept, as plain values: what [counterOf] and
    [keptPoint] answer when no conversion raises. *)
Definition counterValue (v : any) : number :=
  match counterOf v with Normal n => n | Throw _ => Fin 0 end.

Definition pointOf (point : any) : ProgressPoint := {|
  timestamp := match field point "timestamp" with JString s => s | _ => "" end;
  flipsSeen := counterValue (field point "flipsSeen");
  uniqueAuthors := counterValue (field point "uniqueAuthors")
|}.

(** A previous-epoch entry the normaliser keeps: object-shaped, with an
    epoch that coerces to a finite number above zero. *)
Definition epochOf (series : any) : number :=
  match ToNumber (nullish (field series "epoch") (JNumber (Fin 0))) with
  | Normal n => n
  | Throw _ => NaN
  end.

Definition keepsSeries (series : any) : bool :=
  isObjectLike series
  && isFinite (epochOf series) && num_gtb (epochOf series) (Fin 0).

Definition pointsOf (pts : any) : list ProgressPoint :=
  match pts with
  | JArray l => map pointOf (filter keepsPoint l)
  | _ => []
  end.

Definition keptSeries (series : any) : ProgressEpochSeries := {|
  epoch := epochOf series;
  points := pointsOf (field series "points")
|}.

(** The values the series computeds read from the snapshot. *)
Definition seriesSource (data : any) : Completion any :=
  pp <- progressPayload data ;;
  GetOpt pp "series".

Definition currentEpochSource (data : any) : Completion any :=
  series <- seriesSource data ;;
  GetOpt series "currentEpoch".

Definition previousEpochsSource (data : any) : Completion any :=
  series <- seriesSource data ;;
  GetOpt series "previousEpochs".

Definition identityLookupSource (data : any) : Completion any :=
  g <- gradeLeaderboard data ;;
  GetOpt g "identityLookup".

Definition arrayElements (v : any) : list any :=
  match v with JArray l => l | _ => [] end.

(** A point whose timestamp parses to a finite time value, and the chart
    point it becomes for a series that starts at [baseTime]. *)
Definition parses (point : ProgressPoint) : bool :=
  isFinite (Date_parse (timestamp point)).

Definition chartPointOf (baseTime : number)
                        (selector : ProgressPoint -> number)
                        (point : ProgressPoint) : ChartPoint := {|
  elapsedSeconds :=
    Math_max [Fin 0;
              num_div (num_sub (Date_parse (timestamp point)) baseTime) (Fin 1000)];
  value := selector point
|}.

(** The scale a line is drawn with, and the coordinates of a chart point. *)
Definition safeScale (m : number) : number :=
  if num_gtb m (Fin 0) then m else Fin 1.

Definition scaledX (maxElapsedSeconds : number) (p : ChartPoint) : number :=
  num_mul (num_div (elapsedSeconds p) (safeScale maxElapsedSeconds)) CHART_WIDTH.

Definition scaledY (maxValue : number) (p : ChartPoint) : number :=
  num_sub CHART_HEIGHT
    (num_mul (num_div (value p) (safeScale maxValue)) CHART_HEIGHT).

(** One drawing command: its letter and its two coordinates. *)
Definition command (letter : string) (x y : number) : string :=
  letter ++ toFixed2 x ++ " " ++ toFixed2 y.

Definition currentPoints (cur : option ProgressEpochSeries) : list ProgressPoint :=
  match cur with Some s => points s | None => [] end.

(** The row test of the lookup. *)
Definition rowMatches (address : string) (row : any) : bool :=
  strictEqString (field row "address") address.

(** Two decimal digits. *)
Definition digitChar (d : Z) : ascii := ascii_of_nat (48 + Z.to_nat d).

Definition twoDigits (z : Z) : string :=
  String (digitChar (z / 10)) (String (digitChar (z mod 10)) "").

Fixpoint lastChar (s : string) : option ascii :=
  match s with
  | "" => None
  | String c "" => Some c
  | String _ r => lastChar r
  end.

(** The values [Number] and [String] raise on: an object with an own
    [toString] property, or an array that has one among its elements, at any
    depth of nested arrays. *)
Fixpoint shadowed (v : any) : bool :=
  match v with
  | JArray l => existsb shadowed l
  | JObject props => hasOwn "toString" props
  | _ => false
  end.

(** A candidate point, a previous-epoch entry, whose conversion raises. *)
Definition pointRaises (point : any) : bool :=
  keepsPoint point
  && (shadowed (field point "flipsSeen")
      || shadowed (field point "uniqueAuthors")).

Definition pointsRaise (pts : any) : bool :=
  existsb pointRaises (arrayElements pts).

Definition seriesRaises (series : any) : bool :=
  isObjectLike series
  && (shadowed (field series "epoch")
      || keepsSeries series && pointsRaise (field series "points")).

(** The characters [trim] leaves. *)
Definition trimmed (l : list ascii) : list ascii :=
  rev (dropWhile isWhiteSpace (rev (dropWhile isWhiteSpace l))).

(** [value || undefined], as the template passes the optional strings to
    [formatTimestamp]. *)
Definition orUndefined (value : option string) : option string :=
  match value with
  | Some s => if (s =? "")%string then None else Some s
  | None => None
  end.

(** A word of white space only. *)
Definition blank (w : string) : bool :=
  forallb isWhiteSpace (list_ascii_of_string w).

(** Two requests to the scan endpoint: one whose script leaves a snapshot
    file behind, one whose script fails. *)
Definition sampleScanRun : ScanRun := {|
  existsSync_outDir := true;
  rm_outDir := Done tt;
  mkdir_outDir := Done tt;
  execAsync_command := Done tt;
  readdir_outDir := Done ["flips.csv"; "epoch.meta.json"; "older.meta.json"];
  readFile_in_outDir := fun name =>
    if (name =? "epoch.meta.json")%string then Done "{}"
    else Failed "ENOENT: no such file or directory";
  JSON_parse := fun content =>
    if (content =? "{}")%string then Done (JObject [])
    else Failed "Unexpected end of JSON input"
|}.

Definition failedScanRun : ScanRun := {|
  existsSync_outDir := false;
  rm_outDir := Failed "EACCES: permission denied";
  mkdir_outDir := Done tt;
  execAsync_command := Failed "Command failed: python3";
  readdir_outDir := Done [];
  readFile_in_outDir := fun _ => Failed "ENOENT: no such file or directory";
  JSON_parse := fun _ => Failed "Unexpected end of JSON input"
|}.

(** The text an element contributes to [array.join]. *)
Definition joinText (x : any) : string :=
  match x with
  | undefined | null => ""
  | _ => match ToString x with Normal text => text | Throw _ => "" end
  end.

(** The value at [gradeLeaderboard?.filters?.status]. *)
Definition statusList (leaderboard : any) : any :=
  field (field leaderboard "filters") "status".

(** The two answers of the scan endpoint. *)
Definition successResponse (parsed : any) : any :=
  JObject [("success", JBool true); ("data", parsed)].

Definition failureResponse (message : string) : any :=
  JObject [("success", JBool false);
           ("error", JString message);
           ("command_failed", JBool true)].

(** A positive integer. *)
Definition isPositiveInteger (n : number) : bool :=
  match n with
  | Fin q => isInteger q && Qlt_bool 0 q
  | _ => false
  end.

(* ================================================================== *)
(** * Properties *)

(** ** The order on numbers *)

Lemma Qlt_bool_iff (x y : Q) : Qlt_bool x y = true <-> (x < y)%Q.
Proof.
  unfold Qlt_bool. rewrite negb_true_iff. split; intro H.
  - apply Qnot_le_lt. intro L. apply Qle_bool_iff in L. congruence.
  - destruct (Qle_bool y x) eqn:E; [|reflexivity].
    apply Qle_bool_iff in E. lra.
Qed.

Lemma Qlt_bool_false (x y : Q) : Qlt_bool x y = false <-> (y <= x)%Q.
Proof.
  unfold Qlt_bool. rewrite negb_false_iff. apply Qle_bool_iff.
Qed.

Lemma Qle_bool_false (x y : Q) : Qle_bool x y = false <-> (y < x)%Q.
Proof.
  rewrite <- Qlt_bool_iff. unfold Qlt_bool.
  destruct (Qle_bool x y); simpl; split; intro H;
    first [reflexivity | discriminate].
Qed.

Ltac num_order :=
  repeat match goal with
         | n : number |- _ => destruct n as [| [|] | ?]
         end;
  simpl in *; try discriminate; try reflexivity; try assumption;
  repeat match goal with
         | H : Qle_bool _ _ = true |- _ => apply Qle_bool_iff in H
         | H : Qle_bool _ _ = false |- _ => apply Qle_bool_false in H
         | H : Qlt_bool _ _ = true |- _ => apply Qlt_bool_iff in H
         | H : Qlt_bool _ _ = false |- _ => apply Qlt_bool_false in H
         end;
  try (apply Qle_bool_iff); try (apply Qlt_bool_iff); try lra.

Lemma num_leb_refl (a : number) : isNaN a = false -> num_leb a a = true.
Proof. intro H. num_order. Qed.

Lemma num_leb_trans (a b c : number) :
  num_leb a b = true -> num_leb b c = true -> num_leb a c = true.
Proof. intros H1 H2. num_order. Qed.

Lemma max2_bounds (a b : number) :
  isNaN a = false -> isNaN b = false ->
  isNaN (max2 a b) = false /\
  num_leb a (max2 a b) = true /\ num_leb b (max2 a b) = true.
Proof.
  intros Ha Hb. unfold max2.
  destruct (num_ltb a b) eqn:E;
    destruct a as [| [|] | x], b as [| [|] | y]; simpl in *;
    try discriminate; repeat split; try reflexivity;
    try (apply Qle_bool_iff);
    try (apply Qlt_bool_iff in E); try (apply Qlt_bool_false in E); lra.
Qed.

Lemma fold_max2_bounds (l : list number) (acc : number) :
  isNaN acc = false -> forallb (fun x => negb (isNaN x)) l = true ->
  isNaN (fold_left max2 l acc) = false /\
  num_leb acc (fold_left max2 l acc) = true /\
  (forall x, In x l -> num_leb x (fold_left max2 l acc) = true).
Proof.
  revert acc. induction l as [|y l IH]; intros acc Hacc Hl; simpl in *.
  - repeat split; [assumption | now apply num_leb_refl | contradiction].
  - apply andb_true_iff in Hl. destruct Hl as [Hy Hl].
    apply negb_true_iff in Hy.
    destruct (max2_bounds acc y Hacc Hy) as (Hn & Ha & Hb).
    destruct (IH (max2 acc y) Hn Hl) as (Hn' & Hm & Hall).
    repeat split.
    + assumption.
    + eapply num_leb_trans; eassumption.
    + intros x [<- | Hx].
      * eapply num_leb_trans; eassumption.
      * now apply Hall.
Qed.

(** With a floor among its arguments and no [NaN], [Math.max] answers a
    number that is at least the floor and at least every argument. *)
Lemma Math_max_floor_bounds (floor : number) (l : list number) :
  isNaN floor = false -> forallb (fun x => negb (isNaN x)) l = true ->
  isNaN (Math_max (floor :: l)) = false /\
  num_leb floor (Math_max (floor :: l)) = true /\
  (forall x, In x l -> num_leb x (Math_max (floor :: l)) = true).
Proof.
  intros Hf Hl. unfold Math_max. cbn [fold_left].
  assert (E : max2 (Infinity true) floor = floor)
    by (destruct floor as [| [|] | q]; simpl in *; congruence).
  rewrite E. now apply fold_max2_bounds.
Qed.

Lemma fold_max2_In (l : list number) (acc : number) :
  isNaN acc = false -> forallb (fun x => negb (isNaN x)) l = true ->
  In (fold_left max2 l acc) (acc :: l).
Proof.
  revert acc. induction l as [|y l IH]; intros acc Hacc Hl; simpl in *.
  - now left.
  - apply andb_true_iff in Hl. destruct Hl as [Hy Hl].
    apply negb_true_iff in Hy.
    destruct (max2_bounds acc y Hacc Hy) as (Hn & _ & _).
    destruct (IH (max2 acc y) Hn Hl) as [E | Hin].
    + rewrite <- E. unfold max2.
      destruct acc as [| sa |a], y as [| sy |b]; try discriminate;
        match goal with
        | |- context [if ?c then _ else _] => destruct c
        end; auto.
    + right. now right.
Qed.

(** ... and that number is the floor or one of the arguments. *)
Lemma Math_max_floor_In (floor : number) (l : list number) :
  isNaN floor = false -> forallb (fun x => negb (isNaN x)) l = true ->
  In (Math_max (floor :: l)) (floor :: l).
Proof.
  intros Hf Hl. unfold Math_max. cbn [fold_left].
  assert (E : max2 (Infinity true) floor = floor)
    by (destruct floor as [| [|] | q]; simpl in *; congruence).
  rewrite E. now apply fold_max2_In.
Qed.

(** ** Completions and traversals *)

Lemma mapM_Normal_inv {A B} (f : A -> Completion B) (l : list A) (rs : list B) :
  mapM f l = Normal rs -> Forall2 (fun x y => f x = Normal y) l rs.
Proof.
  revert rs. induction l as [|x l IH]; intros rs H; simpl in H.
  - injection H as <-. constructor.
  - destruct (f x) as [y|e] eqn:Ex; simpl in H; [|discriminate].
    destruct (mapM f l) as [ys|e] eqn:El; simpl in H; [|discriminate].
    injection H as <-. constructor; [assumption | now apply IH].
Qed.

Lemma mapM_total {A B} (f : A -> Completion B) (l : list A) :
  (forall x, In x l -> exists y, f x = Normal y) ->
  exists rs, mapM f l = Normal rs.
Proof.
  induction l as [|x l IH]; intro H; simpl.
  - now exists [].
  - destruct (H x (or_introl eq_refl)) as [y Ey]. rewrite Ey. simpl.
    destruct IH as [ys Eys]; [intros; apply H; now right|].
    rewrite Eys. simpl. now exists (y :: ys).
Qed.

Lemma compact_In {A} (l : list (option A)) (x : A) :
  In x (compact l) <-> In (Some x) l.
Proof.
  induction l as [|[y|] l IH]; simpl.
  - tauto.
  - rewrite IH. split; intros [E|H]; auto; left; congruence.
  - rewrite IH. split; [auto | intros [E|H]; [discriminate | assumption]].
Qed.

(** ** Reading properties *)

Lemma isObjectLike_cases (v : any) :
  isObjectLike v = true ->
  (exists l, v = JArray l) \/ (exists props, v = JObject props).
Proof.
  destruct v; unfold isObjectLike; simpl; try discriminate;
    try (rewrite andb_false_r; discriminate); eauto.
Qed.

Lemma Get_objectLike (v : any) (k : string) :
  isObjectLike v = true -> Get v k = Normal (field v k).
Proof.
  intro H. destruct (isObjectLike_cases v H) as [[l ->]|[props ->]]; reflexivity.
Qed.

Lemma GetOpt_total (v : any) (k : string) : exists x, GetOpt v k = Normal x.
Proof. destruct v; simpl; eauto. Qed.

Lemma lookup_plain (k : string) (props : list (string * any)) (x : any) :
  forallb (fun kv => plain (snd kv)) props = true ->
  lookup k props = Some x -> plain x = true.
Proof.
  induction props as [|[k' v] props IH]; simpl; [discriminate|].
  intros H E. apply andb_true_iff in H. destruct H as [Hv Hr].
  destruct (k =? k')%string; [congruence | now apply IH].
Qed.

Lemma Get_plain (v : any) (k : string) (x : any) :
  plain v = true -> Get v k = Normal x -> plain x = true.
Proof.
  destruct v; simpl; intros Hp E; try discriminate;
    try (injection E as <-; reflexivity).
  apply andb_true_iff in Hp. destruct Hp as [_ Hp].
  injection E as <-. destruct (lookup k props) eqn:L; [|reflexivity].
  eapply lookup_plain; eassumption.
Qed.

Lemma GetOpt_plain (v : any) (k : string) (x : any) :
  plain v = true -> GetOpt v k = Normal x -> plain x = true.
Proof.
  destruct v; simpl; intros Hp E; try (injection E as <-; reflexivity).
  eapply (Get_plain (JObject props)); eassumption.
Qed.

Lemma field_plain (v : any) (k : string) :
  plain v = true -> plain (field v k) = true.
Proof.
  intro Hp. unfold field. destruct (Get v k) eqn:E; [|reflexivity].
  eapply Get_plain; eassumption.
Qed.

Lemma nullish_plain (v d : any) :
  plain v = true -> plain d = true -> plain (nullish v d) = true.
Proof. destruct v; simpl; auto. Qed.

(** ** Conversions that cannot raise *)

Section AnyInduction.

Variable P : any -> Prop.
Hypothesis P_undefined : P undefined.
Hypothesis P_null : P null.
Hypothesis P_bool : forall b, P (JBool b).
Hypothesis P_number : forall n, P (JNumber n).
Hypothesis P_string : forall s, P (JString s).
Hypothesis P_array : forall l, Forall P l -> P (JArray l).
Hypothesis P_object :
  forall props, Forall (fun kv => P (snd kv)) props -> P (JObject props).

Fixpoint any_nested_ind (v : any) : P v :=
  match v with
  | undefined => P_undefined
  | null => P_null
  | JBool b => P_bool b
  | JNumber n => P_number n
  | JString s => P_string s
  | JArray l =>
      P_array l
        ((fix elements (l : list any) : Forall P l :=
            match l with
            | [] => Forall_nil P
            | x :: r => Forall_cons x (any_nested_ind x) (elements r)
            end) l)
  | JObject props =>
      P_object props
        ((fix members (l : list (string * any))
            : Forall (fun kv => P (snd kv)) l :=
            match l with
            | [] => Forall_nil _
            | kv :: r =>
                Forall_cons kv (any_nested_ind (snd kv)) (members r)
            end) props)
  end.

End AnyInduction.

Lemma ToString_plain (v : any) :
  plain v = true -> exists s, ToString v = Normal s.
Proof.
  induction v using any_nested_ind; intro Hp; simpl; eauto.
  - (* arrays *)
    simpl in Hp.
    match goal with
    | |- exists s, bind (?join l) _ = _ =>
        assert (J : exists parts, join l = Normal parts)
    end.
    { induction l as [|x l IHl]; [now exists []|].
      inversion H as [|? ? Hx Hl]; subst.
      simpl in Hp. apply andb_true_iff in Hp. destruct Hp as [Px Pl].
      destruct (IHl Hl Pl) as [parts Eparts].
      assert (Ex : exists sx,
                 match x with
                 | undefined | null => Normal ""
                 | _ => ToString x
                 end = Normal sx).
      { destruct x; eauto. }
      destruct Ex as [sx Ex]. rewrite Ex. simpl. rewrite Eparts. simpl. eauto. }
    destruct J as [parts ->]. simpl. eauto.
  - (* objects *)
    simpl in Hp. apply andb_true_iff in Hp. destruct Hp as [Hts _].
    apply negb_true_iff in Hts. rewrite Hts. eauto.
Qed.

Lemma ToNumber_plain (v : any) :
  plain v = true -> exists n, ToNumber v = Normal n.
Proof.
  intro Hp. destruct (ToString_plain v Hp) as [s E].
  destruct v; unfold ToNumber; try rewrite E; simpl; eauto.
Qed.

(** The defect this development records: a counter that is an object with an
    own [toString] property makes [Number] raise. *)
Lemma ToNumber_raises (props : list (string * any)) :
  hasOwn "toString" props = true -> ToNumber (JObject props) = Throw TypeError.
Proof. intro H. simpl. rewrite H. reflexivity. Qed.

Lemma counterOf_plain (v : any) :
  plain v = true ->
  exists n, counterOf v = Normal n /\ isFinite n = true.
Proof.
  intro Hp. unfold counterOf.
  destruct (ToNumber_plain (nullish v (JNumber (Fin 0)))) as [n E].
  { now apply nullish_plain. }
  rewrite E. simpl. destruct n; simpl; eauto.
Qed.

(** ** The point normaliser *)

Lemma normalizePoint_unfold (point : any) :
  normalizePoint point =
  if keepsPoint point then p <- keptPoint point ;; Normal (Some p)
  else Normal None.
Proof.
  unfold normalizePoint, keepsPoint.
  destruct (isObjectLike point) eqn:O; simpl; [|reflexivity].
  rewrite (Get_objectLike point "timestamp" O). simpl.
  destruct (field point "timestamp") eqn:T; try reflexivity.
  unfold keptPoint, counterOf.
  rewrite (Get_objectLike point "flipsSeen" O). simpl.
  destruct (ToNumber (nullish (field point "flipsSeen") (JNumber (Fin 0))));
    simpl; [|reflexivity].
  rewrite (Get_objectLike point "uniqueAuthors" O). simpl.
  destruct (ToNumber (nullish (field point "uniqueAuthors") (JNumber (Fin 0))));
    simpl; [|reflexivity].
  rewrite T. reflexivity.
Qed.

(** Mapping the callback and filtering the nulls away is mapping the kept
    candidates, in their order. *)
Lemma normalizePoints_unfold (l : list any) :
  normalizePoints (JArray l) = mapM keptPoint (filter keepsPoint l).
Proof.
  unfold normalizePoints.
  induction l as [|x l IH]; [reflexivity|].
  simpl. rewrite normalizePoint_unfold.
  destruct (keepsPoint x); simpl.
  - destruct (keptPoint x) as [p|e]; simpl; [|reflexivity].
    rewrite <- IH.
    destruct (mapM normalizePoint l); reflexivity.
  - rewrite <- IH.
    destruct (mapM normalizePoint l); reflexivity.
Qed.

Lemma keptPoint_finite (point : any) (p : ProgressPoint) :
  keptPoint point = Normal p -> finitePoint p = true.
Proof.
  unfold keptPoint, counterOf, finitePoint.
  destruct (ToNumber (nullish (field point "flipsSeen") (JNumber (Fin 0))))
    as [a|]; simpl; [|discriminate].
  destruct (ToNumber (nullish (field point "uniqueAuthors") (JNumber (Fin 0))))
    as [b|]; simpl; [|discriminate].
  intro E. injection E as <-. simpl.
  destruct a, b; reflexivity.
Qed.

Lemma keptPoint_total (point : any) :
  plain point = true -> exists p, keptPoint point = Normal p.
Proof.
  intro Hp. unfold keptPoint.
  destruct (counterOf_plain (field point "flipsSeen")) as (a & -> & _);
    [now apply field_plain|].
  destruct (counterOf_plain (field point "uniqueAuthors")) as (b & -> & _);
    [now apply field_plain|].
  simpl. eauto.
Qed.

Lemma mapM_keptPoint_finite (l : list any) (ps : list ProgressPoint) :
  mapM keptPoint l = Normal ps -> forallb finitePoint ps = true.
Proof.
  intro H. apply mapM_Normal_inv in H.
  induction H as [|x p l ps Hx _ IH]; [reflexivity|].
  simpl. rewrite (keptPoint_finite x p Hx). exact IH.
Qed.

Lemma normalizePoints_finite (pts : any) (ps : list ProgressPoint) :
  normalizePoints pts = Normal ps -> forallb finitePoint ps = true.
Proof.
  destruct pts; try (intro E; injection E as <-; reflexivity).
  rewrite normalizePoints_unfold. apply mapM_keptPoint_finite.
Qed.

Lemma plain_elements (l : list any) (x : any) :
  plain (JArray l) = true -> In x l -> plain x = true.
Proof.
  simpl. intros H Hx. rewrite forallb_forall in H. now apply H.
Qed.

Lemma normalizePoints_total (pts : any) :
  plain pts = true -> exists ps, normalizePoints pts = Normal ps.
Proof.
  intro Hp. destruct pts; try (simpl; eauto; fail).
  rewrite normalizePoints_unfold. apply mapM_total.
  intros x Hx. apply filter_In in Hx. destruct Hx as [Hx _].
  apply keptPoint_total. eapply plain_elements; eassumption.
Qed.

(** ** The series normaliser *)

Lemma normalizeSeries_typed (series : any) (s : ProgressEpochSeries) :
  normalizeSeries series = Normal (Some s) ->
  isFinite (epoch s) = true /\ num_gtb (epoch s) (Fin 0) = true
  /\ finiteSeries s = true.
Proof.
  unfold normalizeSeries.
  destruct (isObjectLike series) eqn:O; simpl; [|discriminate].
  rewrite (Get_objectLike series "epoch" O). simpl.
  destruct (ToNumber (nullish (field series "epoch") (JNumber (Fin 0))))
    as [n|]; simpl; [|discriminate].
  destruct (isFinite n) eqn:F; simpl; [|discriminate].
  destruct (num_leb n (Fin 0)) eqn:L; [discriminate|].
  rewrite (Get_objectLike series "points" O). simpl.
  destruct (normalizePoints (field series "points")) as [ps|] eqn:Eps;
    simpl; [|discriminate].
  intro E. injection E as <-. simpl. repeat split.
  - assumption.
  - destruct n as [| |q]; try discriminate. simpl in *.
    apply Qlt_bool_iff. apply Qle_bool_false in L. exact L.
  - unfold finiteSeries. simpl. eapply normalizePoints_finite; eassumption.
Qed.

Lemma normalizeSeries_total (series : any) :
  plain series = true -> exists r, normalizeSeries series = Normal r.
Proof.
  intro Hp. unfold normalizeSeries.
  destruct (isObjectLike series) eqn:O; simpl; [|eauto].
  rewrite (Get_objectLike series "epoch" O). simpl.
  destruct (ToNumber_plain (nullish (field series "epoch") (JNumber (Fin 0))))
    as [n ->].
  { apply nullish_plain; [now apply field_plain | reflexivity]. }
  simpl. destruct (negb (isFinite n) || num_leb n (Fin 0)); [eauto|].
  rewrite (Get_objectLike series "points" O). simpl.
  destruct (normalizePoints_total (field series "points")) as [ps ->];
    [now apply field_plain|].
  simpl. eauto.
Qed.

(** ** The sources never raise *)

Lemma payload_total (data : any) :
  exists p, payload data = Normal p /\ (plain data = true -> plain p = true).
Proof.
  unfold payload. destruct (GetOpt_total data "data") as [v E].
  rewrite E. simpl. eexists. split; [reflexivity|].
  intro Hp. apply nullish_plain; [|reflexivity].
  eapply GetOpt_plain; eassumption.
Qed.

Lemma objectOrNull_total (f : any -> Completion any) (k : string) (data : any) :
  (forall d, f d = (p <- payload d ;; value <- GetOpt p k ;;
                    Normal (if isObjectLike value then value else null))) ->
  exists g, f data = Normal g
            /\ (g = null \/ isObjectLike g = true)
            /\ (plain data = true -> plain g = true).
Proof.
  intro Hf. rewrite Hf.
  destruct (payload_total data) as (p & -> & Pp). simpl.
  destruct (GetOpt_total p k) as [value E]. rewrite E. simpl.
  eexists. split; [reflexivity|]. split.
  - destruct (isObjectLike value) eqn:O; auto.
  - intro Hd. destruct (isObjectLike value); [|reflexivity].
    eapply GetOpt_plain; [apply Pp, Hd | eassumption].
Qed.

Lemma gradeLeaderboard_total (data : any) :
  exists g, gradeLeaderboard data = Normal g
            /\ (g = null \/ isObjectLike g = true)
            /\ (plain data = true -> plain g = true).
Proof. now apply (objectOrNull_total gradeLeaderboard "gradeLeaderboard"). Qed.

Lemma progressPayload_total (data : any) :
  exists pp, progressPayload data = Normal pp
             /\ (pp = null \/ isObjectLike pp = true)
             /\ (plain data = true -> plain pp = true).
Proof. now apply (objectOrNull_total progressPayload "progress"). Qed.

Lemma seriesSource_total (data : any) :
  exists v, seriesSource data = Normal v /\ (plain data = true -> plain v = true).
Proof.
  unfold seriesSource.
  destruct (progressPayload_total data) as (pp & -> & _ & Pp). simpl.
  destruct (GetOpt_total pp "series") as [v E]. rewrite E.
  eexists. split; [reflexivity|]. intro Hd.
  eapply GetOpt_plain; [apply Pp, Hd | eassumption].
Qed.

Lemma currentEpochSource_total (data : any) :
  exists v, currentEpochSource data = Normal v
            /\ (plain data = true -> plain v = true).
Proof.
  unfold currentEpochSource.
  destruct (seriesSource_total data) as (sr & -> & Ps). simpl.
  destruct (GetOpt_total sr "currentEpoch") as [v E]. rewrite E.
  eexists. split; [reflexivity|]. intro Hd.
  eapply GetOpt_plain; [apply Ps, Hd | eassumption].
Qed.

Lemma previousEpochsSource_total (data : any) :
  exists v, previousEpochsSource data = Normal v
            /\ (plain data = true -> plain v = true).
Proof.
  unfold previousEpochsSource.
  destruct (seriesSource_total data) as (sr & -> & Ps). simpl.
  destruct (GetOpt_total sr "previousEpochs") as [v E]. rewrite E.
  eexists. split; [reflexivity|]. intro Hd.
  eapply GetOpt_plain; [apply Ps, Hd | eassumption].
Qed.

Lemma bind_assoc {A B C} (c : Completion A) (f : A -> Completion B)
      (g : B -> Completion C) :
  (y <- (x <- c ;; f x) ;; g y) = (x <- c ;; y <- f x ;; g y).
Proof. destruct c; reflexivity. Qed.

Lemma progressCurrentSeries_source (data : any) :
  progressCurrentSeries data =
  (value <- currentEpochSource data ;;
   if negb (isObjectLike value) then Normal None
   else
     points <- normalizePoints (field value "points") ;;
     Normal (Some {|
       epoch := match field value "epoch" with JNumber n => n | _ => Fin 0 end;
       points := points |})).
Proof.
  unfold progressCurrentSeries, currentEpochSource, seriesSource.
  rewrite !bind_assoc.
  destruct (progressPayload data) as [pp|]; simpl; [|reflexivity].
  destruct (GetOpt pp "series") as [sr|]; simpl; [|reflexivity].
  destruct (GetOpt sr "currentEpoch") as [value|]; simpl; [|reflexivity].
  destruct (isObjectLike value) eqn:O; simpl; [|reflexivity].
  rewrite (Get_objectLike value "epoch" O). simpl.
  rewrite (Get_objectLike value "points" O). simpl. reflexivity.
Qed.

Lemma progressPreviousSeries_source (data : any) :
  progressPreviousSeries data =
  (rows <- previousEpochsSource data ;;
   match rows with
   | JArray l => rs <- mapM normalizeSeries l ;; Normal (firstn 2 (compact rs))
   | _ => Normal []
   end).
Proof.
  unfold progressPreviousSeries, previousEpochsSource, seriesSource.
  rewrite !bind_assoc.
  destruct (progressPayload data) as [pp|]; simpl; [|reflexivity].
  destruct (GetOpt pp "series") as [sr|]; simpl; reflexivity.
Qed.

(** ** What the normalisers keep *)

Lemma counterOf_Normal (v : any) (n : number) :
  counterOf v = Normal n -> n = counterValue v.
Proof. unfold counterValue. now intros ->. Qed.

Lemma keptPoint_Normal (point : any) (p : ProgressPoint) :
  keptPoint point = Normal p -> p = pointOf point.
Proof.
  unfold keptPoint, pointOf.
  destruct (counterOf (field point "flipsSeen")) as [a|] eqn:Ea;
    simpl; [|discriminate].
  destruct (counterOf (field point "uniqueAuthors")) as [b|] eqn:Eb;
    simpl; [|discriminate].
  intro E. injection E as <-.
  now rewrite (counterOf_Normal _ _ Ea), (counterOf_Normal _ _ Eb).
Qed.

Lemma mapM_Normal_map {A B} (f : A -> Completion B) (g : A -> B)
      (l : list A) (rs : list B) :
  (forall x y, In x l -> f x = Normal y -> y = g x) ->
  mapM f l = Normal rs -> rs = map g l.
Proof.
  intros Hg H. apply mapM_Normal_inv in H.
  induction H as [|x y l rs Hx _ IH]; [reflexivity|].
  simpl. rewrite (Hg x y (or_introl eq_refl) Hx).
  rewrite IH; [reflexivity | intros; eapply Hg; [now right | eassumption]].
Qed.

Lemma normalizePoints_Normal (pts : any) (ps : list ProgressPoint) :
  normalizePoints pts = Normal ps -> ps = pointsOf pts.
Proof.
  destruct pts; try (intro E; injection E as <-; reflexivity).
  rewrite normalizePoints_unfold. simpl pointsOf.
  apply mapM_Normal_map. intros x y _. apply keptPoint_Normal.
Qed.

Lemma normalizeSeries_Normal (series : any) (r : option ProgressEpochSeries) :
  normalizeSeries series = Normal r ->
  r = if keepsSeries series then Some (keptSeries series) else None.
Proof.
  unfold normalizeSeries, keepsSeries, keptSeries, epochOf.
  destruct (isObjectLike series) eqn:O; simpl;
    [|intro E; now injection E as <-].
  rewrite (Get_objectLike series "epoch" O). simpl.
  destruct (ToNumber (nullish (field series "epoch") (JNumber (Fin 0))))
    as [n|]; simpl; [|discriminate].
  destruct n as [| sg |q]; simpl; try (intro E; now injection E as <-).
  unfold num_gtb, num_ltb, Qlt_bool.
  destruct (Qle_bool q 0) eqn:L; simpl; [intro E; now injection E as <-|].
  rewrite (Get_objectLike series "points" O). simpl.
  destruct (normalizePoints (field series "points")) as [ps|] eqn:Eps;
    simpl; [|discriminate].
  intro E. injection E as <-.
  now rewrite (normalizePoints_Normal _ _ Eps).
Qed.

Lemma compact_map_if {A B} (keep : A -> bool) (g : A -> B) (l : list A) :
  compact (map (fun x => if keep x then Some (g x) else None) l)
  = map g (filter keep l).
Proof.
  induction l as [|x l IH]; simpl; [reflexivity|].
  destruct (keep x); simpl; now rewrite IH.
Qed.

Lemma previousSeries_Normal (l : list any) (out : list ProgressEpochSeries) :
  (rs <- mapM normalizeSeries l ;; Normal (firstn 2 (compact rs))) = Normal out ->
  out = firstn 2 (map keptSeries (filter keepsSeries l)).
Proof.
  destruct (mapM normalizeSeries l) as [rs|] eqn:E; simpl; [|discriminate].
  intro H. injection H as <-.
  assert (R : rs = map (fun x => if keepsSeries x then Some (keptSeries x)
                                 else None) l).
  { eapply mapM_Normal_map; [|exact E].
    intros x y _. apply normalizeSeries_Normal. }
  rewrite R. now rewrite compact_map_if.
Qed.

Lemma keptSeries_typed (series : any) :
  keepsSeries series = true ->
  isFinite (epoch (keptSeries series)) = true
  /\ num_gtb (epoch (keptSeries series)) (Fin 0) = true.
Proof.
  unfold keepsSeries. simpl. intro H.
  apply andb_true_iff in H. destruct H as [H G].
  apply andb_true_iff in H. destruct H as [_ F]. now split.
Qed.

(** ** The normaliser: what it keeps and what it types *)

(** The two series computeds apply [normalizePoints] to the [points] of the
    value they read. *)
Lemma progressCurrentSeries_points (data : any) (s : ProgressEpochSeries) :
  progressCurrentSeries data = Normal (Some s) ->
  exists value, currentEpochSource data = Normal value
                /\ isObjectLike value = true
                /\ normalizePoints (field value "points") = Normal (points s)
                /\ epoch s = match field value "epoch" with
                             | JNumber n => n
                             | _ => Fin 0
                             end.
Proof.
  rewrite progressCurrentSeries_source.
  destruct (currentEpochSource data) as [value|]; simpl; [|discriminate].
  destruct (isObjectLike value) eqn:O; simpl; [|discriminate].
  destruct (normalizePoints (field value "points")) as [ps|] eqn:E;
    simpl; [|discriminate].
  intro H. injection H as <-. exists value. simpl. auto.
Qed.

(** Whenever the normaliser of a list of candidate points returns, it has
    kept exactly the object-shaped elements whose [timestamp] is a string,
    in their input order, and in each kept point a counter ([flipsSeen],
    [uniqueAuthors]) whose coercion is not a finite number is 0, so both
    counters of a kept point are finite. *)
Lemma progress_points_kept_in_order (l : list any) (out : list ProgressPoint) :
  normalizePoints (JArray l) = Normal out ->
  out = map pointOf (filter keepsPoint l)
  /\ Forall (fun p => isFinite (flipsSeen p) = true
                      /\ isFinite (uniqueAuthors p) = true) out
  /\ (forall point k n,
        In point l -> keepsPoint point = true ->
        ToNumber (nullish (field point k) (JNumber (Fin 0))) = Normal n ->
        counterValue (field point k) = if isFinite n then n else Fin 0).
Proof.
  intro H. split; [|split].
  - apply normalizePoints_Normal in H. exact H.
  - apply normalizePoints_finite in H. rewrite forallb_forall in H.
    apply Forall_forall. intros p Hp. specialize (H p Hp).
    unfold finitePoint in H. now apply andb_true_iff in H.
  - intros point k n _ _ E. unfold counterValue, counterOf. now rewrite E.
Qed.

(** Whenever the normaliser of [previousEpochs] returns, its result is made
    of the entries whose epoch coerces to a finite number above zero, taken
    in their input order and cut to the first two after that filtering; the
    entries are not sorted. *)
Lemma previous_epochs_filtered_then_capped
        (data : any) (out : list ProgressEpochSeries) :
  progressPreviousSeries data = Normal out ->
  exists rows,
    previousEpochsSource data = Normal rows
    /\ out = firstn 2 (map keptSeries (filter keepsSeries (arrayElements rows)))
    /\ (List.length out <= 2)%nat
    /\ Forall (fun s => isFinite (epoch s) = true
                        /\ num_gtb (epoch s) (Fin 0) = true) out.
Proof.
  rewrite progressPreviousSeries_source.
  destruct (previousEpochsSource data) as [rows|]; simpl; [|discriminate].
  intro H. exists rows. split; [reflexivity|].
  assert (E : out = firstn 2 (map keptSeries
                                (filter keepsSeries (arrayElements rows)))).
  { destruct rows; try (injection H as <-; reflexivity).
    now apply previousSeries_Normal. }
  split; [exact E|]. split.
  - rewrite E. apply firstn_le_length.
  - rewrite E. apply Forall_forall. intros s Hs.
    assert (Hs' : In s (map keptSeries (filter keepsSeries (arrayElements rows)))).
    { pose proof (firstn_skipn 2 (map keptSeries
                     (filter keepsSeries (arrayElements rows)))) as FS.
      rewrite <- FS. apply in_or_app. now left. }
    apply in_map_iff in Hs'. destruct Hs' as (series & <- & Hin).
    apply filter_In in Hin. destruct Hin as [_ K].
    now apply keptSeries_typed.
Qed.

(** C2, at the failing input.  The candidate [shadowedPoint] is
    object-shaped and its [timestamp] is a string, so the specification
    keeps it with [flipsSeen] replaced by 0, the value not being coercible
    to a finite number.  The page raises instead: [Number] converts the
    object to a primitive, the own [toString] cannot be called, and the
    [TypeError] leaves the callback, the array traversal and the computed
    of the current series. *)
Theorem shadowed_counter_is_not_replaced :
  keepsPoint shadowedPoint = true
  /\ ToNumber (nullish (field shadowedPoint "flipsSeen") (JNumber (Fin 0)))
     = Throw TypeError
  /\ normalizePoint shadowedPoint = Throw TypeError
  /\ normalizePoints (JArray [shadowedPoint]) = Throw TypeError
  /\ progressCurrentSeries shadowedCounterSnapshot = Throw TypeError.
Proof. repeat split. Qed.

(** C7, at the failing input.  The first two entries of
    [shadowedEpochRows] are kept by the callback, with epochs 170 and 169;
    the epoch of the third does not coerce to a finite number above zero,
    so the specification drops it and answers the first two.  The page
    raises instead, in the conversion of that epoch. *)
Theorem shadowed_epoch_is_not_dropped :
  previousEpochsSource shadowedEpochSnapshot = Normal (JArray shadowedEpochRows)
  /\ map normalizeSeries (firstn 2 shadowedEpochRows)
     = [Normal (Some {| epoch := Fin 170; points := [] |});
        Normal (Some {| epoch := Fin 169; points := [] |})]
  /\ map normalizeSeries (skipn 2 shadowedEpochRows) = [Throw TypeError]
  /\ progressPreviousSeries shadowedEpochSnapshot = Throw TypeError.
Proof. repeat split. Qed.

Lemma previous_epochs_typed (data : any) (out : list ProgressEpochSeries) :
  progressPreviousSeries data = Normal out ->
  Forall (fun s => isFinite (epoch s) = true
                   /\ num_gtb (epoch s) (Fin 0) = true
                   /\ finiteSeries s = true) out.
Proof.
  rewrite progressPreviousSeries_source.
  destruct (previousEpochsSource data) as [rows|]; simpl; [|discriminate].
  destruct rows; try (intro H; injection H as <-; constructor).
  destruct (mapM normalizeSeries elements) as [rs|] eqn:E; simpl; [|discriminate].
  intro H. injection H as <-.
  apply mapM_Normal_inv in E. apply Forall_forall. intros s Hs.
  assert (Hs' : In s (compact rs)).
  { rewrite <- (firstn_skipn 2 (compact rs)). apply in_or_app. now left. }
  apply compact_In in Hs'.
  clear Hs. induction E as [|x y l rs' Hx _ IH]; [contradiction|].
  destruct Hs' as [-> | Hin]; [|now apply IH].
  now apply normalizeSeries_typed in Hx.
Qed.

(** C8, as amended.  Each previous-epoch series the normaliser keeps has a
    finite epoch above zero; the current-epoch series carries the epoch of
    the snapshot as it is when that is a number, and 0 otherwise. *)
Theorem series_epochs (data : any) :
  (forall s, progressCurrentSeries data = Normal (Some s) ->
             exists value,
               currentEpochSource data = Normal value
               /\ epoch s = match field value "epoch" with
                            | JNumber n => n
                            | _ => Fin 0
                            end)
  /\ (forall out s, progressPreviousSeries data = Normal out -> In s out ->
                    isFinite (epoch s) = true
                    /\ num_gtb (epoch s) (Fin 0) = true).
Proof.
  split.
  - intros s H.
    destruct (progressCurrentSeries_points data s H) as (value & E & _ & _ & Ep).
    exists value. now split.
  - intros out s H Hs.
    pose proof (previous_epochs_typed data out H) as F.
    rewrite Forall_forall in F. destruct (F s Hs) as (A & B & _). now split.
Qed.

Lemma GetOpt_field (v : any) (k : string) :
  v = null \/ isObjectLike v = true -> GetOpt v k = Normal (field v k).
Proof.
  intros [-> | O]; [reflexivity|].
  destruct (isObjectLike_cases v O) as [[l ->]|[props ->]]; reflexivity.
Qed.

Lemma leaderboardArray_total (k : string) (data : any) :
  exists g, gradeLeaderboard data = Normal g
            /\ (g = null \/ isObjectLike g = true)
            /\ (g <- gradeLeaderboard data ;;
                value <- GetOpt g k ;;
                Normal (match value with JArray l => l | _ => [] end))
               = Normal (arrayElements (field g k)).
Proof.
  destruct (gradeLeaderboard_total data) as (g & E & Hg & _).
  exists g. split; [exact E|]. split; [exact Hg|].
  rewrite E. simpl. rewrite (GetOpt_field g k Hg). reflexivity.
Qed.

(** C3. The derived [identityLookup] is [topIdentities] when the snapshot's
    [identityLookup] is absent, is not an array, or is an array without
    elements; in the remaining case, a non-empty array, it is that array as
    it stands, with its length. *)
Theorem identityLookup_override_or_fallback (data : any) :
  exists src,
    identityLookupSource data = Normal src
    /\ ((src = undefined \/ (forall l, src <> JArray l) \/ src = JArray []) ->
        identityLookup data = topIdentities data)
    /\ (forall l, src = JArray l -> l <> [] ->
                  identityLookup data = Normal l
                  /\ exists rows, identityLookup data = Normal rows
                                  /\ List.length rows = List.length l).
Proof.
  unfold identityLookupSource, identityLookup.
  destruct (gradeLeaderboard_total data) as (g & -> & _ & _). simpl.
  destruct (GetOpt_total g "identityLookup") as [src ->]. simpl.
  exists src. split; [reflexivity|]. split.
  - intros [-> | [N | ->]]; try reflexivity.
    destruct src as [| | | | |[|x l]|]; try reflexivity.
    now destruct (N (x :: l)).
  - intros l -> Hl. destruct l as [|x l]; [congruence|].
    split; [reflexivity|]. now exists (x :: l).
Qed.

(** C1, as amended.  On every decoded input in which no object has an own
    property named [toString], none of the normalising computeds raises.
    [gradeLeaderboard] is an object or [null]; [topIdentities] and
    [topFlips] are the arrays of the snapshot as they stand, elements
    unchecked, or empty; the current series, when there is one, and the
    previous series hold only points with finite counters, the previous
    series have a finite epoch above zero; [progressMinRefresh] is finite. *)
Theorem normalizer_never_raises_on_plain_input (data : any) :
  plain data = true ->
  exists g ti il tf cur prev mr,
    gradeLeaderboard data = Normal g
    /\ (g = null \/ isObjectLike g = true)
    /\ topIdentities data = Normal ti
    /\ ti = arrayElements (field g "topIdentities")
    /\ identityLookup data = Normal il
    /\ topFlips data = Normal tf
    /\ tf = arrayElements (field g "topFlips")
    /\ progressCurrentSeries data = Normal cur
    /\ (forall s, cur = Some s -> finiteSeries s = true)
    /\ progressPreviousSeries data = Normal prev
    /\ Forall (fun s => isFinite (epoch s) = true
                        /\ num_gtb (epoch s) (Fin 0) = true
                        /\ finiteSeries s = true) prev
    /\ progressMinRefresh data = Normal mr
    /\ isFinite mr = true.
Proof.
  intro Hp.
  destruct (leaderboardArray_total "topIdentities" data) as (g & Eg & Hg & Eti).
  destruct (leaderboardArray_total "topFlips" data) as (g' & Eg' & _ & Etf).
  assert (g' = g) by congruence. subst g'.
  assert (Eil : exists il, identityLookup data = Normal il).
  { unfold identityLookup. rewrite Eg. simpl.
    rewrite (GetOpt_field g "identityLookup" Hg). simpl.
    destruct (field g "identityLookup") as [| | | | |[|x l]|];
      try (eexists; exact Eti). now exists (x :: l). }
  destruct Eil as [il Eil].
  assert (Ecur : exists cur, progressCurrentSeries data = Normal cur).
  { rewrite progressCurrentSeries_source.
    destruct (currentEpochSource_total data) as (value & -> & Pv). simpl.
    destruct (isObjectLike value); simpl; [|eauto].
    destruct (normalizePoints_total (field value "points")) as [ps ->];
      [apply field_plain, Pv, Hp|].
    simpl. eauto. }
  destruct Ecur as [cur Ecur].
  assert (Eprev : exists prev, progressPreviousSeries data = Normal prev).
  { rewrite progressPreviousSeries_source.
    destruct (previousEpochsSource_total data) as (rows & -> & Pr). simpl.
    destruct rows; try (eexists; reflexivity).
    destruct (mapM_total normalizeSeries elements) as [rs ->].
    - intros x Hx. apply normalizeSeries_total.
      eapply plain_elements; [apply Pr, Hp | exact Hx].
    - simpl. eauto. }
  destruct Eprev as [prev Eprev].
  assert (Emr : exists mr, progressMinRefresh data = Normal mr
                           /\ isFinite mr = true).
  { unfold progressMinRefresh.
    destruct (progressPayload_total data) as (pp & -> & _ & _). simpl.
    destruct (GetOpt_total pp "minRefreshSeconds") as [value ->]. simpl.
    eexists. split; [reflexivity|].
    destruct value as [| | |[| |q]| | |]; reflexivity. }
  destruct Emr as (mr & Emr & Fmr).
  exists g, (arrayElements (field g "topIdentities")), il,
         (arrayElements (field g "topFlips")), cur, prev, mr.
  repeat split; try assumption; try reflexivity.
  - intros s ->.
    destruct (progressCurrentSeries_points data _ Ecur) as (value & _ & _ & En & _).
    unfold finiteSeries. eapply normalizePoints_finite; exact En.
  - now apply (previous_epochs_typed data).
Qed.

(** ** Chart points *)

Lemma unparsable_timestamps_drop
      (first : ProgressPoint) (rest : list ProgressPoint)
      (selector : ProgressPoint -> number) :
  parses first = true ->
  toChartPoints (first :: rest) selector
  = map (chartPointOf (Date_parse (timestamp first)) selector)
        (filter parses (first :: rest)).
Proof.
  unfold toChartPoints, parses. intro H. rewrite H. cbn [negb].
  generalize (first :: rest) as l.
  induction l as [|x l IH]; [reflexivity|].
  cbn [map filter]. destruct (isFinite (Date_parse (timestamp x))); simpl.
  - now rewrite IH.
  - exact IH.
Qed.

(** C10. When the first timestamp of a series does not parse to a finite
    time value the series gives no chart point at all, whatever the later
    points hold, and its path is the empty string; when it does parse, the
    chart points are those of the points whose own timestamp parses, in
    order, every other point being dropped. *)
Theorem unparsable_timestamps_leave_the_chart
        (first : ProgressPoint) (rest : list ProgressPoint)
        (selector : ProgressPoint -> number) :
  (parses first = false ->
     toChartPoints (first :: rest) selector = []
     /\ forall e v,
          buildLinePath (toChartPoints (first :: rest) selector) e v = "")
  /\ (parses first = true ->
       toChartPoints (first :: rest) selector
       = map (chartPointOf (Date_parse (timestamp first)) selector)
             (filter parses (first :: rest))).
Proof.
  split; intro H.
  - unfold toChartPoints. unfold parses in H. rewrite H. simpl.
    split; reflexivity.
  - now apply unparsable_timestamps_drop.
Qed.

Lemma toChartPoints_cases (pts : list ProgressPoint)
      (selector : ProgressPoint -> number) :
  toChartPoints pts selector = []
  \/ exists first rest,
       pts = first :: rest /\ parses first = true
       /\ toChartPoints pts selector
          = map (chartPointOf (Date_parse (timestamp first)) selector)
                (filter parses pts).
Proof.
  destruct pts as [|first rest]; [now left|].
  destruct (parses first) eqn:P.
  - right. exists first, rest. repeat split; try assumption.
    now apply unparsable_timestamps_drop.
  - left. unfold toChartPoints. unfold parses in P. now rewrite P.
Qed.

(** ** Line paths *)

Lemma mapi_from_length {A B} (f : A -> nat -> B) (l : list A) (k : nat) :
  List.length (mapi_from k f l) = List.length l.
Proof.
  revert k. induction l as [|x l IH]; intro k; simpl; [reflexivity|].
  now rewrite IH.
Qed.

Lemma mapi_from_nth_error {A B} (f : A -> nat -> B) (l : list A) (k i : nat) :
  nth_error (mapi_from k f l) i
  = option_map (fun x => f x (k + i)%nat) (nth_error l i).
Proof.
  revert k i. induction l as [|x l IH]; intros k i; simpl.
  - now destruct i.
  - destruct i as [|i]; simpl.
    + now rewrite Nat.add_0_r.
    + rewrite IH. now rewrite Nat.add_succ_r.
Qed.

Lemma mapi_from_map {A B C} (f : A -> nat -> B) (g : B -> C) (h : A -> C)
      (l : list A) (k : nat) :
  (forall x i, g (f x i) = h x) -> map g (mapi_from k f l) = map h l.
Proof.
  intro H. revert k. induction l as [|x l IH]; intro k; simpl; [reflexivity|].
  now rewrite H, IH.
Qed.

(** C4. The path of a series without points is the empty string.  The path
    of a series with one point is a move to the left edge and a line to the
    right edge, [CHART_WIDTH] = 720, both at the scaled height of that
    point.  The path of a series with N >= 2 points is made of N commands
    separated by spaces, the first a move [M] and each other a line [L], the
    i-th command carrying the scaled coordinates of the i-th point: one
    command per input point, in input order. *)
Theorem line_path_shape (pts : list ChartPoint) (e v : number) :
  (pts = [] -> buildLinePath pts e v = "")
  /\ (forall p, pts = [p] ->
                buildLinePath pts e v
                = "M0 " ++ toFixed2 (scaledY v p)
                    ++ " L720 " ++ toFixed2 (scaledY v p))
  /\ ((2 <= List.length pts)%nat ->
      exists cmds,
        List.length cmds = List.length pts
        /\ buildLinePath pts e v = String.concat " " cmds
        /\ forall i p,
             nth_error pts i = Some p ->
             nth_error cmds i
             = Some (command (if (i =? 0)%nat then "M" else "L")
                             (scaledX e p) (scaledY v p))).
Proof.
  split; [|split].
  - now intros ->.
  - intros p ->. reflexivity.
  - intro L.
    destruct pts as [|a [|b rest]]; simpl in L; try lia.
    eexists. split; [|split].
    2: { unfold buildLinePath. reflexivity. }
    + unfold mapi. apply mapi_from_length.
    + intros i p Hi. unfold mapi. rewrite mapi_from_nth_error, Hi. reflexivity.
Qed.

(** ** Shared axes *)

Lemma chartPoint_origin (pts : list ProgressPoint)
      (selector : ProgressPoint -> number) (p : ChartPoint) :
  In p (toChartPoints pts selector) ->
  isNaN (elapsedSeconds p) = false
  /\ exists x, In x pts /\ value p = selector x.
Proof.
  destruct (toChartPoints_cases pts selector)
    as [-> | (first & rest & -> & P & ->)]; [contradiction|].
  intro H. apply in_map_iff in H. destruct H as (x & <- & Hx).
  apply filter_In in Hx. destruct Hx as [Hx Px].
  split; [|now exists x].
  unfold parses in P, Px. simpl.
  destruct (Date_parse (timestamp first)) as [| |b]; try discriminate.
  destruct (Date_parse (timestamp x)) as [| |t]; try discriminate.
  unfold Math_max, num_sub, num_div. simpl.
  destruct (Qlt_bool 0 ((t - b) / 1000)); reflexivity.
Qed.

Lemma safeScale_at_least_one (m : number) :
  num_leb (Fin 1) m = true -> safeScale m = m.
Proof.
  intro H. unfold safeScale, num_gtb.
  destruct m as [| [|] |q]; simpl in *; try discriminate; try reflexivity.
  apply Qle_bool_iff in H.
  assert (L : Qlt_bool 0 q = true) by (apply Qlt_bool_iff; lra).
  now rewrite L.
Qed.

Lemma buildMetricChart_axes (cur : option ProgressEpochSeries)
      (prev : list ProgressEpochSeries) (selector : ProgressPoint -> number) :
  (forall pts x, In pts (currentPoints cur :: map points prev) ->
                 In x pts -> isNaN (selector x) = false) ->
  let chart := buildMetricChart cur prev selector in
  let mE := chart_maxElapsedSeconds chart in
  let mV := chart_maxValue chart in
  num_leb (Fin 1) mE = true
  /\ num_leb (Fin 1) mV = true
  /\ currentPath chart
     = buildLinePath (toChartPoints (currentPoints cur) selector) mE mV
  /\ map path (trailingPaths chart)
     = map (fun s => buildLinePath (toChartPoints (points s) selector) mE mV) prev
  /\ (forall pts p, In pts (currentPoints cur :: map points prev) ->
                    In p (toChartPoints pts selector) ->
                    num_leb (elapsedSeconds p) mE = true
                    /\ num_leb (value p) mV = true)
  /\ (mE = Fin 1
      \/ exists pts p, In pts (currentPoints cur :: map points prev)
                       /\ In p (toChartPoints pts selector)
                       /\ elapsedSeconds p = mE)
  /\ (mV = Fin 1
      \/ exists pts p, In pts (currentPoints cur :: map points prev)
                       /\ In p (toChartPoints pts selector)
                       /\ value p = mV).
Proof.
  intros Hsel chart mE mV.
  set (allSeries := map (fun pts => toChartPoints pts selector)
                        (currentPoints cur :: map points prev)).
  assert (EE : mE = Math_max (Fin 1 :: flat_map (map elapsedSeconds) allSeries)).
  { unfold mE, chart, buildMetricChart, allSeries. simpl.
    now rewrite !map_map. }
  assert (EV : mV = Math_max (Fin 1 :: flat_map (map value) allSeries)).
  { unfold mV, chart, buildMetricChart, allSeries. simpl.
    now rewrite !map_map. }
  assert (NE : forallb (fun x => negb (isNaN x))
                       (flat_map (map elapsedSeconds) allSeries) = true).
  { apply forallb_forall. intros x Hx.
    apply in_flat_map in Hx. destruct Hx as (series & Hs & Hx).
    apply in_map_iff in Hx. destruct Hx as (p & <- & Hp).
    apply in_map_iff in Hs. destruct Hs as (pts & <- & Hpts).
    apply chartPoint_origin in Hp. destruct Hp as [-> _]. reflexivity. }
  assert (NV : forallb (fun x => negb (isNaN x))
                       (flat_map (map value) allSeries) = true).
  { apply forallb_forall. intros x Hx.
    apply in_flat_map in Hx. destruct Hx as (series & Hs & Hx).
    apply in_map_iff in Hx. destruct Hx as (p & <- & Hp).
    apply in_map_iff in Hs. destruct Hs as (pts & <- & Hpts).
    apply chartPoint_origin in Hp. destruct Hp as (_ & y & Hy & ->).
    now rewrite (Hsel pts y Hpts Hy). }
  destruct (Math_max_floor_bounds (Fin 1) _ eq_refl NE) as (_ & LE & UE).
  destruct (Math_max_floor_bounds (Fin 1) _ eq_refl NV) as (_ & LV & UV).
  rewrite <- EE in LE, UE. rewrite <- EV in LV, UV.
  pose proof (Math_max_floor_In (Fin 1) _ eq_refl NE) as IE.
  pose proof (Math_max_floor_In (Fin 1) _ eq_refl NV) as IV.
  rewrite <- EE in IE. rewrite <- EV in IV.
  split; [exact LE|]. split; [exact LV|]. split; [reflexivity|].
  split; [|split; [|split]].
  - unfold chart, buildMetricChart. cbn [trailingPaths].
    unfold mapi. rewrite mapi_from_map
      with (h := fun sp : number * list ChartPoint =>
                   buildLinePath (snd sp) mE mV).
    + rewrite map_map. reflexivity.
    + intros. reflexivity.
  - intros pts p Hpts Hp. split.
    + apply UE. apply in_flat_map.
      exists (toChartPoints pts selector). split.
      * unfold allSeries.
        now apply (in_map (fun pts => toChartPoints pts selector)).
      * now apply (in_map elapsedSeconds).
    + apply UV. apply in_flat_map.
      exists (toChartPoints pts selector). split.
      * unfold allSeries.
        now apply (in_map (fun pts => toChartPoints pts selector)).
      * now apply (in_map value).
  - destruct IE as [E | Hin]; [now left | right].
    apply in_flat_map in Hin. destruct Hin as (series & Hs & Hx).
    apply in_map_iff in Hx. destruct Hx as (p & Ep & Hp).
    apply in_map_iff in Hs. destruct Hs as (pts & <- & Hpts).
    now exists pts, p.
  - destruct IV as [E | Hin]; [now left | right].
    apply in_flat_map in Hin. destruct Hin as (series & Hs & Hx).
    apply in_map_iff in Hx. destruct Hx as (p & Ep & Hp).
    apply in_map_iff in Hs. destruct Hs as (pts & <- & Hpts).
    now exists pts, p.
Qed.

Lemma progressCurrentSeries_finite (data : any) (cur : option ProgressEpochSeries) :
  progressCurrentSeries data = Normal cur ->
  forallb finitePoint (currentPoints cur) = true.
Proof.
  intro H. destruct cur as [s|]; [|reflexivity].
  destruct (progressCurrentSeries_points data s H) as (value & _ & _ & En & _).
  simpl. eapply normalizePoints_finite; exact En.
Qed.

(** C5. Each chart of the page, the one of the flips seen and the one of the
    unique authors, is drawn with one maximum elapsed time and one maximum
    value: both are at least 1, both bound every chart point of the current
    and of every trailing series, and the path of the current series and
    the path of each trailing series are built with that same pair, which is
    the scale the lines are drawn with.  Each maximum is the floor 1 or is
    reached by a chart point of one of the series.  The series are those
    the normaliser hands over, whose counters are finite; nothing else is
    asked of them: some or all may be empty. *)
Theorem chart_axes_shared (selector : ProgressPoint -> number)
        (cur : option ProgressEpochSeries) (prev : list ProgressEpochSeries) :
  selector = flipsSeen \/ selector = uniqueAuthors ->
  forallb finitePoint (currentPoints cur) = true ->
  Forall (fun s => finiteSeries s = true) prev ->
  let chart := buildMetricChart cur prev selector in
  let mE := chart_maxElapsedSeconds chart in
  let mV := chart_maxValue chart in
  num_leb (Fin 1) mE = true
  /\ num_leb (Fin 1) mV = true
  /\ safeScale mE = mE
  /\ safeScale mV = mV
  /\ currentPath chart
     = buildLinePath (toChartPoints (currentPoints cur) selector) mE mV
  /\ map path (trailingPaths chart)
     = map (fun s => buildLinePath (toChartPoints (points s) selector) mE mV) prev
  /\ (forall pts p, In pts (currentPoints cur :: map points prev) ->
                    In p (toChartPoints pts selector) ->
                    num_leb (elapsedSeconds p) mE = true
                    /\ num_leb (value p) mV = true)
  /\ (mE = Fin 1
      \/ exists pts p, In pts (currentPoints cur :: map points prev)
                       /\ In p (toChartPoints pts selector)
                       /\ elapsedSeconds p = mE)
  /\ (mV = Fin 1
      \/ exists pts p, In pts (currentPoints cur :: map points prev)
                       /\ In p (toChartPoints pts selector)
                       /\ value p = mV).
Proof.
  intros Hsel Fc Fp chart mE mV.
  assert (F : forall pts x, In pts (currentPoints cur :: map points prev) ->
                            In x pts -> isNaN (selector x) = false).
  { intros pts x Hpts Hx.
    assert (Fx : finitePoint x = true).
    { destruct Hpts as [<- | Hpts].
      - rewrite forallb_forall in Fc. now apply Fc.
      - apply in_map_iff in Hpts. destruct Hpts as (s & <- & Hs).
        rewrite Forall_forall in Fp. specialize (Fp s Hs).
        unfold finiteSeries in Fp. rewrite forallb_forall in Fp.
        now apply Fp. }
    unfold finitePoint in Fx. apply andb_true_iff in Fx.
    destruct Fx as [Ff Fu].
    destruct Hsel as [-> | ->].
    - destruct (flipsSeen x); try discriminate; reflexivity.
    - destruct (uniqueAuthors x); try discriminate; reflexivity. }
  destruct (buildMetricChart_axes cur prev selector F)
    as (LE & LV & Pc & Pt & U & AE & AV).
  split; [exact LE|]. split; [exact LV|].
  split; [now apply safeScale_at_least_one|].
  split; [now apply safeScale_at_least_one|].
  split; [exact Pc|]. split; [exact Pt|]. split; [exact U|].
  split; [exact AE | exact AV].
Qed.

(** The series the two computeds hand over are such series. *)
Lemma normalised_series_finite (data : any)
      (cur : option ProgressEpochSeries) (prev : list ProgressEpochSeries) :
  progressCurrentSeries data = Normal cur ->
  progressPreviousSeries data = Normal prev ->
  forallb finitePoint (currentPoints cur) = true
  /\ Forall (fun s => finiteSeries s = true) prev.
Proof.
  intros Ec Ep. split.
  - now apply (progressCurrentSeries_finite data).
  - pose proof (previous_epochs_typed data prev Ep) as F.
    rewrite Forall_forall in F. apply Forall_forall.
    intros s Hs. now destruct (F s Hs) as (_ & _ & Fs).
Qed.

(** ** Address lookup *)

Lemma Get_present (v : any) (k : string) :
  v <> undefined -> v <> null -> Get v k = Normal (field v k).
Proof. destruct v; intros U N; try reflexivity; congruence. Qed.

Lemma findM_rows (address : string) (rows : list any) :
  Forall (fun row => row <> undefined /\ row <> null) rows ->
  findM (fun row => a <- Get row "address" ;;
                    Normal (strictEqString a address)) rows
  = Normal (find (rowMatches address) rows).
Proof.
  induction 1 as [|row rows [U N] _ IH]; [reflexivity|].
  simpl. rewrite (Get_present row "address" U N). simpl.
  unfold rowMatches at 1.
  destruct (strictEqString (field row "address") address); [reflexivity|].
  exact IH.
Qed.

Lemma rowMatches_object (address : string) (row : any) :
  rowMatches address row = true -> exists props, row = JObject props.
Proof.
  unfold rowMatches, field.
  destruct row; simpl; try discriminate. eauto.
Qed.

Lemma hasSearchValue_empty (searchAddress : string) :
  hasSearchValue searchAddress = false
  <-> normalizedSearchAddress searchAddress = "".
Proof.
  unfold hasSearchValue.
  destruct (normalizedSearchAddress searchAddress); simpl; split;
    intro H; try reflexivity; discriminate.
Qed.

Lemma addressPattern_test_nonempty (s : string) :
  addressPattern_test s = true -> s <> "".
Proof. now destruct s. Qed.

Lemma addressPattern_test_shape (s : string) :
  addressPattern_test s = true
  <-> exists rest,
        s = String "0" (String "x" rest)
        /\ String.length rest = 40%nat
        /\ forallb isLowerHex (list_ascii_of_string rest) = true.
Proof.
  split.
  - destruct s as [|c0 [|c1 rest]]; simpl; try discriminate.
    + destruct c0 as [[] [] [] [] [] [] [] []]; discriminate.
    + destruct c0 as [[] [] [] [] [] [] [] []]; try discriminate.
      destruct c1 as [[] [] [] [] [] [] [] []]; try discriminate.
      intro H. apply andb_true_iff in H. destruct H as [L F].
      apply Nat.eqb_eq in L. now exists rest.
  - intros (rest & -> & L & F). simpl. now rewrite L, F.
Qed.

(** The lookup on rows that are rows.  The text typed, trimmed and
    lowercased, puts the panel in one state.  Empty: the prompt to enter an address.  Not empty and
    not [0x] followed by 40 characters among [0-9a-f]: the format error.
    Well formed: the card of the first row of [identityLookup] whose
    [address] is the normalised text or, when no row has it, the not-found
    notice.  The not-found flag is raised in that last case only, never for
    an empty or a malformed text, and the panel is never left without one
    of these blocks.  The rows are those of a leaderboard: none is
    [undefined] or [null]. *)
Theorem lookup_states (searchAddress : string) (data : any) (rows : list any) :
  identityLookup data = Normal rows ->
  Forall (fun row => row <> undefined /\ row <> null) rows ->
  let address := normalizedSearchAddress searchAddress in
  (address = "" ->
     lookupPanel searchAddress data = Normal EnterAnAddress
     /\ showSearchNotFound searchAddress data = Normal false)
  /\ (address <> "" -> addressPattern_test address = false ->
       lookupPanel searchAddress data = Normal FormatLooksInvalid
       /\ showSearchNotFound searchAddress data = Normal false)
  /\ (addressPattern_test address = true ->
       match find (rowMatches address) rows with
       | Some row =>
           lookupPanel searchAddress data = Normal (ResultCard row)
           /\ showSearchNotFound searchAddress data = Normal false
       | None =>
           lookupPanel searchAddress data = Normal AddressNotFound
           /\ showSearchNotFound searchAddress data = Normal true
       end)
  /\ lookupPanel searchAddress data <> Normal NothingShown.
Proof.
  intros Hrows Hok address.
  assert (Empty : address = "" ->
                  lookupPanel searchAddress data = Normal EnterAnAddress
                  /\ showSearchNotFound searchAddress data = Normal false).
  { intro E. apply hasSearchValue_empty in E.
    unfold lookupPanel, showSearchNotFound. rewrite E. now split. }
  assert (Bad : address <> "" -> addressPattern_test address = false ->
                lookupPanel searchAddress data = Normal FormatLooksInvalid
                /\ showSearchNotFound searchAddress data = Normal false).
  { intros NE B.
    assert (V : hasSearchValue searchAddress = true).
    { destruct (hasSearchValue searchAddress) eqn:V; [reflexivity|].
      apply hasSearchValue_empty in V. contradiction. }
    unfold lookupPanel, showSearchNotFound, isSearchAddressValid.
    rewrite V. simpl. fold address. rewrite B. now split. }
  assert (Good : addressPattern_test address = true ->
                 match find (rowMatches address) rows with
                 | Some row =>
                     lookupPanel searchAddress data = Normal (ResultCard row)
                     /\ showSearchNotFound searchAddress data = Normal false
                 | None =>
                     lookupPanel searchAddress data = Normal AddressNotFound
                     /\ showSearchNotFound searchAddress data = Normal true
                 end).
  { intro G.
    assert (V : hasSearchValue searchAddress = true).
    { destruct (hasSearchValue searchAddress) eqn:V; [reflexivity|].
      apply hasSearchValue_empty in V. fold address in V.
      now apply addressPattern_test_nonempty in G. }
    assert (W : isSearchAddressValid searchAddress = true).
    { unfold isSearchAddressValid. rewrite V. exact G. }
    assert (F : foundIdentity searchAddress data
                = Normal (match find (rowMatches address) rows with
                          | Some row => row
                          | None => null
                          end)).
    { unfold foundIdentity. rewrite V, W, Hrows. simpl. fold address.
      rewrite (findM_rows address rows Hok). simpl.
      destruct (find (rowMatches address) rows) as [row|] eqn:Fd;
        [|reflexivity].
      apply find_some in Fd. destruct Fd as [_ M].
      apply rowMatches_object in M. destruct M as [props ->]. reflexivity. }
    unfold lookupPanel, showSearchNotFound. rewrite V, W, F. simpl.
    destruct (find (rowMatches address) rows) as [row|] eqn:Fd.
    - apply find_some in Fd. destruct Fd as [_ M].
      apply rowMatches_object in M. destruct M as [props ->]. now split.
    - now split. }
  repeat split; try (apply Empty; assumption); try (apply Bad; assumption);
    try exact Good.
  intro Hn.
  destruct (string_dec address "") as [E|NE].
  - destruct (Empty E) as [P _]. congruence.
  - destruct (addressPattern_test address) eqn:T.
    + specialize (Good eq_refl).
      destruct (find (rowMatches address) rows); destruct Good as [P _];
        congruence.
    + destruct (Bad NE eq_refl) as [P _]. congruence.
Qed.


(** ** Countdown *)

Lemma Qfloor_inject_div (a b : Z) :
  0 < b -> Qfloor (inject_Z a / inject_Z b) = a / b.
Proof.
  intro Hb. destruct b as [|b|b]; try lia.
  unfold Qdiv, Qinv, Qmult, Qfloor, inject_Z. simpl.
  now rewrite Z.mul_1_r.
Qed.

Lemma integer_valued (q : Q) (z : Z) :
  (q == inject_Z z)%Q -> isInteger q = true /\ Qfloor q = z.
Proof.
  intro E. split.
  - unfold isInteger. apply Z.eqb_eq.
    unfold Qeq in E. simpl in E. rewrite Z.mul_1_r in E.
    rewrite E. apply Z.mod_mul. discriminate.
  - rewrite (Qfloor_comp _ _ E). apply Qfloor_Z.
Qed.

Lemma NumberToString_integer (q : Q) (z : Z) :
  (q == inject_Z z)%Q -> 0 <= z < 10 ^ 21 ->
  NumberToString (Fin q) = Z_to_string z.
Proof.
  intros E B. destruct (integer_valued q z E) as [I F].
  unfold NumberToString. rewrite I, F.
  assert (L : Qlt_bool (Qabs q) (inject_Z (10 ^ 21)) = true).
  { apply Qlt_bool_iff.
    assert (A : (Qabs q == inject_Z z)%Q).
    { rewrite E. apply Qabs_pos. change 0%Q with (inject_Z 0).
      rewrite <- Zle_Qle. lia. }
    rewrite A. rewrite <- Zlt_Qlt. lia. }
  now rewrite L.
Qed.

Lemma padStart_two_digits (z : Z) :
  0 <= z < 100 -> padStart 2 "0" (Z_to_string z) = twoDigits z.
Proof.
  intro B.
  assert (A : forallb (fun n => (padStart 2 "0" (Z_to_string (Z.of_nat n))
                                 =? twoDigits (Z.of_nat n))%string)
                      (seq 0 100) = true) by (vm_compute; reflexivity).
  rewrite forallb_forall in A.
  specialize (A (Z.to_nat z)).
  rewrite Z2Nat.id in A by lia.
  apply String.eqb_eq. apply A. apply in_seq. lia.
Qed.

Lemma num_rem_integers (z m : Z) :
  0 <= z -> 0 < m ->
  exists r, num_rem (Fin (inject_Z z)) (Fin (inject_Z m)) = Fin r
            /\ (r == inject_Z (z mod m))%Q.
Proof.
  intros Hz Hm. unfold num_rem.
  destruct (Qeq_bool (inject_Z m) 0) eqn:E.
  { apply Qeq_bool_eq in E. unfold Qeq in E. simpl in E. lia. }
  eexists. split; [reflexivity|].
  assert (T : Qtrunc (inject_Z z / inject_Z m) = z / m).
  { unfold Qtrunc.
    assert (N : Qlt_bool (inject_Z z / inject_Z m) 0 = false).
    { apply Qlt_bool_false. apply Qle_shift_div_l.
      - change 0%Q with (inject_Z 0). rewrite <- Zlt_Qlt. lia.
      - rewrite Qmult_0_l. change 0%Q with (inject_Z 0).
        rewrite <- Zle_Qle. lia. }
    rewrite N. now apply Qfloor_inject_div. }
  rewrite T. rewrite (Z.mod_eq z m) by lia.
  unfold Z.sub. rewrite inject_Z_plus, inject_Z_opp, inject_Z_mult.
  reflexivity.
Qed.

Lemma floor_of_quotient (r : Q) (z m : Z) :
  (r == inject_Z z)%Q -> 0 < m ->
  Math_floor (num_div (Fin r) (Fin (inject_Z m))) = Fin (inject_Z (z / m)).
Proof.
  intros E Hm. unfold num_div.
  destruct (Qeq_bool (inject_Z m) 0) eqn:Z0.
  { apply Qeq_bool_eq in Z0. unfold Qeq in Z0. simpl in Z0. lia. }
  cbn [Math_floor]. do 2 f_equal.
  assert (Q' : (r / inject_Z m == inject_Z z / inject_Z m)%Q) by now rewrite E.
  rewrite (Qfloor_comp _ _ Q'). now apply Qfloor_inject_div.
Qed.

Lemma lastChar_append (a b : string) :
  b <> "" -> lastChar (a ++ b) = lastChar b.
Proof.
  intro Hb. induction a as [|c a IH]; [reflexivity|].
  simpl. destruct (a ++ b)%string eqn:E; [|exact IH].
  destruct a; simpl in E; [contradiction | discriminate].
Qed.

Lemma formatDuration_ends_with_s (totalSeconds : number) :
  lastChar (formatDuration totalSeconds) = Some "s"%char.
Proof.
  unfold formatDuration.
  repeat (rewrite lastChar_append;
          [|match goal with
            | |- (?a ++ _)%string <> _ => destruct a; discriminate
            | |- _ => discriminate
            end]).
  reflexivity.
Qed.

(** The label of a whole, positive number of seconds. *)
Lemma formatDuration_positive (z : Z) :
  0 < z ->
  formatDuration (Fin (inject_Z z))
  = NumberToString (num_of_Z (z / 86400)) ++ "d "
      ++ twoDigits (z mod 86400 / 3600) ++ "h "
      ++ twoDigits (z mod 3600 / 60) ++ "m "
      ++ twoDigits (z mod 60) ++ "s".
Proof.
  intro Hz. unfold formatDuration.
  assert (S : Math_max [Fin 0; Math_floor (Fin (inject_Z z))] = Fin (inject_Z z)).
  { unfold Math_floor. rewrite Qfloor_Z. unfold Math_max. simpl.
    assert (L : Qlt_bool 0 (inject_Z z) = true).
    { apply Qlt_bool_iff. change 0%Q with (inject_Z 0).
      rewrite <- Zlt_Qlt. lia. }
    now rewrite L. }
  rewrite S.
  change (Fin 86400) with (Fin (inject_Z 86400)).
  change (Fin 3600) with (Fin (inject_Z 3600)).
  change (Fin 60) with (Fin (inject_Z 60)).
  destruct (num_rem_integers z 86400) as (r1 & -> & E1); try lia.
  destruct (num_rem_integers z 3600) as (r2 & -> & E2); try lia.
  destruct (num_rem_integers z 60) as (r3 & -> & E3); try lia.
  rewrite (floor_of_quotient (inject_Z z) z 86400) by (reflexivity || lia).
  rewrite (floor_of_quotient r1 (z mod 86400) 3600) by (assumption || lia).
  rewrite (floor_of_quotient r2 (z mod 3600) 60) by (assumption || lia).
  pose proof (Z.mod_pos_bound z 86400 ltac:(lia)) as B1.
  pose proof (Z.mod_pos_bound z 3600 ltac:(lia)) as B2.
  pose proof (Z.mod_pos_bound z 60 ltac:(lia)) as B3.
  assert (H1 : 0 <= z mod 86400 / 3600 < 24).
  { split; [apply Z.div_pos; lia | apply Z.div_lt_upper_bound; lia]. }
  assert (H2 : 0 <= z mod 3600 / 60 < 60).
  { split; [apply Z.div_pos; lia | apply Z.div_lt_upper_bound; lia]. }
  rewrite (NumberToString_integer (inject_Z (z mod 86400 / 3600))
             (z mod 86400 / 3600)) by (reflexivity || lia).
  rewrite (NumberToString_integer (inject_Z (z mod 3600 / 60))
             (z mod 3600 / 60)) by (reflexivity || lia).
  rewrite (NumberToString_integer r3 (z mod 60)) by (assumption || lia).
  rewrite !padStart_two_digits by lia.
  reflexivity.
Qed.

Lemma secondsUntilNextSession_parsed (iso : string) (ms now : Q) :
  iso <> "" -> Date_parse iso = Fin ms ->
  secondsUntilNextSession (Some iso) (Fin now)
  = Some (Fin (inject_Z (Qfloor ((ms - now) / 1000)))).
Proof.
  intros NE P. unfold secondsUntilNextSession.
  destruct (iso =? "")%string eqn:E; [apply String.eqb_eq in E; contradiction|].
  rewrite P. reflexivity.
Qed.

(** C9. The countdown label is one of three results that cannot be taken
    for one another.  Without an instant, or with one that does not parse
    to a finite time value: "Unavailable".  With an instant whose remaining
    time, floored to whole seconds, is at most 0: "Session started".
    Otherwise the floored number of seconds written as the day count
    without padding (its decimal numeral), then hours, minutes and seconds
    with two digits each; an instant 90 seconds ahead gives
    "0d 00h 01m 30s". *)
Theorem countdown_label (nextSessionTime : option string) (now : Q) :
  let label := nextSessionCountdownLabel nextSessionTime (Fin now) in
  ((nextSessionTime = None \/ nextSessionTime = Some ""
    \/ (exists iso, nextSessionTime = Some iso
                    /\ isFinite (Date_parse iso) = false)) ->
   label = "Unavailable")
  /\ (forall iso ms,
        nextSessionTime = Some iso -> iso <> "" -> Date_parse iso = Fin ms ->
        let seconds := Qfloor ((ms - now) / 1000) in
        (seconds <= 0 -> label = "Session started")
        /\ (0 < seconds ->
            label = NumberToString (num_of_Z (seconds / 86400)) ++ "d "
                      ++ twoDigits (seconds mod 86400 / 3600) ++ "h "
                      ++ twoDigits (seconds mod 3600 / 60) ++ "m "
                      ++ twoDigits (seconds mod 60) ++ "s"
            /\ (seconds / 86400 < 10 ^ 21 ->
                NumberToString (num_of_Z (seconds / 86400))
                = Z_to_string (seconds / 86400))
            /\ label <> "Unavailable"
            /\ label <> "Session started")
        /\ ((ms - now == 90000)%Q -> label = "0d 00h 01m 30s")).
Proof.
  intro label. split.
  - intros [-> | [-> | (iso & -> & F)]]; try reflexivity.
    unfold label, nextSessionCountdownLabel, secondsUntilNextSession.
    destruct (iso =? "")%string; [reflexivity|]. now rewrite F.
  - intros iso ms -> NE P seconds.
    assert (L : label = if Qle_bool (inject_Z seconds) 0
                        then "Session started"
                        else formatDuration (Fin (inject_Z seconds))).
    { unfold label, nextSessionCountdownLabel.
      now rewrite (secondsUntilNextSession_parsed iso ms now NE P). }
    assert (Pos : 0 < seconds ->
                  label = formatDuration (Fin (inject_Z seconds))).
    { intro H. rewrite L.
      destruct (Qle_bool (inject_Z seconds) 0) eqn:E; [|reflexivity].
      apply Qle_bool_iff in E. change 0%Q with (inject_Z 0) in E.
      rewrite <- Zle_Qle in E. lia. }
    split; [|split].
    + intro H. rewrite L.
      assert (E : Qle_bool (inject_Z seconds) 0 = true).
      { apply Qle_bool_iff. change 0%Q with (inject_Z 0).
        rewrite <- Zle_Qle. exact H. }
      now rewrite E.
    + intro H. specialize (Pos H). split; [|split; [|split]].
      * rewrite Pos. now apply formatDuration_positive.
      * intro B. apply NumberToString_integer; [reflexivity|].
        split; [apply Z.div_pos; lia | exact B].
      * rewrite Pos. intro E.
        pose proof (formatDuration_ends_with_s (Fin (inject_Z seconds))) as S.
        rewrite E in S. discriminate.
      * rewrite Pos. intro E.
        pose proof (formatDuration_ends_with_s (Fin (inject_Z seconds))) as S.
        rewrite E in S. discriminate.
    + intro D.
      assert (E : seconds = 90).
      { unfold seconds.
        assert (Q' : ((ms - now) / 1000 == inject_Z 90)%Q).
        { rewrite D. reflexivity. }
        rewrite (Qfloor_comp _ _ Q'). apply Qfloor_Z. }
      rewrite Pos by lia. rewrite E.
      rewrite formatDuration_positive by lia.
      reflexivity.
Qed.

(* ================================================================== *)
(** * Further properties *)

(** ** When the normalisers raise *)

Lemma ToString_shadowed (v : any) :
  ToString v = if shadowed v then Throw TypeError
               else match ToString v with
                    | Normal s => Normal s
                    | Throw _ => Normal ""
                    end.
Proof.
  induction v using any_nested_ind; try reflexivity.
  - (* arrays *)
    simpl.
    match goal with
    | |- bind (?join l) ?k = _ =>
        assert (J : join l = if existsb shadowed l then Throw TypeError
                             else match join l with
                                  | Normal s => Normal s
                                  | Throw _ => Normal []
                                  end)
    end.
    { induction l as [|x l IHl]; [reflexivity|].
      inversion H as [|? ? Hx Hl]; subst. specialize (IHl Hl).
      cbn [existsb].
      assert (Ex : match x with
                   | undefined | null => Normal ""
                   | _ => ToString x
                   end
                   = if shadowed x then Throw TypeError
                     else match (match x with
                                 | undefined | null => Normal ""
                                 | _ => ToString x
                                 end) with
                          | Normal s => Normal s
                          | Throw _ => Normal ""
                          end).
      { destruct x; try reflexivity; exact Hx. }
      destruct (shadowed x); cbn [orb].
      - rewrite Ex. reflexivity.
      - destruct (match x with
                  | undefined | null => Normal ""
                  | _ => ToString x
                  end) as [sx|e]; [|discriminate]. cbn [bind].
        destruct (existsb shadowed l).
        + rewrite IHl. reflexivity.
        + match type of IHl with
          | ?j = _ => destruct j; [reflexivity | discriminate]
          end. }
    destruct (existsb shadowed l).
    + rewrite J. reflexivity.
    + match type of J with
      | ?j = _ => destruct j; [reflexivity | discriminate]
      end.
  - (* objects *)
    simpl. destruct (hasOwn "toString" props); reflexivity.
Qed.

Lemma ToString_raises_iff (v : any) :
  (shadowed v = true -> ToString v = Throw TypeError)
  /\ (shadowed v = false -> exists s, ToString v = Normal s).
Proof.
  pose proof (ToString_shadowed v) as E. split; intro H; rewrite H in E.
  - exact E.
  - destruct (ToString v); [eauto | discriminate].
Qed.

Lemma ToNumber_raises_iff (v : any) :
  (shadowed v = true -> ToNumber v = Throw TypeError)
  /\ (shadowed v = false -> exists n, ToNumber v = Normal n).
Proof.
  destruct (ToString_raises_iff v) as [R N]. split; intro H.
  - destruct v; try discriminate; unfold ToNumber; now rewrite (R H).
  - destruct v; unfold ToNumber; try (eexists; reflexivity);
      destruct (N H) as [s ->]; eexists; reflexivity.
Qed.

Lemma shadowed_nullish (v : any) :
  shadowed (nullish v (JNumber (Fin 0))) = shadowed v.
Proof. now destruct v. Qed.

Lemma counterOf_raises_iff (v : any) :
  (shadowed v = true -> counterOf v = Throw TypeError)
  /\ (shadowed v = false -> counterOf v = Normal (counterValue v)).
Proof.
  unfold counterValue, counterOf.
  destruct (ToNumber_raises_iff (nullish v (JNumber (Fin 0)))) as [R N].
  rewrite shadowed_nullish in R, N. split; intro H.
  - now rewrite (R H).
  - destruct (N H) as [n ->]. reflexivity.
Qed.

Lemma keptPoint_raises_iff (point : any) :
  keptPoint point
  = if shadowed (field point "flipsSeen")
       || shadowed (field point "uniqueAuthors")
    then Throw TypeError else Normal (pointOf point).
Proof.
  unfold keptPoint, pointOf.
  destruct (counterOf_raises_iff (field point "flipsSeen")) as [R1 N1].
  destruct (counterOf_raises_iff (field point "uniqueAuthors")) as [R2 N2].
  destruct (shadowed (field point "flipsSeen")); cbn [orb].
  - now rewrite (R1 eq_refl).
  - rewrite (N1 eq_refl). cbn [bind].
    destruct (shadowed (field point "uniqueAuthors")).
    + now rewrite (R2 eq_refl).
    + now rewrite (N2 eq_refl).
Qed.

Lemma mapM_raises {A B} (f : A -> Completion B) (g : A -> B)
      (raises : A -> bool) (l : list A) :
  (forall x, f x = if raises x then Throw TypeError else Normal (g x)) ->
  mapM f l = if existsb raises l then Throw TypeError else Normal (map g l).
Proof.
  intro H. induction l as [|x l IH]; [reflexivity|].
  simpl. rewrite H. destruct (raises x); [reflexivity|].
  cbn [bind orb]. rewrite IH. now destruct (existsb raises l).
Qed.

Lemma normalizePoints_cases (pts : any) :
  normalizePoints pts
  = if pointsRaise pts then Throw TypeError else Normal (pointsOf pts).
Proof.
  destruct pts; try reflexivity.
  rewrite normalizePoints_unfold. unfold pointsRaise, pointsOf.
  cbn [arrayElements].
  rewrite (mapM_raises keptPoint pointOf
             (fun point => shadowed (field point "flipsSeen")
                           || shadowed (field point "uniqueAuthors")))
    by apply keptPoint_raises_iff.
  assert (E : existsb (fun point => shadowed (field point "flipsSeen")
                                    || shadowed (field point "uniqueAuthors"))
                      (filter keepsPoint elements)
              = existsb pointRaises elements).
  { induction elements as [|x l IH]; [reflexivity|].
    cbn [filter existsb]. unfold pointRaises at 1.
    destruct (keepsPoint x); cbn [existsb andb]; now rewrite IH. }
  now rewrite E.
Qed.

(** X1. The computed of the current series raises exactly when its value
    is object-shaped and its [points] array has a candidate that is kept,
    an object-shaped element with a string [timestamp], whose [flipsSeen]
    or [uniqueAuthors] is an object with an own [toString] property or an
    array holding one; the exception is a [TypeError].  In every other case
    it answers: nothing when the value is not object-shaped, else the epoch
    with the kept points, and an element that is dropped never makes it
    raise, whatever it holds. *)
Theorem progressCurrentSeries_raises_exactly (data : any) :
  exists value,
    currentEpochSource data = Normal value
    /\ progressCurrentSeries data
       = if negb (isObjectLike value) then Normal None
         else if pointsRaise (field value "points") then Throw TypeError
         else Normal (Some {|
                epoch := match field value "epoch" with
                         | JNumber n => n
                         | _ => Fin 0
                         end;
                points := pointsOf (field value "points") |}).
Proof.
  destruct (currentEpochSource_total data) as (value & E & _).
  exists value. split; [exact E|].
  rewrite progressCurrentSeries_source, E. cbn [bind].
  destruct (isObjectLike value); cbn [negb]; [|reflexivity].
  rewrite normalizePoints_cases.
  now destruct (pointsRaise (field value "points")).
Qed.

Lemma normalizeSeries_cases (series : any) :
  normalizeSeries series
  = if seriesRaises series then Throw TypeError
    else Normal (if keepsSeries series then Some (keptSeries series) else None).
Proof.
  unfold normalizeSeries, seriesRaises, keepsSeries, keptSeries, epochOf.
  destruct (isObjectLike series) eqn:O; cbn [negb andb]; [|reflexivity].
  rewrite (Get_objectLike series "epoch" O). cbn [bind].
  destruct (ToNumber_raises_iff
              (nullish (field series "epoch") (JNumber (Fin 0)))) as [R N].
  rewrite shadowed_nullish in R, N.
  destruct (shadowed (field series "epoch")); cbn [orb].
  - now rewrite (R eq_refl).
  - destruct (N eq_refl) as [n ->]. cbn [bind].
    destruct n as [| sg |q]; cbn [isFinite negb orb andb]; try reflexivity.
    unfold num_gtb, num_ltb, num_leb, Qlt_bool.
    destruct (Qle_bool q 0); cbn [negb]; [reflexivity|].
    rewrite (Get_objectLike series "points" O). cbn [bind].
    rewrite normalizePoints_cases.
    now destruct (pointsRaise (field series "points")).
Qed.

(** X2. The computed of the previous series raises exactly when
    [previousEpochs] is an array with an object-shaped entry whose [epoch]
    is an object with an own [toString] property (or an array holding one),
    or which is kept and has such a counter in a kept point; the entry may
    stand anywhere in the array, also after the two that would be kept.  In
    every other case it answers the first two kept entries. *)
Theorem progressPreviousSeries_raises_exactly (data : any) :
  exists rows,
    previousEpochsSource data = Normal rows
    /\ progressPreviousSeries data
       = if existsb seriesRaises (arrayElements rows) then Throw TypeError
         else Normal (firstn 2 (map keptSeries
                                    (filter keepsSeries (arrayElements rows)))).
Proof.
  destruct (previousEpochsSource_total data) as (rows & E & _).
  exists rows. split; [exact E|].
  rewrite progressPreviousSeries_source, E. cbn [bind].
  destruct rows; try reflexivity. cbn [arrayElements].
  rewrite (mapM_raises normalizeSeries
             (fun x => if keepsSeries x then Some (keptSeries x) else None)
             seriesRaises)
    by apply normalizeSeries_cases.
  destruct (existsb seriesRaises elements); [reflexivity|].
  cbn [bind]. now rewrite compact_map_if.
Qed.

(** ** Computeds that never raise, and the page without a snapshot *)

(** X3. Whatever the fetch answered, also a value on which the series
    computeds raise, the computeds of the leaderboard and of the scalar
    fields return: [gradeLeaderboard], [topIdentities], [identityLookup],
    [topFlips], [progressMinRefresh] (a finite number), and the two optional
    strings [progressNextRefreshAt] and [nextSessionTime]. *)
Theorem leaderboard_and_scalars_never_raise (data : any) :
  exists g ti il tf mr nra nst,
    gradeLeaderboard data = Normal g
    /\ topIdentities data = Normal ti
    /\ identityLookup data = Normal il
    /\ topFlips data = Normal tf
    /\ progressMinRefresh data = Normal mr
    /\ isFinite mr = true
    /\ progressNextRefreshAt data = Normal nra
    /\ nextSessionTime data = Normal nst.
Proof.
  destruct (leaderboardArray_total "topIdentities" data) as (g & Eg & Hg & Eti).
  destruct (leaderboardArray_total "topFlips" data) as (g' & Eg' & _ & Etf).
  assert (g' = g) by congruence. subst g'.
  destruct (progressPayload_total data) as (pp & Epp & _ & _).
  destruct (payload_total data) as (p & Ep & _).
  destruct (GetOpt_total pp "minRefreshSeconds") as [mrv Emr].
  destruct (GetOpt_total pp "nextRefreshAt") as [nrv Enr].
  destruct (GetOpt_total p "session") as [sv Es].
  destruct (GetOpt_total sv "nextValidationTime") as [nv Env].
  exists g, (arrayElements (field g "topIdentities")),
         (match field g "identityLookup" with
          | JArray (x :: l) => x :: l
          | _ => arrayElements (field g "topIdentities")
          end),
         (arrayElements (field g "topFlips")),
         (match mrv with
          | JNumber n => if isFinite n then n else Fin 30
          | _ => Fin 30
          end),
         (match nrv with JString s => Some s | _ => None end),
         (match nv with JString s => Some s | _ => None end).
  repeat split; try assumption.
  - unfold identityLookup. rewrite Eg. cbn [bind].
    rewrite (GetOpt_field g "identityLookup" Hg). cbn [bind].
    destruct (field g "identityLookup") as [| | | | |[|x l]|]; try exact Eti.
    reflexivity.
  - unfold progressMinRefresh. now rewrite Epp; cbn [bind]; rewrite Emr.
  - destruct mrv as [| | |[| |q]| | |]; reflexivity.
  - unfold progressNextRefreshAt. now rewrite Epp; cbn [bind]; rewrite Enr.
  - unfold nextSessionTime. rewrite Ep. cbn [bind]. rewrite Es. cbn [bind].
    now rewrite Env.
Qed.

(** X4. When the fetch answered no payload ([data.value?.data] is [null] or
    [undefined]: no body, a body without [data], the failure answer of the
    endpoint), every computed takes its default and none raises: no
    leaderboard and no rows, no current and no previous series, a minimum
    refresh of 30 seconds, no refresh and no session time, the status label
    "All", charts with empty paths, both maxima 1 and a latest value 0, and
    a window label of one second. *)
Theorem defaults_without_payload (data : any) :
  payload data = Normal null ->
  gradeLeaderboard data = Normal null
  /\ topIdentities data = Normal []
  /\ identityLookup data = Normal []
  /\ topFlips data = Normal []
  /\ gradeStatusLabel data = Normal "All"
  /\ progressCurrentSeries data = Normal None
  /\ progressPreviousSeries data = Normal []
  /\ progressMinRefresh data = Normal (Fin 30)
  /\ progressNextRefreshAt data = Normal None
  /\ nextSessionTime data = Normal None
  /\ flipsChart data
     = Normal {| currentPath := ""; trailingPaths := [];
                 chart_maxValue := Fin 1; chart_maxElapsedSeconds := Fin 1;
                 latestValue := Fin 0 |}
  /\ authorsChart data = flipsChart data
  /\ chartElapsedLabel data = Normal "0d 00h 00m 01s".
Proof.
  intro H.
  assert (G : gradeLeaderboard data = Normal null)
    by (unfold gradeLeaderboard; now rewrite H).
  assert (P : progressPayload data = Normal null)
    by (unfold progressPayload; now rewrite H).
  assert (T : topIdentities data = Normal [])
    by (unfold topIdentities; now rewrite G).
  assert (C : progressCurrentSeries data = Normal None)
    by (unfold progressCurrentSeries; now rewrite P).
  assert (R : progressPreviousSeries data = Normal [])
    by (unfold progressPreviousSeries; now rewrite P).
  assert (F : flipsChart data
              = Normal {| currentPath := ""; trailingPaths := [];
                          chart_maxValue := Fin 1;
                          chart_maxElapsedSeconds := Fin 1;
                          latestValue := Fin 0 |})
    by (unfold flipsChart, metricChart; now rewrite C, R).
  repeat split; try assumption.
  - unfold identityLookup. rewrite G. cbn [bind GetOpt]. exact T.
  - unfold topFlips. now rewrite G.
  - unfold gradeStatusLabel. now rewrite G.
  - unfold progressMinRefresh. now rewrite P.
  - unfold progressNextRefreshAt. now rewrite P.
  - unfold nextSessionTime. now rewrite H.
  - rewrite F. unfold authorsChart, metricChart. now rewrite C, R.
  - unfold chartElapsedLabel. rewrite F. reflexivity.
Qed.

(** X5. The lookup rows are empty only when the top identities are: the
    fallback keeps every row of [topIdentities] searchable. *)
Theorem identityLookup_empty_only_with_topIdentities (data : any) :
  identityLookup data = Normal [] -> topIdentities data = Normal [].
Proof.
  unfold identityLookup.
  destruct (gradeLeaderboard_total data) as (g & -> & _ & _). cbn [bind].
  destruct (GetOpt_total g "identityLookup") as [src ->]. cbn [bind].
  destruct src as [| | | | |[|x l]|]; try (intro H; exact H).
  discriminate.
Qed.

(** ** The normal form of the typed address *)

Lemma lowerChar_keeps_whiteSpace (c : ascii) :
  isWhiteSpace (lowerChar c) = isWhiteSpace c.
Proof. destruct c as [[] [] [] [] [] [] [] []]; reflexivity. Qed.

Lemma lowerChar_idempotent (c : ascii) : lowerChar (lowerChar c) = lowerChar c.
Proof. destruct c as [[] [] [] [] [] [] [] []]; reflexivity. Qed.

Lemma isLowerHex_normal (c : ascii) :
  isLowerHex c = true -> isWhiteSpace c = false /\ lowerChar c = c.
Proof.
  destruct c as [[] [] [] [] [] [] [] []]; intro H; try discriminate H;
    split; reflexivity.
Qed.

Lemma dropWhile_map {A} (p : A -> bool) (f : A -> A) (l : list A) :
  (forall x, p (f x) = p x) ->
  dropWhile p (map f l) = map f (dropWhile p l).
Proof.
  intro H. induction l as [|x l IH]; [reflexivity|].
  simpl. rewrite H. destruct (p x); [exact IH | reflexivity].
Qed.

Lemma dropWhile_head {A} (p : A -> bool) (l : list A) (x : A) (r : list A) :
  dropWhile p l = x :: r -> p x = false.
Proof.
  induction l as [|y l IH]; simpl; [discriminate|].
  destruct (p y) eqn:E; [exact IH|].
  intro H. injection H as <- _. exact E.
Qed.

Lemma dropWhile_fixed {A} (p : A -> bool) (l : list A) :
  match l with [] => True | x :: _ => p x = false end -> dropWhile p l = l.
Proof. destruct l as [|x l]; [reflexivity|]. simpl. now intros ->. Qed.

Lemma dropWhile_nil {A} (p : A -> bool) (l : list A) :
  dropWhile p l = [] <-> forallb p l = true.
Proof.
  induction l as [|x l IH]; simpl; [tauto|].
  destruct (p x); simpl; [exact IH|]. split; discriminate.
Qed.

Lemma dropWhile_snoc {A} (p : A -> bool) (l : list A) (x : A) :
  p x = false -> dropWhile p (l ++ [x])%list = (dropWhile p l ++ [x])%list.
Proof.
  intro H. induction l as [|y l IH]; simpl; [now rewrite H|].
  destruct (p y); [exact IH | reflexivity].
Qed.

Lemma trim_chars (s : string) :
  list_ascii_of_string (trim s) = trimmed (list_ascii_of_string s).
Proof. unfold trim. apply list_ascii_of_string_of_list_ascii. Qed.

Lemma trimmed_ends (l : list ascii) :
  match trimmed l with [] => True | x :: _ => isWhiteSpace x = false end
  /\ match rev (trimmed l) with [] => True | x :: _ => isWhiteSpace x = false end.
Proof.
  unfold trimmed. rewrite rev_involutive. split.
  - destruct (dropWhile isWhiteSpace l) as [|x r] eqn:D; [exact I|].
    pose proof (dropWhile_head _ _ _ _ D) as Hx.
    cbn [rev]. rewrite (dropWhile_snoc _ _ _ Hx).
    rewrite rev_app_distr. exact Hx.
  - destruct (dropWhile isWhiteSpace (rev (dropWhile isWhiteSpace l)))
      as [|x r] eqn:D; [exact I|].
    exact (dropWhile_head _ _ _ _ D).
Qed.

Lemma trimmed_fixed (l : list ascii) :
  match l with [] => True | x :: _ => isWhiteSpace x = false end ->
  match rev l with [] => True | x :: _ => isWhiteSpace x = false end ->
  trimmed l = l.
Proof.
  intros H1 H2. unfold trimmed.
  rewrite (dropWhile_fixed _ l H1), (dropWhile_fixed _ (rev l) H2).
  apply rev_involutive.
Qed.

Lemma trimmed_idempotent (l : list ascii) : trimmed (trimmed l) = trimmed l.
Proof. destruct (trimmed_ends l). now apply trimmed_fixed. Qed.

Lemma trimmed_map_lower (l : list ascii) :
  trimmed (map lowerChar l) = map lowerChar (trimmed l).
Proof.
  unfold trimmed.
  rewrite (dropWhile_map _ _ _ lowerChar_keeps_whiteSpace).
  rewrite <- map_rev.
  rewrite (dropWhile_map _ _ _ lowerChar_keeps_whiteSpace).
  now rewrite map_rev.
Qed.

Lemma normalized_chars (s : string) :
  list_ascii_of_string (normalizedSearchAddress s)
  = map lowerChar (trimmed (list_ascii_of_string s)).
Proof.
  unfold normalizedSearchAddress, toLowerCase.
  now rewrite list_ascii_of_string_of_list_ascii, trim_chars.
Qed.

Lemma string_chars_inj (a b : string) :
  list_ascii_of_string a = list_ascii_of_string b -> a = b.
Proof.
  intro H. rewrite <- (string_of_list_ascii_of_string a),
                   <- (string_of_list_ascii_of_string b).
  now rewrite H.
Qed.

(** X6. Normalising the typed address is idempotent, and trimming and
    lowercasing can be done in either order: the normal form of a normal
    form is itself. *)
Theorem normalizedSearchAddress_idempotent (s : string) :
  normalizedSearchAddress (normalizedSearchAddress s)
  = normalizedSearchAddress s
  /\ trim (toLowerCase s) = toLowerCase (trim s).
Proof.
  split.
  - apply string_chars_inj. rewrite !normalized_chars.
    rewrite trimmed_map_lower, trimmed_idempotent, map_map.
    apply map_ext. intro c. apply lowerChar_idempotent.
  - apply string_chars_inj. rewrite trim_chars. unfold toLowerCase.
    rewrite !list_ascii_of_string_of_list_ascii, trim_chars.
    apply trimmed_map_lower.
Qed.

(** X7. An address of the expected form, [0x] and 40 characters among
    [0-9a-f], is its own normal form: typed as it is stored it is compared
    unchanged, and it counts as a value of valid format. *)
Theorem wellformed_address_is_normal (address : string) :
  addressPattern_test address = true ->
  normalizedSearchAddress address = address
  /\ hasSearchValue address = true
  /\ isSearchAddressValid address = true.
Proof.
  intro H.
  assert (N : normalizedSearchAddress address = address).
  { apply addressPattern_test_shape in H.
    destruct H as (rest & -> & _ & F).
    apply string_chars_inj. rewrite normalized_chars.
    set (l := list_ascii_of_string (String "0" (String "x" rest))).
    assert (A : forall c, In c l -> isWhiteSpace c = false /\ lowerChar c = c).
    { intros c [<- | [<- | Hc]]; try (split; reflexivity).
      rewrite forallb_forall in F. now apply isLowerHex_normal, F. }
    assert (T : trimmed l = l).
    { apply trimmed_fixed.
      - destruct l as [|x r]; [exact I|]. apply A. now left.
      - destruct (rev l) as [|x r] eqn:R; [exact I|].
        apply A. apply in_rev. rewrite R. now left. }
    rewrite T. rewrite <- (map_id l) at 2. apply map_ext_in.
    intros c Hc. now apply A. }
  assert (V : hasSearchValue address = true).
  { unfold hasSearchValue. rewrite N. now destruct address. }
  repeat split; try assumption.
  unfold isSearchAddressValid. rewrite V, N. exact H.
Qed.

(** X8. White space that is typed alone is no query.  Among the 8-bit
    characters of a typed text (Latin-1) the white space that [trim]
    removes is the tabulation, the line feed, the vertical tabulation, the
    form feed, the carriage return, the space and the no-break space.  A
    text has no search value exactly when each of its characters is one of
    them.  Such a text gets the prompt to enter an address, never the
    format error nor the not-found notice, and no row is looked up,
    whatever the rows are; every other text gets another block, or the
    lookup raises. *)
Theorem whitespace_only_is_no_query (searchAddress : string) (data : any) :
  let typed := list_ascii_of_string searchAddress in
  (forall c, isWhiteSpace c = true
             <-> In (nat_of_ascii c) [9; 10; 11; 12; 13; 32; 160]%nat)
  /\ (hasSearchValue searchAddress = false <-> forallb isWhiteSpace typed = true)
  /\ (forallb isWhiteSpace typed = true ->
      lookupPanel searchAddress data = Normal EnterAnAddress
      /\ isSearchAddressValid searchAddress = true
      /\ foundIdentity searchAddress data = Normal null
      /\ showSearchNotFound searchAddress data = Normal false)
  /\ (forallb isWhiteSpace typed = false ->
      lookupPanel searchAddress data <> Normal EnterAnAddress).
Proof.
  intro typed.
  assert (W : hasSearchValue searchAddress = false
              <-> forallb isWhiteSpace typed = true).
  { rewrite hasSearchValue_empty.
    assert (E : normalizedSearchAddress searchAddress = ""
                <-> trimmed typed = []).
    { split; intro H.
      - apply (f_equal list_ascii_of_string) in H.
        rewrite normalized_chars in H. fold typed in H.
        now destruct (trimmed typed).
      - apply string_chars_inj. rewrite normalized_chars. fold typed.
        now rewrite H. }
    rewrite E. unfold trimmed. split; intro H.
    - apply (f_equal (@rev ascii)) in H. rewrite rev_involutive in H.
      cbn [rev] in H. apply dropWhile_nil in H.
      rewrite forallb_forall in H.
      destruct (dropWhile isWhiteSpace typed) as [|x r] eqn:D.
      + now apply dropWhile_nil.
      + pose proof (dropWhile_head _ _ _ _ D) as Hx.
        rewrite (H x) in Hx; [discriminate|].
        apply -> in_rev. now left.
    - apply dropWhile_nil in H. rewrite H. reflexivity. }
  split.
  { intro c. unfold isWhiteSpace. cbv zeta.
    generalize (nat_of_ascii c). intro n.
    cbn [In]. rewrite !orb_true_iff, andb_true_iff, !Nat.leb_le, !Nat.eqb_eq.
    lia. }
  split; [exact W|]. split.
  - intro H. apply W in H.
    unfold lookupPanel, isSearchAddressValid, foundIdentity, showSearchNotFound.
    rewrite H. repeat split.
  - intros H Hp.
    assert (V : hasSearchValue searchAddress = true).
    { apply not_false_is_true. intro V. apply W in V. congruence. }
    unfold lookupPanel in Hp. rewrite V in Hp. cbn [negb] in Hp.
    destruct (negb (isSearchAddressValid searchAddress)); [discriminate|].
    destruct (foundIdentity searchAddress data) as [f|]; [|discriminate].
    cbn [bind] in Hp.
    destruct (ToBoolean f); [discriminate|].
    destruct (showSearchNotFound searchAddress data) as [[|]|];
      discriminate.
Qed.

(** ** What the lookup finds *)

Lemma rowMatches_address (address : string) (row : any) :
  rowMatches address row = true <-> field row "address" = JString address.
Proof.
  unfold rowMatches, strictEqString. split.
  - destruct (field row "address"); try discriminate.
    intro H. apply String.eqb_eq in H. now subst.
  - intros ->. apply String.eqb_refl.
Qed.

Lemma lookupPanel_cases (searchAddress : string) (data : any) (rows : list any) :
  identityLookup data = Normal rows ->
  Forall (fun row => row <> undefined /\ row <> null) rows ->
  lookupPanel searchAddress data
  = Normal (if negb (hasSearchValue searchAddress) then EnterAnAddress
            else if negb (isSearchAddressValid searchAddress)
                 then FormatLooksInvalid
                 else match find (rowMatches (normalizedSearchAddress searchAddress))
                                 rows with
                      | Some row => ResultCard row
                      | None => AddressNotFound
                      end)
  /\ showSearchNotFound searchAddress data
     = Normal (hasSearchValue searchAddress
               && isSearchAddressValid searchAddress
               && match find (rowMatches (normalizedSearchAddress searchAddress))
                             rows with
                  | Some _ => false
                  | None => true
                  end).
Proof.
  intros Hrows Hok.
  unfold lookupPanel, showSearchNotFound, foundIdentity.
  destruct (hasSearchValue searchAddress); cbn [negb orb andb];
    [|split; reflexivity].
  destruct (isSearchAddressValid searchAddress); cbn [negb orb andb];
    [|split; reflexivity].
  rewrite Hrows. cbn [bind].
  rewrite (findM_rows _ rows Hok). cbn [bind].
  destruct (find (rowMatches (normalizedSearchAddress searchAddress)) rows)
    as [row|] eqn:Fd.
  - apply find_some in Fd. destruct Fd as [_ M].
    apply rowMatches_object in M. destruct M as [props ->].
    split; reflexivity.
  - split; reflexivity.
Qed.

(** X9. The lookup is sound and complete on rows that are rows.  A result
    card shows a row of [identityLookup] whose [address] is the normalised
    text, and that text has the expected form; and when the normalised text
    has the expected form and some row carries it as [address], a card is
    shown and the not-found notice is not, whatever the case and the outer
    white space of what was typed. *)
Theorem lookup_sound_and_complete
        (searchAddress : string) (data : any) (rows : list any) :
  identityLookup data = Normal rows ->
  Forall (fun row => row <> undefined /\ row <> null) rows ->
  let address := normalizedSearchAddress searchAddress in
  (forall row,
      lookupPanel searchAddress data = Normal (ResultCard row) ->
      In row rows
      /\ field row "address" = JString address
      /\ addressPattern_test address = true)
  /\ (addressPattern_test address = true ->
      (exists row, In row rows /\ field row "address" = JString address) ->
      exists row,
        lookupPanel searchAddress data = Normal (ResultCard row)
        /\ field row "address" = JString address
        /\ showSearchNotFound searchAddress data = Normal false).
Proof.
  intros Hrows Hok address.
  destruct (lookupPanel_cases searchAddress data rows Hrows Hok) as [P S].
  fold address in P, S. split.
  - intros row H. rewrite P in H.
    destruct (hasSearchValue searchAddress) eqn:V; cbn [negb] in H;
      [|discriminate].
    destruct (isSearchAddressValid searchAddress) eqn:W; cbn [negb] in H;
      [|discriminate].
    destruct (find (rowMatches address) rows) as [r|] eqn:Fd; [|discriminate].
    injection H as ->. apply find_some in Fd. destruct Fd as [Hin M].
    split; [exact Hin|]. split; [now apply rowMatches_address|].
    unfold isSearchAddressValid in W. rewrite V in W. exact W.
  - intros G (row & Hin & Ha).
    assert (V : hasSearchValue searchAddress = true).
    { destruct (hasSearchValue searchAddress) eqn:V; [reflexivity|].
      apply hasSearchValue_empty in V. fold address in V.
      now apply addressPattern_test_nonempty in G. }
    assert (W : isSearchAddressValid searchAddress = true).
    { unfold isSearchAddressValid. rewrite V. exact G. }
    rewrite P, S, V, W. cbn [negb andb].
    destruct (find (rowMatches address) rows) as [r|] eqn:Fd.
    + exists r. apply find_some in Fd. destruct Fd as [_ M].
      split; [reflexivity|]. split; [now apply rowMatches_address|reflexivity].
    + exfalso. apply (find_none _ _ Fd) in Hin.
      apply rowMatches_address in Ha. congruence.
Qed.

(** ** Shortened addresses and hashes, words *)

Lemma string_length_chars (s : string) :
  String.length s = List.length (list_ascii_of_string s).
Proof. induction s as [|c s IH]; simpl; [reflexivity | now rewrite IH]. Qed.

Lemma string_of_chars_length (l : list ascii) :
  String.length (string_of_list_ascii l) = List.length l.
Proof. induction l as [|c l IH]; simpl; [reflexivity | now rewrite IH]. Qed.

Lemma string_of_chars_app (a b : list ascii) :
  string_of_list_ascii (a ++ b)%list
  = string_of_list_ascii a ++ string_of_list_ascii b.
Proof. induction a as [|c a IH]; simpl; [reflexivity | now rewrite IH]. Qed.

Lemma string_length_append (a b : string) :
  String.length (a ++ b) = (String.length a + String.length b)%nat.
Proof. induction a as [|c a IH]; simpl; [reflexivity | now rewrite IH]. Qed.

(** The two ends [slice] keeps and the middle between them. *)
Lemma slices_split (h t : nat) (s : string) :
  (h + t <= String.length s)%nat ->
  exists middle,
    s = sliceFirst h s ++ middle ++ sliceLast t s
    /\ String.length (sliceFirst h s) = h
    /\ String.length (sliceLast t s) = t
    /\ String.length middle = (String.length s - h - t)%nat.
Proof.
  intro H. unfold sliceFirst, sliceLast.
  rewrite string_length_chars in *.
  set (l := list_ascii_of_string s) in *.
  set (n := List.length l) in *.
  exists (string_of_list_ascii (firstn (n - h - t) (skipn h l))).
  assert (E : skipn (n - t) l = skipn (n - h - t) (skipn h l)).
  { rewrite skipn_skipn. f_equal. lia. }
  repeat split.
  - rewrite E, <- !string_of_chars_app, firstn_skipn, firstn_skipn.
    symmetry. apply string_of_list_ascii_of_string.
  - rewrite string_of_chars_length, length_firstn. fold n. lia.
  - rewrite string_of_chars_length, length_skipn. fold n. lia.
  - rewrite string_of_chars_length, length_firstn, length_skipn. fold n. lia.
Qed.

(** X10. A shortened address is never longer than 19 characters.  A missing
    or empty address gives "-", an address of fewer than 18 characters is
    shown whole, and a longer one keeps its first 10 and its last 6
    characters, the characters between them, at least two, replaced by
    three dots. *)
Theorem shortAddress_shape (address : option string) :
  (String.length (shortAddress address) <= 19)%nat
  /\ (address = None \/ address = Some "" -> shortAddress address = "-")
  /\ (forall a, address = Some a ->
                (1 <= String.length a < 18)%nat -> shortAddress address = a)
  /\ (forall a, address = Some a -> (18 <= String.length a)%nat ->
                exists head middle tail,
                  a = head ++ middle ++ tail
                  /\ String.length head = 10%nat
                  /\ String.length tail = 6%nat
                  /\ (2 <= String.length middle)%nat
                  /\ shortAddress address = head ++ "..." ++ tail).
Proof.
  assert (Long : forall a, (18 <= String.length a)%nat ->
                 exists head middle tail,
                   a = head ++ middle ++ tail
                   /\ String.length head = 10%nat
                   /\ String.length tail = 6%nat
                   /\ (2 <= String.length middle)%nat
                   /\ shortAddress (Some a) = head ++ "..." ++ tail).
  { intros a L.
    destruct (slices_split 10 6 a ltac:(lia)) as (middle & E & Hh & Ht & Hm).
    exists (sliceFirst 10 a), middle, (sliceLast 6 a).
    repeat split; try assumption; try lia.
    unfold shortAddress.
    destruct (a =? "")%string eqn:Ea.
    { apply String.eqb_eq in Ea. subst a. simpl in L. lia. }
    destruct (String.length a <? 18)%nat eqn:Lt; [|reflexivity].
    apply Nat.ltb_lt in Lt. lia. }
  split; [|split; [|split]].
  - destruct address as [a|]; [|simpl; lia].
    destruct (Nat.lt_ge_cases (String.length a) 18) as [Lt | Ge].
    + unfold shortAddress. destruct (a =? "")%string; [simpl; lia|].
      apply Nat.ltb_lt in Lt as Lb. rewrite Lb. lia.
    + destruct (Long a Ge) as (head & middle & tail & _ & Hh & Ht & _ & ->).
      rewrite !string_length_append, Hh, Ht. simpl. lia.
  - intros [-> | ->]; reflexivity.
  - intros a -> [L1 L2]. unfold shortAddress.
    destruct (a =? "")%string eqn:Ea.
    { apply String.eqb_eq in Ea. subst a. simpl in L1. lia. }
    apply Nat.ltb_lt in L2. now rewrite L2.
  - intros a -> L. now apply Long.
Qed.

(** X11. A shortened hash is never longer than 23 characters.  A missing or
    empty value gives "-", a value of fewer than 24 characters is shown
    whole, and a longer one keeps its first 12 and its last 8 characters,
    the characters between them, at least four, replaced by three dots. *)
Theorem shortHash_shape (value : option string) :
  (String.length (shortHash value) <= 23)%nat
  /\ (value = None \/ value = Some "" -> shortHash value = "-")
  /\ (forall v, value = Some v ->
                (1 <= String.length v < 24)%nat -> shortHash value = v)
  /\ (forall v, value = Some v -> (24 <= String.length v)%nat ->
                exists head middle tail,
                  v = head ++ middle ++ tail
                  /\ String.length head = 12%nat
                  /\ String.length tail = 8%nat
                  /\ (4 <= String.length middle)%nat
                  /\ shortHash value = head ++ "..." ++ tail).
Proof.
  assert (Long : forall v, (24 <= String.length v)%nat ->
                 exists head middle tail,
                   v = head ++ middle ++ tail
                   /\ String.length head = 12%nat
                   /\ String.length tail = 8%nat
                   /\ (4 <= String.length middle)%nat
                   /\ shortHash (Some v) = head ++ "..." ++ tail).
  { intros v L.
    destruct (slices_split 12 8 v ltac:(lia)) as (middle & E & Hh & Ht & Hm).
    exists (sliceFirst 12 v), middle, (sliceLast 8 v).
    repeat split; try assumption; try lia.
    unfold shortHash.
    destruct (v =? "")%string eqn:Ev.
    { apply String.eqb_eq in Ev. subst v. simpl in L. lia. }
    destruct (String.length v <? 24)%nat eqn:Lt; [|reflexivity].
    apply Nat.ltb_lt in Lt. lia. }
  split; [|split; [|split]].
  - destruct value as [v|]; [|simpl; lia].
    destruct (Nat.lt_ge_cases (String.length v) 24) as [Lt | Ge].
    + unfold shortHash. destruct (v =? "")%string; [simpl; lia|].
      apply Nat.ltb_lt in Lt as Lb. rewrite Lb. lia.
    + destruct (Long v Ge) as (head & middle & tail & _ & Hh & Ht & _ & ->).
      rewrite !string_length_append, Hh, Ht. simpl. lia.
  - intros [-> | ->]; reflexivity.
  - intros v -> [L1 L2]. unfold shortHash.
    destruct (v =? "")%string eqn:Ev.
    { apply String.eqb_eq in Ev. subst v. simpl in L1. lia. }
    apply Nat.ltb_lt in L2. now rewrite L2.
  - intros v -> L. now apply Long.
Qed.

Lemma trim_empty_iff_blank (w : string) : trim w = "" <-> blank w = true.
Proof.
  unfold blank. set (l := list_ascii_of_string w).
  assert (E : trim w = "" <-> trimmed l = []).
  { split; intro H.
    - apply (f_equal list_ascii_of_string) in H.
      rewrite trim_chars in H. exact H.
    - apply string_chars_inj. rewrite trim_chars. fold l. now rewrite H. }
  rewrite E. unfold trimmed. split; intro H.
  - apply (f_equal (@rev ascii)) in H. rewrite rev_involutive in H.
    cbn [rev] in H. apply dropWhile_nil in H.
    rewrite forallb_forall in H.
    destruct (dropWhile isWhiteSpace l) as [|x r] eqn:D.
    + now apply dropWhile_nil.
    + pose proof (dropWhile_head _ _ _ _ D) as Hx.
      rewrite (H x) in Hx; [discriminate|].
      apply -> in_rev. now left.
  - apply dropWhile_nil in H. rewrite H. reflexivity.
Qed.

Lemma keepsWord_blank (w : string) : keepsWord (Some w) = negb (blank w).
Proof.
  unfold keepsWord.
  destruct (w =? "")%string eqn:E.
  - apply String.eqb_eq in E. now subst w.
  - destruct (blank w) eqn:B.
    + apply trim_empty_iff_blank in B. rewrite B. reflexivity.
    + destruct (trim w =? "")%string eqn:T; [|reflexivity].
      apply String.eqb_eq, trim_empty_iff_blank in T. congruence.
Qed.

(** X12. [formatWords] skips a word that is missing or made of white space
    only, and shows the others as they are, untrimmed: no word gives "-",
    one word gives that word whichever of the two it is, two words give
    both in order, separated by " / ". *)
Theorem formatWords_shape (word1 word2 : option string) :
  let shown w :=
    match w with Some s => if blank s then None else Some s | None => None end in
  formatWords word1 word2
  = match shown word1, shown word2 with
    | None, None => "-"
    | Some a, None => a
    | None, Some b => b
    | Some a, Some b => a ++ " / " ++ b
    end.
Proof.
  intro shown. unfold formatWords. cbn [filter].
  assert (K : forall w, keepsWord w
                        = match shown w with Some _ => true | None => false end).
  { intros [w|]; [|reflexivity]. rewrite keepsWord_blank. unfold shown.
    now destruct (blank w). }
  rewrite (K word1), (K word2).
  destruct word1 as [a|], word2 as [b|]; unfold shown;
    try destruct (blank a); try destruct (blank b); reflexivity.
Qed.

(** ** Durations and dates *)

Lemma safe_seconds (q : Q) :
  Math_max [Fin 0; Math_floor (Fin q)]
  = Fin (inject_Z (Z.max 0 (Qfloor q))).
Proof.
  unfold Math_max, Math_floor. cbn [fold_left]. simpl max2 at 2.
  unfold max2, num_ltb.
  destruct (Qlt_bool 0 (inject_Z (Qfloor q))) eqn:L.
  - apply Qlt_bool_iff in L. change 0%Q with (inject_Z 0) in L.
    rewrite <- Zlt_Qlt in L. now rewrite Z.max_r by lia.
  - apply Qlt_bool_false in L. change 0%Q with (inject_Z 0) in L.
    rewrite <- Zle_Qle in L. now rewrite Z.max_l by lia.
Qed.

(** X13. [formatDuration] floors its argument to whole seconds and never
    shows a negative duration: a finite argument formats as the larger of 0
    and its floor does, so every argument below one second, the negative
    ones too, gives "0d 00h 00m 00s". *)
Theorem formatDuration_floors_and_clamps (q : Q) :
  formatDuration (Fin q) = formatDuration (num_of_Z (Z.max 0 (Qfloor q)))
  /\ ((q < 1)%Q -> formatDuration (Fin q) = "0d 00h 00m 00s").
Proof.
  assert (E : formatDuration (Fin q)
              = formatDuration (num_of_Z (Z.max 0 (Qfloor q)))).
  { unfold formatDuration, num_of_Z. rewrite !safe_seconds.
    rewrite Qfloor_Z.
    now rewrite (Z.max_r 0 (Z.max 0 (Qfloor q))) by lia. }
  split; [exact E|].
  intro H. rewrite E.
  assert (F : (Qfloor q <= 0)%Z).
  { assert (L : (Qfloor q < 1)%Z).
    { rewrite Zlt_Qlt. eapply Qle_lt_trans; [apply Qfloor_le | exact H]. }
    lia. }
  rewrite Z.max_l by lia. reflexivity.
Qed.

(** X14. The fields of a formatted duration are the mixed-radix digits of
    the number of seconds.  For a whole number [z] of seconds from 0 to
    2^53 - 1, the integers the page holds exactly and in which the floors
    of its quotients are those of the exact quotients, the label is made of
    a day count [d], hours [h < 24], minutes [m < 60] and seconds
    [s < 60], the last three written with two digits, and
    [z = 86400 d + 3600 h + 60 m + s]; nothing of the duration is lost. *)
Theorem formatDuration_decomposes (z : Z) :
  0 <= z <= 9007199254740991 ->
  exists d h m s,
    0 <= d /\ 0 <= h < 24 /\ 0 <= m < 60 /\ 0 <= s < 60
    /\ z = 86400 * d + 3600 * h + 60 * m + s
    /\ formatDuration (num_of_Z z)
       = NumberToString (num_of_Z d) ++ "d "
           ++ twoDigits h ++ "h " ++ twoDigits m ++ "m " ++ twoDigits s ++ "s".
Proof.
  intros [Hz _].
  exists (z / 86400), (z mod 86400 / 3600), (z mod 3600 / 60), (z mod 60).
  assert (A : 0 <= z / 86400) by (apply Z.div_pos; lia).
  assert (B : z = 86400 * (z / 86400) + 3600 * (z mod 86400 / 3600)
                  + 60 * (z mod 3600 / 60) + z mod 60
              /\ 0 <= z mod 86400 / 3600 < 24
              /\ 0 <= z mod 3600 / 60 < 60
              /\ 0 <= z mod 60 < 60).
  { clear A. Z.div_mod_to_equations. lia. }
  destruct B as (B0 & B1 & B2 & B3).
  repeat split; try lia.
  destruct (Z.eq_dec z 0) as [-> | N].
  - reflexivity.
  - unfold num_of_Z. apply formatDuration_positive. lia.
Qed.

(** X15. The countdown box is consistent: whenever the countdown reads
    "Unavailable", the date line under it, [formatTimestamp] of the same
    value, reads "-"; a date is never shown next to an unavailable
    countdown. *)
Theorem unavailable_countdown_has_no_date
        (nextSessionTime : option string) (nowMs : number) :
  nextSessionCountdownLabel nextSessionTime nowMs = "Unavailable" ->
  secondsUntilNextSession nextSessionTime nowMs = None
  /\ formatTimestamp (orUndefined nextSessionTime) = "-".
Proof.
  unfold nextSessionCountdownLabel.
  destruct (secondsUntilNextSession nextSessionTime nowMs) as [seconds|] eqn:S.
  - intro H. exfalso.
    destruct (num_leb seconds (Fin 0)); [discriminate|].
    pose proof (formatDuration_ends_with_s seconds) as L.
    rewrite H in L. discriminate.
  - intros _. split; [reflexivity|].
    unfold secondsUntilNextSession in S. unfold formatTimestamp, orUndefined.
    destruct nextSessionTime as [iso|]; [|reflexivity].
    destruct (iso =? "")%string eqn:E; [reflexivity|]. rewrite E.
    destruct (Date_parse iso) as [| sg |ms]; try reflexivity. discriminate.
Qed.

(** ** Geometry of the charts *)

Lemma elapsed_offset (t b : Q) :
  Math_max [Fin 0; num_div (num_sub (Fin t) (Fin b)) (Fin 1000)]
  = if Qlt_bool b t then Fin ((t - b) / 1000) else Fin 0.
Proof.
  unfold Math_max, num_sub, num_div. cbn [fold_left].
  change (Qeq_bool 1000 0) with false. cbv iota.
  simpl max2 at 2. unfold max2, num_ltb.
  destruct (Qlt_bool 0 ((t - b) / 1000)) eqn:L;
    destruct (Qlt_bool b t) eqn:M; try reflexivity; exfalso.
  - apply Qlt_bool_iff in L. apply Qlt_bool_false in M.
    assert (H : ((t - b) / 1000 <= 0)%Q).
    { apply Qle_shift_div_r; [reflexivity | lra]. }
    lra.
  - apply Qlt_bool_false in L. apply Qlt_bool_iff in M.
    assert (H : (0 < (t - b) / 1000)%Q).
    { apply Qlt_shift_div_l; [reflexivity | lra]. }
    lra.
Qed.

(** X16. Each series has its own origin: when the first timestamp parses,
    the first chart point is the first point, at 0 elapsed seconds; every
    other chart point comes from a point whose timestamp parses and lies at
    the offset from the first timestamp, in seconds, or at 0 when it is
    stamped before the first one.  No elapsed time is negative or not
    finite. *)
Theorem chart_points_offsets
        (first : ProgressPoint) (rest : list ProgressPoint)
        (selector : ProgressPoint -> number) (b : Q) :
  Date_parse (timestamp first) = Fin b ->
  exists tail,
    toChartPoints (first :: rest) selector
    = {| elapsedSeconds := Fin 0; value := selector first |} :: tail
    /\ forall p,
         In p (toChartPoints (first :: rest) selector) ->
         exists x t,
           In x (first :: rest)
           /\ Date_parse (timestamp x) = Fin t
           /\ value p = selector x
           /\ ((t <= b)%Q -> elapsedSeconds p = Fin 0)
           /\ ((b < t)%Q -> elapsedSeconds p = Fin ((t - b) / 1000)).
Proof.
  intro Hb.
  assert (P : parses first = true) by (unfold parses; now rewrite Hb).
  pose proof (unparsable_timestamps_drop first rest selector P) as E.
  rewrite Hb in E.
  exists (map (chartPointOf (Fin b) selector) (filter parses rest)).
  split.
  - rewrite E. cbn [filter]. rewrite P. cbn [map]. f_equal.
    unfold chartPointOf. rewrite Hb, elapsed_offset.
    assert (L : Qlt_bool b b = false) by (apply Qlt_bool_false; lra).
    now rewrite L.
  - intros p Hp. rewrite E in Hp. apply in_map_iff in Hp.
    destruct Hp as (x & <- & Hx). apply filter_In in Hx.
    destruct Hx as [Hin Px]. unfold parses in Px.
    destruct (Date_parse (timestamp x)) as [| sg |t] eqn:T; try discriminate.
    exists x, t. split; [exact Hin|]. split; [exact T|].
    split; [reflexivity|].
    unfold chartPointOf. cbn [elapsedSeconds]. rewrite T, elapsed_offset.
    split; intro H.
    + assert (L : Qlt_bool b t = false) by (now apply Qlt_bool_false).
      now rewrite L.
    + assert (L : Qlt_bool b t = true) by (now apply Qlt_bool_iff).
      now rewrite L.
Qed.

Lemma chartPoint_finite (pts : list ProgressPoint)
      (selector : ProgressPoint -> number) (p : ChartPoint) :
  In p (toChartPoints pts selector) ->
  exists q, elapsedSeconds p = Fin q /\ (0 <= q)%Q.
Proof.
  destruct (toChartPoints_cases pts selector)
    as [-> | (first & rest & -> & P & ->)]; [contradiction|].
  intro H. apply in_map_iff in H. destruct H as (x & <- & Hx).
  apply filter_In in Hx. destruct Hx as [_ Px].
  unfold parses in P, Px. cbn [chartPointOf elapsedSeconds].
  destruct (Date_parse (timestamp first)) as [| |b]; try discriminate.
  destruct (Date_parse (timestamp x)) as [| |t]; try discriminate.
  rewrite elapsed_offset.
  destruct (Qlt_bool b t) eqn:L.
  - apply Qlt_bool_iff in L. eexists. split; [reflexivity|].
    apply Qle_shift_div_l; [reflexivity | lra].
  - exists 0%Q. split; [reflexivity | lra].
Qed.

Lemma scaled_inside (q e : Q) (width : Q) :
  (0 <= q)%Q -> (q <= e)%Q -> (1 <= e)%Q -> (0 <= width)%Q ->
  exists x,
    num_mul (num_div (Fin q) (safeScale (Fin e))) (Fin width) = Fin x
    /\ (0 <= x)%Q /\ (x <= width)%Q.
Proof.
  intros H0 H1 He Hw.
  rewrite safeScale_at_least_one
    by (cbn [num_leb]; now apply Qle_bool_iff).
  unfold num_div, num_mul.
  destruct (Qeq_bool e 0) eqn:Z0.
  { apply Qeq_bool_eq in Z0. lra. }
  eexists. split; [reflexivity|].
  assert (R0 : (0 <= q / e)%Q) by (apply Qle_shift_div_l; lra).
  assert (R1 : (q / e <= 1)%Q) by (apply Qle_shift_div_r; lra).
  split.
  - apply Qmult_le_0_compat; assumption.
  - rewrite <- (Qmult_1_l width) at 2.
    apply Qmult_le_compat_r; assumption.
Qed.

Lemma scaled_below (v m height : Q) :
  (v <= m)%Q -> (1 <= m)%Q -> (0 <= height)%Q ->
  exists y,
    num_sub (Fin height) (num_mul (num_div (Fin v) (safeScale (Fin m))) (Fin height))
    = Fin y
    /\ (0 <= y)%Q /\ ((0 <= v)%Q -> (y <= height)%Q).
Proof.
  intros H1 Hm Hh.
  rewrite safeScale_at_least_one
    by (cbn [num_leb]; now apply Qle_bool_iff).
  unfold num_div, num_mul, num_sub.
  destruct (Qeq_bool m 0) eqn:Z0.
  { apply Qeq_bool_eq in Z0. lra. }
  eexists. split; [reflexivity|].
  assert (R1 : (v / m <= 1)%Q) by (apply Qle_shift_div_r; lra).
  split.
  - assert (M : (v / m * height <= 1 * height)%Q)
      by (apply Qmult_le_compat_r; assumption).
    lra.
  - intro H0.
    assert (R0 : (0 <= v / m)%Q) by (apply Qle_shift_div_l; lra).
    assert (M : (0 <= v / m * height)%Q)
      by (apply Qmult_le_0_compat; assumption).
    lra.
Qed.

Lemma finite_counter (selector : ProgressPoint -> number) (x : ProgressPoint) :
  selector = flipsSeen \/ selector = uniqueAuthors ->
  finitePoint x = true ->
  exists v, selector x = Fin v.
Proof.
  intros Hsel Fx. unfold finitePoint in Fx. apply andb_true_iff in Fx.
  destruct Fx as [Ff Fu].
  destruct Hsel as [-> | ->].
  - destruct (flipsSeen x) as [| |v]; try discriminate. now exists v.
  - destruct (uniqueAuthors x) as [| |v]; try discriminate. now exists v.
Qed.

Lemma finite_series_points (cur : option ProgressEpochSeries)
      (prev : list ProgressEpochSeries) :
  forallb finitePoint (currentPoints cur) = true ->
  Forall (fun s => finiteSeries s = true) prev ->
  forall pts x, In pts (currentPoints cur :: map points prev) ->
                In x pts -> finitePoint x = true.
Proof.
  intros Fc Fp pts x Hpts Hx.
  destruct Hpts as [<- | Hpts].
  - rewrite forallb_forall in Fc. now apply Fc.
  - apply in_map_iff in Hpts. destruct Hpts as (s & <- & Hs).
    rewrite Forall_forall in Fp. specialize (Fp s Hs).
    unfold finiteSeries in Fp. rewrite forallb_forall in Fp.
    now apply Fp.
Qed.

(** The two maxima of a chart of finite series are finite and at least 1,
    and bound every chart point, whose elapsed time and value are finite. *)
Lemma chart_axes_finite (selector : ProgressPoint -> number)
      (cur : option ProgressEpochSeries) (prev : list ProgressEpochSeries) :
  selector = flipsSeen \/ selector = uniqueAuthors ->
  forallb finitePoint (currentPoints cur) = true ->
  Forall (fun s => finiteSeries s = true) prev ->
  exists e m,
    chart_maxElapsedSeconds (buildMetricChart cur prev selector) = Fin e
    /\ chart_maxValue (buildMetricChart cur prev selector) = Fin m
    /\ (1 <= e)%Q /\ (1 <= m)%Q
    /\ forall pts p, In pts (currentPoints cur :: map points prev) ->
                     In p (toChartPoints pts selector) ->
                     exists q v,
                       elapsedSeconds p = Fin q /\ value p = Fin v
                       /\ (0 <= q)%Q /\ (q <= e)%Q /\ (v <= m)%Q.
Proof.
  intros Hsel Fc Fp.
  pose proof (finite_series_points cur prev Fc Fp) as FP.
  assert (V : forall pts p, In pts (currentPoints cur :: map points prev) ->
                            In p (toChartPoints pts selector) ->
                            exists v, value p = Fin v).
  { intros pts p Hpts Hp. apply chartPoint_origin in Hp.
    destruct Hp as (_ & x & Hx & ->).
    apply (finite_counter selector x Hsel). now apply (FP pts). }
  assert (F : forall pts x, In pts (currentPoints cur :: map points prev) ->
                            In x pts -> isNaN (selector x) = false).
  { intros pts x Hpts Hx.
    destruct (finite_counter selector x Hsel (FP pts x Hpts Hx)) as (v & ->).
    reflexivity. }
  pose proof (buildMetricChart_axes cur prev selector F) as AX.
  cbv zeta in AX.
  destruct AX as (LE & LV & _ & _ & U & AE & AV).
  destruct (chart_maxElapsedSeconds (buildMetricChart cur prev selector))
    as [| sgE | e] eqn:EE.
  { discriminate. }
  { exfalso. destruct AE as [AE | (pts & p & Hpts & Hp & AE)]; [discriminate|].
    apply chartPoint_finite in Hp. destruct Hp as (q & Hq & _). congruence. }
  destruct (chart_maxValue (buildMetricChart cur prev selector))
    as [| sgV | m] eqn:EV.
  { discriminate. }
  { exfalso. destruct AV as [AV | (pts & p & Hpts & Hp & AV)]; [discriminate|].
    destruct (V pts p Hpts Hp) as (v & Hv). congruence. }
  exists e, m. split; [reflexivity|]. split; [reflexivity|].
  cbn [num_leb] in LE, LV. apply Qle_bool_iff in LE. apply Qle_bool_iff in LV.
  split; [exact LE|]. split; [exact LV|].
  intros pts p Hpts Hp.
  destruct (U pts p Hpts Hp) as [Ue Uv].
  destruct (chartPoint_finite pts selector p Hp) as (q & Hq & Q0).
  destruct (V pts p Hpts Hp) as (v & Hv).
  exists q, v. rewrite Hq in Ue. rewrite Hv in Uv.
  cbn [num_leb] in Ue, Uv. apply Qle_bool_iff in Ue. apply Qle_bool_iff in Uv.
  repeat split; assumption.
Qed.

(** X17. On the charts of the page no line leaves the drawing area to the
    left, to the right or through the top: every chart point of the current
    and of each previous series gets an x between 0 and 720 and a y that is
    not below 0.  A point whose counter is not negative also stays above
    the base line: its y is a finite number between 0 and 220.  Nothing
    more is said of a negative counter, which the normaliser keeps.  The
    bounds rest on the order of the numbers only (a point is not beyond the
    maxima, and the maxima are at least 1), not on the digits of the
    quotients. *)
Theorem lines_stay_in_the_chart
        (selector : ProgressPoint -> number) (data : any)
        (cur : option ProgressEpochSeries) (prev : list ProgressEpochSeries) :
  selector = flipsSeen \/ selector = uniqueAuthors ->
  progressCurrentSeries data = Normal cur ->
  progressPreviousSeries data = Normal prev ->
  let chart := buildMetricChart cur prev selector in
  forall pts p,
    In pts (currentPoints cur :: map points prev) ->
    In p (toChartPoints pts selector) ->
    (exists x,
        scaledX (chart_maxElapsedSeconds chart) p = Fin x
        /\ (0 <= x)%Q /\ (x <= 720)%Q)
    /\ num_leb (Fin 0) (scaledY (chart_maxValue chart) p) = true
    /\ (num_leb (Fin 0) (value p) = true ->
        exists y,
          scaledY (chart_maxValue chart) p = Fin y
          /\ (0 <= y)%Q /\ (y <= 220)%Q).
Proof.
  intros Hsel Ec Ep chart.
  destruct (normalised_series_finite data cur prev Ec Ep) as [Fc Fp].
  destruct (chart_axes_finite selector cur prev Hsel Fc Fp)
    as (e & m & EE & EV & He & Hm & B).
  intros pts p Hpts Hp.
  destruct (B pts p Hpts Hp) as (q & v & Hq & Hv & Q0 & Qe & Vm).
  unfold chart. rewrite EE, EV. unfold scaledX, scaledY. rewrite Hq, Hv.
  unfold CHART_WIDTH, CHART_HEIGHT.
  destruct (scaled_inside q e 720 Q0 Qe He) as (x & -> & X0 & X1);
    [discriminate|].
  destruct (scaled_below v m 220 Vm Hm) as (y & -> & Y0 & Y1);
    [discriminate|].
  split; [exists x; repeat split; assumption|].
  cbn [num_leb]. split.
  - now apply Qle_bool_iff.
  - intro H. apply Qle_bool_iff in H.
    exists y. split; [reflexivity|]. split; [exact Y0 | now apply Y1].
Qed.

Lemma safeScale_cases (m : number) :
  (exists e, safeScale m = Fin e /\ (0 < e)%Q)
  \/ safeScale m = Infinity false.
Proof.
  unfold safeScale, num_gtb.
  destruct m as [| [|] | q]; cbn [num_ltb negb].
  - left. exists 1%Q. split; [reflexivity | lra].
  - left. exists 1%Q. split; [reflexivity | lra].
  - now right.
  - destruct (Qlt_bool 0 q) eqn:L.
    + left. exists q. split; [reflexivity|]. now apply Qlt_bool_iff.
    + left. exists 1%Q. split; [reflexivity | lra].
Qed.

Lemma quotient_monotone (a b e : Q) :
  (0 < e)%Q -> (a <= b)%Q -> (a / e <= b / e)%Q.
Proof.
  intros He H. unfold Qdiv. apply Qmult_le_compat_r; [exact H|].
  apply Qlt_le_weak. now apply Qinv_lt_0_compat.
Qed.

(** X18. Whatever the two maxima handed to [buildLinePath] are, zero,
    negative, [NaN] or infinite, the scale it divides by is above zero, so
    no coordinate of a point with a finite elapsed time and a finite value
    is [NaN].  The coordinates keep the order of the points: x does not
    decrease with the elapsed time, and y does not increase with the value
    (the larger value is drawn higher). *)
Theorem coordinates_defined_and_ordered
        (maxElapsedSeconds maxValue : number) (p1 p2 : ChartPoint) :
  isFinite (elapsedSeconds p1) = true -> isFinite (value p1) = true ->
  isFinite (elapsedSeconds p2) = true -> isFinite (value p2) = true ->
  num_gtb (safeScale maxElapsedSeconds) (Fin 0) = true
  /\ num_gtb (safeScale maxValue) (Fin 0) = true
  /\ isNaN (scaledX maxElapsedSeconds p1) = false
  /\ isNaN (scaledY maxValue p1) = false
  /\ (num_leb (elapsedSeconds p1) (elapsedSeconds p2) = true ->
      num_leb (scaledX maxElapsedSeconds p1) (scaledX maxElapsedSeconds p2) = true)
  /\ (num_leb (value p1) (value p2) = true ->
      num_leb (scaledY maxValue p2) (scaledY maxValue p1) = true).
Proof.
  intros E1 V1 E2 V2.
  unfold scaledX, scaledY, CHART_WIDTH, CHART_HEIGHT.
  destruct (elapsedSeconds p1) as [| |q1]; try discriminate.
  destruct (value p1) as [| |v1]; try discriminate.
  destruct (elapsedSeconds p2) as [| |q2]; try discriminate.
  destruct (value p2) as [| |v2]; try discriminate.
  assert (P : forall m, num_gtb (safeScale m) (Fin 0) = true).
  { intro m. destruct (safeScale_cases m) as [(e & -> & He) | ->];
      [|reflexivity].
    unfold num_gtb. cbn [num_ltb]. now apply Qlt_bool_iff. }
  split; [apply P|]. split; [apply P|].
  assert (X : forall m,
             isFinite (num_mul (num_div (Fin q1) (safeScale m)) (Fin 720)) = true
             /\ (num_leb (Fin q1) (Fin q2) = true ->
                 num_leb (num_mul (num_div (Fin q1) (safeScale m)) (Fin 720))
                         (num_mul (num_div (Fin q2) (safeScale m)) (Fin 720))
                 = true)).
  { intro m. destruct (safeScale_cases m) as [(e & -> & He) | ->].
    - unfold num_div, num_mul.
      destruct (Qeq_bool e 0) eqn:Z0.
      { apply Qeq_bool_eq in Z0. lra. }
      split; [reflexivity|]. cbn [num_leb]. intro H.
      apply Qle_bool_iff in H. apply Qle_bool_iff.
      pose proof (quotient_monotone q1 q2 e He H). lra.
    - cbn [num_div num_mul]. split; [reflexivity|]. intros _.
      cbn [num_leb]. apply Qle_bool_iff. lra. }
  assert (Y : forall m,
             isFinite (num_sub (Fin 220)
                         (num_mul (num_div (Fin v1) (safeScale m)) (Fin 220)))
             = true
             /\ (num_leb (Fin v1) (Fin v2) = true ->
                 num_leb (num_sub (Fin 220)
                            (num_mul (num_div (Fin v2) (safeScale m)) (Fin 220)))
                         (num_sub (Fin 220)
                            (num_mul (num_div (Fin v1) (safeScale m)) (Fin 220)))
                 = true)).
  { intro m. destruct (safeScale_cases m) as [(e & -> & He) | ->].
    - unfold num_div, num_mul, num_sub.
      destruct (Qeq_bool e 0) eqn:Z0.
      { apply Qeq_bool_eq in Z0. lra. }
      split; [reflexivity|]. cbn [num_leb]. intro H.
      apply Qle_bool_iff in H. apply Qle_bool_iff.
      pose proof (quotient_monotone v1 v2 e He H). lra.
    - cbn [num_div num_mul num_sub]. split; [reflexivity|]. intros _.
      cbn [num_leb]. apply Qle_bool_iff. lra. }
  assert (N : forall n, isFinite n = true -> isNaN n = false)
    by (intros [| |]; [discriminate | reflexivity | reflexivity]).
  destruct (X maxElapsedSeconds) as [X1 X2].
  destruct (Y maxValue) as [Y1 Y2].
  split; [now apply N|]. split; [now apply N|].
  split; assumption.
Qed.

(** ** Trailing lines and the latest value *)

Lemma mapi_from_indices {A B C} (f : A -> nat -> B) (g : B -> C)
      (h : nat -> C) (l : list A) (k : nat) :
  (forall x i, g (f x i) = h i) ->
  map g (mapi_from k f l) = map h (seq k (List.length l)).
Proof.
  intro H. revert k. induction l as [|x l IH]; intro k; [reflexivity|].
  cbn [mapi_from List.length seq map]. now rewrite H, IH.
Qed.

(** X19. A chart of the page draws one trailing line for each previous
    series the normaliser kept, in the same order and under its epoch: at
    most two.  The first is drawn at opacity 0.45 and the second at 0.24;
    each line is the path of its own series. *)
Theorem trailing_lines_follow_previous_series
        (selector : ProgressPoint -> number) (data : any) (chart : MetricChart) :
  metricChart selector data = Normal chart ->
  exists prev,
    progressPreviousSeries data = Normal prev
    /\ (List.length (trailingPaths chart) <= 2)%nat
    /\ map line_epoch (trailingPaths chart) = map epoch prev
    /\ map opacity (trailingPaths chart)
       = firstn (List.length prev) [45 # 100; 24 # 100]
    /\ map path (trailingPaths chart)
       = map (fun s => buildLinePath (toChartPoints (points s) selector)
                         (chart_maxElapsedSeconds chart) (chart_maxValue chart))
             prev.
Proof.
  unfold metricChart.
  destruct (progressCurrentSeries data) as [cur|]; [|discriminate].
  cbn [bind].
  destruct (progressPreviousSeries data) as [prev|] eqn:Ep; [|discriminate].
  cbn [bind]. intro H. injection H as <-.
  exists prev. split; [reflexivity|].
  destruct (previous_epochs_filtered_then_capped data prev Ep)
    as (_ & _ & _ & Len & _).
  unfold buildMetricChart. cbn [trailingPaths chart_maxElapsedSeconds chart_maxValue].
  unfold mapi. split.
  { now rewrite mapi_from_length, length_map. }
  split.
  { rewrite (mapi_from_map _ line_epoch fst) by reflexivity.
    rewrite map_map. reflexivity. }
  split.
  { rewrite (mapi_from_indices _ opacity
               (fun i : nat => if (i =? 0)%nat then 45 # 100 else 24 # 100))
      by reflexivity.
    rewrite length_map.
    destruct prev as [|s1 [|s2 [|s3 rest]]]; try reflexivity.
    cbn [List.length] in Len. lia. }
  rewrite (mapi_from_map _ path
             (fun series : number * list ChartPoint =>
                buildLinePath (snd series)
                  (Math_max (Fin 1 :: flat_map (fun series => map elapsedSeconds series)
                     (toChartPoints (match cur with Some s => points s | None => [] end)
                        selector
                      :: map snd (map (fun series =>
                            (epoch series, toChartPoints (points series) selector))
                            prev))))
                  (Math_max (Fin 1 :: flat_map (fun series => map value series)
                     (toChartPoints (match cur with Some s => points s | None => [] end)
                        selector
                      :: map snd (map (fun series =>
                            (epoch series, toChartPoints (points series) selector))
                            prev))))))
    by reflexivity.
  rewrite map_map. reflexivity.
Qed.

Lemma last_in {A} (l : list A) (d : A) : l <> [] -> In (last l d) l.
Proof.
  induction l as [|x l IH]; [congruence|]. intros _.
  destruct l as [|y l]; [now left|].
  right. apply IH. discriminate.
Qed.

(** X20. The latest value a chart of the page shows is 0 when the current
    series leaves no chart point (no current series, no point, or a first
    timestamp that does not parse); otherwise it is the counter of the last
    point of the current series whose timestamp parses, whatever the
    timestamps' order.  It is finite and never exceeds the maximum of the
    chart. *)
Theorem latest_value_is_last_parsed
        (selector : ProgressPoint -> number) (data : any)
        (cur : option ProgressEpochSeries) (prev : list ProgressEpochSeries) :
  selector = flipsSeen \/ selector = uniqueAuthors ->
  progressCurrentSeries data = Normal cur ->
  progressPreviousSeries data = Normal prev ->
  let chart := buildMetricChart cur prev selector in
  isFinite (latestValue chart) = true
  /\ num_leb (latestValue chart) (chart_maxValue chart) = true
  /\ (toChartPoints (currentPoints cur) selector = []
      /\ latestValue chart = Fin 0
      \/ exists front x,
           filter parses (currentPoints cur) = (front ++ [x])%list
           /\ latestValue chart = selector x).
Proof.
  intros Hsel Ec Ep chart.
  destruct (normalised_series_finite data cur prev Ec Ep) as [Fc Fp].
  destruct (chart_axes_finite selector cur prev Hsel Fc Fp)
    as (e & m & _ & EV & _ & Hm & B).
  fold chart in EV.
  assert (L : latestValue chart
              = last (map value (toChartPoints (currentPoints cur) selector))
                     (Fin 0)) by reflexivity.
  destruct (toChartPoints_cases (currentPoints cur) selector)
    as [E | (first & rest & Epts & P & E)].
  - rewrite E in L. cbn [map last] in L. rewrite L, EV.
    split; [reflexivity|]. split.
    + cbn [num_leb]. apply Qle_bool_iff. lra.
    + left. now split.
  - assert (NE : filter parses (currentPoints cur) <> []).
    { rewrite Epts. cbn [filter]. rewrite P. discriminate. }
    destruct (exists_last NE) as (front & x & Ef).
    assert (Lx : latestValue chart = selector x).
    { rewrite L, E, Ef, !map_app. cbn [map]. now rewrite last_last. }
    assert (Hp : In (chartPointOf (Date_parse (timestamp first)) selector x)
                    (toChartPoints (currentPoints cur) selector)).
    { rewrite E, Ef. apply in_map. apply in_or_app. right. now left. }
    destruct (B (currentPoints cur) _ (or_introl eq_refl) Hp)
      as (q & v & _ & Hv & _ & _ & Vm).
    cbn [chartPointOf value] in Hv.
    rewrite Lx, Hv, EV. split; [reflexivity|]. split.
    + cbn [num_leb]. now apply Qle_bool_iff.
    + right. exists front, x. split; [exact Ef|]. now rewrite <- Hv.
Qed.

Lemma toChartPoints_elapsed (pts : list ProgressPoint)
      (selector selector' : ProgressPoint -> number) :
  map elapsedSeconds (toChartPoints pts selector)
  = map elapsedSeconds (toChartPoints pts selector').
Proof.
  destruct pts as [|first rest]; [reflexivity|].
  destruct (parses first) eqn:P.
  - rewrite !(unparsable_timestamps_drop first rest _ P).
    rewrite !map_map. reflexivity.
  - unfold toChartPoints. unfold parses in P. now rewrite P.
Qed.

Lemma time_window_shared (cur : option ProgressEpochSeries)
      (prev : list ProgressEpochSeries)
      (selector selector' : ProgressPoint -> number) :
  chart_maxElapsedSeconds (buildMetricChart cur prev selector)
  = chart_maxElapsedSeconds (buildMetricChart cur prev selector').
Proof.
  unfold buildMetricChart. cbn [chart_maxElapsedSeconds].
  f_equal. f_equal. cbn [flat_map]. f_equal.
  - apply toChartPoints_elapsed.
  - rewrite !map_map. cbn [snd].
    induction prev as [|s prev IH]; [reflexivity|].
    cbn [map flat_map]. f_equal; [apply toChartPoints_elapsed | exact IH].
Qed.

Lemma formatDuration_whole (q : Q) :
  formatDuration (Fin q) = formatDuration (Fin (inject_Z (Z.max 0 (Qfloor q)))).
Proof.
  unfold formatDuration. rewrite !safe_seconds. rewrite Qfloor_Z.
  now rewrite (Z.max_r 0 (Z.max 0 (Qfloor q))) by lia.
Qed.

(** X21. The window label under the two charts is computed from the chart
    of the flips seen, and it is right for the chart of the unique authors
    as well: the largest elapsed time of a chart does not depend on the
    counter that is drawn, so both charts have the same time axis.  The
    label is that time, floored to whole seconds, and is never below one
    second. *)
Theorem charts_share_the_time_window (data : any) (label : string) :
  chartElapsedLabel data = Normal label ->
  exists flips authors z,
    flipsChart data = Normal flips
    /\ authorsChart data = Normal authors
    /\ chart_maxElapsedSeconds authors = chart_maxElapsedSeconds flips
    /\ Math_floor (chart_maxElapsedSeconds flips) = num_of_Z z
    /\ 1 <= z
    /\ label
       = NumberToString (num_of_Z (z / 86400)) ++ "d "
           ++ twoDigits (z mod 86400 / 3600) ++ "h "
           ++ twoDigits (z mod 3600 / 60) ++ "m "
           ++ twoDigits (z mod 60) ++ "s".
Proof.
  intro H.
  assert (S : exists cur prev,
             progressCurrentSeries data = Normal cur
             /\ progressPreviousSeries data = Normal prev
             /\ label = formatDuration
                          (chart_maxElapsedSeconds
                             (buildMetricChart cur prev flipsSeen))).
  { unfold chartElapsedLabel, flipsChart, metricChart in H.
    destruct (progressCurrentSeries data) as [cur|]; [|discriminate].
    destruct (progressPreviousSeries data) as [prev|]; [|discriminate].
    exists cur, prev. split; [reflexivity|]. split; [reflexivity|].
    now injection H as <-. }
  destruct S as (cur & prev & Ec & Ep & ->).
  exists (buildMetricChart cur prev flipsSeen),
         (buildMetricChart cur prev uniqueAuthors).
  destruct (normalised_series_finite data cur prev Ec Ep) as [Fc Fp].
  destruct (chart_axes_finite flipsSeen cur prev (or_introl eq_refl) Fc Fp)
    as (e & m & EE & _ & He & _ & _).
  exists (Qfloor e).
  split; [unfold flipsChart, metricChart; now rewrite Ec, Ep|].
  split; [unfold authorsChart, metricChart; now rewrite Ec, Ep|].
  split; [apply time_window_shared|].
  rewrite EE. split; [reflexivity|].
  assert (Z1 : 1 <= Qfloor e).
  { change 1 with (Qfloor 1). now apply Qfloor_resp_le. }
  split; [exact Z1|].
  rewrite formatDuration_whole. rewrite Z.max_r by lia.
  apply formatDuration_positive. lia.
Qed.

(** ** The scan endpoint and the page *)

Lemma chars_append (a b : string) :
  list_ascii_of_string (a ++ b)
  = (list_ascii_of_string a ++ list_ascii_of_string b)%list.
Proof. induction a as [|c a IH]; simpl; [reflexivity | now rewrite IH]. Qed.

Lemma endsWith_iff (suffix s : string) :
  endsWith suffix s = true <-> exists stem, s = stem ++ suffix.
Proof.
  unfold endsWith. rewrite andb_true_iff, String.eqb_eq, Nat.leb_le.
  split.
  - intros [E L].
    destruct (slices_split (String.length s - String.length suffix)
                (String.length suffix) s) as (middle & Es & _ & _ & Lm);
      [lia|].
    assert (M : middle = "").
    { destruct middle; [reflexivity|]. cbn [String.length] in Lm. lia. }
    subst middle. rewrite E in Es. cbn [String.append] in Es.
    eexists. exact Es.
  - intros (stem & ->). split.
    + unfold sliceLast. rewrite string_length_append.
      replace (String.length stem + String.length suffix
               - String.length suffix)%nat
        with (String.length stem) by lia.
      rewrite chars_append.
      rewrite string_length_chars, skipn_app, skipn_all.
      rewrite Nat.sub_diag. cbn [skipn app].
      apply string_of_list_ascii_of_string.
    + rewrite string_length_append. lia.
Qed.

Lemma find_first {A} (p : A -> bool) (l : list A) :
  match find p l with
  | Some x =>
      exists before after,
        l = (before ++ x :: after)%list
        /\ forallb (fun y => negb (p y)) before = true /\ p x = true
  | None => forallb (fun y => negb (p y)) l = true
  end.
Proof.
  induction l as [|y l IH]; [reflexivity|].
  cbn [find]. destruct (p y) eqn:P.
  - exists [], l. repeat split. exact P.
  - destruct (find p l) as [x|].
    + destruct IH as (before & after & -> & Hb & Hx).
      exists (y :: before), after. repeat split; [|exact Hx].
      cbn [forallb]. now rewrite P, Hb.
    + cbn [forallb]. now rewrite P, IH.
Qed.

Lemma scanHandler_steps (run : ScanRun) :
  scanHandler run
  = match (if existsSync_outDir run then rm_outDir run else Done tt) with
    | Failed m => failureResponse m
    | Done _ =>
    match mkdir_outDir run with
    | Failed m => failureResponse m
    | Done _ =>
    match execAsync_command run with
    | Failed m => failureResponse m
    | Done _ =>
    match readdir_outDir run with
    | Failed m => failureResponse m
    | Done files =>
    match find (endsWith ".meta.json") files with
    | None =>
        failureResponse "The Python script did not generate any JSON file."
    | Some jsonFile =>
    match readFile_in_outDir run jsonFile with
    | Failed m => failureResponse m
    | Done content =>
    match JSON_parse run content with
    | Failed m => failureResponse m
    | Done parsed => successResponse parsed
    end end end end end end end.
Proof.
  unfold scanHandler, scanSteps.
  destruct (if existsSync_outDir run then rm_outDir run else Done tt);
    [|reflexivity]; cbn [andThen].
  destruct (mkdir_outDir run); [|reflexivity]; cbn [andThen].
  destruct (execAsync_command run); [|reflexivity]; cbn [andThen].
  destruct (readdir_outDir run) as [files|]; [|reflexivity]; cbn [andThen].
  destruct (find (endsWith ".meta.json") files) as [jsonFile|]; [|reflexivity].
  destruct (readFile_in_outDir run jsonFile) as [content|]; [|reflexivity];
    cbn [andThen].
  destruct (JSON_parse run content); reflexivity.
Qed.

(** X22. The scan endpoint answers every request with an object and never
    lets an error escape; each step is taken to answer a value or to throw
    an [Error] with a message.  The steps are the clean-up (run only when
    the output directory exists), the creation of the directory, the
    script, the listing of the directory, the reading and the parsing of
    the snapshot file, which is the first listed name that ends in
    ".meta.json".  The handler answers [success: true] with the parsed
    content as [data] exactly when every step succeeds.  When a step fails
    after the steps before it succeeded, it answers [success: false] with
    [command_failed: true] and the message of that step, the later steps
    playing no part; when no listed name ends in ".meta.json" the message
    is the handler's own. *)
Theorem scanHandler_answers (run : ScanRun) :
  let cleanup := if existsSync_outDir run then rm_outDir run else Done tt in
  let snapshot files := find (endsWith ".meta.json") files in
  (forall parsed,
      scanHandler run = successResponse parsed
      <-> cleanup = Done tt
          /\ mkdir_outDir run = Done tt
          /\ execAsync_command run = Done tt
          /\ exists files jsonFile content,
               readdir_outDir run = Done files
               /\ snapshot files = Some jsonFile
               /\ readFile_in_outDir run jsonFile = Done content
               /\ JSON_parse run content = Done parsed)
  /\ (forall m, cleanup = Failed m -> scanHandler run = failureResponse m)
  /\ (cleanup = Done tt ->
      (forall m, mkdir_outDir run = Failed m ->
                 scanHandler run = failureResponse m)
      /\ (mkdir_outDir run = Done tt ->
          (forall m, execAsync_command run = Failed m ->
                     scanHandler run = failureResponse m)
          /\ (execAsync_command run = Done tt ->
              (forall m, readdir_outDir run = Failed m ->
                         scanHandler run = failureResponse m)
              /\ (forall files,
                    readdir_outDir run = Done files ->
                    (snapshot files = None ->
                     scanHandler run
                     = failureResponse
                         "The Python script did not generate any JSON file.")
                    /\ (forall jsonFile,
                          snapshot files = Some jsonFile ->
                          (forall m,
                              readFile_in_outDir run jsonFile = Failed m ->
                              scanHandler run = failureResponse m)
                          /\ (forall content m,
                                readFile_in_outDir run jsonFile = Done content ->
                                JSON_parse run content = Failed m ->
                                scanHandler run = failureResponse m))))))
  /\ (forall files jsonFile,
        snapshot files = Some jsonFile
        <-> exists before stem after,
              files = (before ++ jsonFile :: after)%list
              /\ jsonFile = stem ++ ".meta.json"
              /\ forallb (fun f => negb (endsWith ".meta.json" f)) before = true)
  /\ (forall parsed m, successResponse parsed <> failureResponse m)
  /\ (forall m m', failureResponse m = failureResponse m' -> m = m').
Proof.
  intros cleanup snapshot.
  pose proof (scanHandler_steps run) as E. fold cleanup in E.
  split.
  { intro parsed. split.
    - intro H. rewrite H in E.
      destruct cleanup as [[]|]; [|discriminate E].
      destruct (mkdir_outDir run) as [[]|]; [|discriminate E].
      destruct (execAsync_command run) as [[]|]; [|discriminate E].
      destruct (readdir_outDir run) as [files|]; [|discriminate E].
      destruct (find (endsWith ".meta.json") files) as [jsonFile|] eqn:F;
        [|discriminate E].
      destruct (readFile_in_outDir run jsonFile) as [content|] eqn:R;
        [|discriminate E].
      destruct (JSON_parse run content) as [parsed'|] eqn:J;
        [|discriminate E].
      injection E as ->.
      repeat split. exists files, jsonFile, content.
      repeat split; assumption.
    - intros (C & M & X & files & jsonFile & content & L & F & R & J).
      unfold snapshot in F.
      rewrite E, C, M, X, L, F, R, J. reflexivity. }
  split.
  { intros m C. now rewrite E, C. }
  split.
  { intro C. rewrite C in E. split.
    { intros m M. now rewrite E, M. }
    intro M. rewrite M in E. split.
    { intros m X. now rewrite E, X. }
    intro X. rewrite X in E. split.
    { intros m L. now rewrite E, L. }
    intros files L. rewrite L in E. unfold snapshot. split.
    { intro F. now rewrite E, F. }
    intros jsonFile F. rewrite F in E. split.
    { intros m R. now rewrite E, R. }
    intros content m R J. now rewrite E, R, J. }
  split.
  { intros files jsonFile. unfold snapshot. split.
    - intro F.
      pose proof (find_first (endsWith ".meta.json") files) as FF.
      rewrite F in FF. destruct FF as (before & after & -> & Hb & Hx).
      apply endsWith_iff in Hx. destruct Hx as (stem & Hs).
      exists before, stem, after. repeat split; assumption.
    - intros (before & stem & after & -> & Hs & Hb).
      assert (T : endsWith ".meta.json" jsonFile = true)
        by (apply endsWith_iff; now exists stem).
      clear Hs. induction before as [|f before IH]; cbn [app find].
      + now rewrite T.
      + cbn [forallb] in Hb. apply andb_true_iff in Hb.
        destruct Hb as [Hf Hb].
        destruct (endsWith ".meta.json" f); [discriminate Hf|].
        now apply IH. }
  split.
  { intros parsed m. discriminate. }
  intros m m' H. now injection H.
Qed.

Lemma scanHandler_shape (run : ScanRun) :
  (exists parsed,
      scanSteps run = Done (JObject [("success", JBool true); ("data", parsed)])
      /\ scanHandler run = JObject [("success", JBool true); ("data", parsed)])
  \/ (exists message,
      scanSteps run = Failed message
      /\ scanHandler run
         = JObject [("success", JBool false);
                    ("error", JString message);
                    ("command_failed", JBool true)]).
Proof.
  unfold scanHandler, scanSteps.
  destruct (if existsSync_outDir run then rm_outDir run else Done tt)
    as [[]|m0]; cbn [andThen]; [|right; now exists m0].
  destruct (mkdir_outDir run) as [[]|m1]; cbn [andThen];
    [|right; now exists m1].
  destruct (execAsync_command run) as [[]|m2]; cbn [andThen];
    [|right; now exists m2].
  destruct (readdir_outDir run) as [files|m3]; cbn [andThen];
    [|right; now exists m3].
  destruct (find (endsWith ".meta.json") files) as [jsonFile|];
    [|right; now eexists].
  destruct (readFile_in_outDir run jsonFile) as [content|m4]; cbn [andThen];
    [|right; now exists m4].
  destruct (JSON_parse run content) as [parsed|m5]; cbn [andThen];
    [left; now exists parsed | right; now exists m5].
Qed.

(** X23. What the page shows once a request to the scan endpoint has
    answered and the fetch reports no error, the response reaching the page
    as the handler returned it.  A failed scan shows the script-error box
    with the message of the failed step, and the payload is [null].  A
    successful scan shows the dashboard when the parsed snapshot is truthy;
    when the snapshot file holds [null], [false], [0] or an empty string,
    no block is shown at all.  The network-error box is never shown, and
    choosing the block never raises. *)
Theorem page_after_scan (run : ScanRun) (error : any) :
  ToBoolean error = false ->
  pageBlock true error (scanHandler run) = Normal Scanning
  /\ pageBlock false error (scanHandler run)
     = Normal (match scanSteps run with
               | Failed message => ScriptError (JString message)
               | Done response =>
                   if ToBoolean (field response "data")
                   then Dashboard (field response "data")
                   else NoBlock
               end)
  /\ payload (scanHandler run)
     = Normal (match scanSteps run with
               | Failed _ => null
               | Done response => nullish (field response "data") null
               end).
Proof.
  intro He. split; [reflexivity|].
  unfold pageBlock. rewrite He.
  destruct (scanHandler_shape run) as [(parsed & S & H) | (message & S & H)];
    rewrite S, H.
  - split.
    + cbn. destruct parsed as [| | | | | |]; try reflexivity.
    + reflexivity.
  - split; reflexivity.
Qed.

(** ** The status label and the blocks of the page *)

Lemma joinWith_cases (separator : string) (l : list any) :
  joinWith separator l
  = if existsb shadowed l then Throw TypeError
    else Normal (String.concat separator (map joinText l)).
Proof.
  unfold joinWith.
  rewrite (mapM_raises _ joinText shadowed).
  - now destruct (existsb shadowed l).
  - intro x. pose proof (ToString_shadowed x) as E.
    destruct x; try reflexivity;
      cbn [joinText shadowed] in *;
      rewrite E at 1;
      match goal with
      | |- (if ?b then _ else _) = _ => destruct b; [reflexivity|]
      end;
      now match goal with
          | |- context [match ?t with Normal _ => _ | Throw _ => _ end] =>
              destruct t
          end.
Qed.

Lemma GetOpt_as_field (v : any) (k : string) : GetOpt v k = Normal (field v k).
Proof. now destruct v. Qed.

(** X24. The status label reads "All" unless the snapshot lists statuses
    in a non-empty array at [gradeLeaderboard.filters.status]; it is then
    the texts of the listed values joined by ", " ([null] and [undefined]
    give an empty text), so a list of strings gives those strings.  The
    label raises exactly when a listed value is an object with an own
    [toString] property, or an array holding one. *)
Theorem gradeStatusLabel_cases (data : any) :
  exists leaderboard,
    gradeLeaderboard data = Normal leaderboard
    /\ gradeStatusLabel data
       = match statusList leaderboard with
         | JArray (x :: l) =>
             if existsb shadowed (x :: l) then Throw TypeError
             else Normal (String.concat ", " (map joinText (x :: l)))
         | _ => Normal "All"
         end
    /\ (forall names,
          names <> [] ->
          statusList leaderboard = JArray (map JString names) ->
          gradeStatusLabel data = Normal (String.concat ", " names)).
Proof.
  destruct (gradeLeaderboard_total data) as (g & Eg & _ & _).
  exists g. split; [exact Eg|].
  assert (E : gradeStatusLabel data
              = match statusList g with
                | JArray (x :: l) =>
                    if existsb shadowed (x :: l) then Throw TypeError
                    else Normal (String.concat ", " (map joinText (x :: l)))
                | _ => Normal "All"
                end).
  { unfold gradeStatusLabel, statusList. rewrite Eg. cbn [bind].
    rewrite (GetOpt_as_field g "filters"). cbn [bind].
    rewrite (GetOpt_as_field (field g "filters") "status"). cbn [bind].
    destruct (field (field g "filters") "status") as [| | | | |[|x l]|];
      try reflexivity.
    apply joinWith_cases. }
  split; [exact E|].
  intros names NE Hs. rewrite E, Hs.
  destruct names as [|n names]; [congruence|].
  cbn [map].
  assert (S : existsb shadowed (JString n :: map JString names) = false).
  { cbn [existsb shadowed orb]. clear. induction names as [|m names IH];
      [reflexivity | exact IH]. }
  rewrite S. do 2 f_equal.
  change (JString n :: map JString names) with (map JString (n :: names)).
  rewrite map_map. cbn [joinText ToString]. apply (map_id (n :: names)).
Qed.

(** X25. Choosing the block of the page never raises, whatever the fetch
    holds, and at most one block is shown.  The dashboard is shown only
    when nothing is pending, the fetch reports no error, the response has a
    truthy [success] and a truthy [data], which is the payload shown; a
    response with [data] but without a truthy [success] shows the
    script-error box instead. *)
Theorem page_block_never_raises (pending : bool) (error data : any) :
  exists block,
    pageBlock pending error data = Normal block
    /\ (block = Scanning <-> pending = true)
    /\ (forall message,
          block = NetworkError message <->
          pending = false /\ ToBoolean error = true
          /\ message = field error "message")
    /\ (forall message,
          block = ScriptError message <->
          pending = false /\ ToBoolean error = false
          /\ ToBoolean data = true
          /\ ToBoolean (field data "success") = false
          /\ message = field data "error")
    /\ (forall shown,
          block = Dashboard shown <->
          pending = false /\ ToBoolean error = false
          /\ ToBoolean (field data "success") = true
          /\ shown = field data "data"
          /\ ToBoolean shown = true).
Proof.
  unfold pageBlock.
  destruct pending.
  { eexists. split; [reflexivity|]. split; [tauto|].
    repeat split; intros; try discriminate; intuition discriminate. }
  destruct (ToBoolean error) eqn:Te.
  { assert (G : Get error "message" = Normal (field error "message")).
    { destruct error; try discriminate; reflexivity. }
    rewrite G. cbn [bind]. eexists. split; [reflexivity|].
    split; [split; discriminate|].
    split.
    { intro message. split.
      - intro H. injection H as <-. now repeat split.
      - intros (_ & _ & ->). reflexivity. }
    split; intros; split; intros; try discriminate; intuition discriminate. }
  assert (S : ToBoolean (field data "success") = true -> ToBoolean data = true).
  { intro H. destruct data; try reflexivity; cbn in H; discriminate H. }
  assert (P : payload data = Normal (nullish (field data "data") null)).
  { unfold payload. now rewrite GetOpt_as_field. }
  destruct (ToBoolean data) eqn:Td.
  - assert (G : forall k, Get data k = Normal (field data k)).
    { intro k. destruct data; try discriminate; reflexivity. }
    rewrite (G "success"). cbn [bind].
    destruct (ToBoolean (field data "success")) eqn:Ts; cbn [negb].
    + rewrite P. cbn [bind].
      destruct (ToBoolean (nullish (field data "data") null)) eqn:Tp.
      * assert (N : nullish (field data "data") null = field data "data").
        { destruct (field data "data"); try reflexivity; discriminate. }
        rewrite N in *. eexists. split; [reflexivity|].
        split; [split; discriminate|].
        split; [intros; split; intros; try discriminate; intuition discriminate|].
        split; [intros; split; intros; try discriminate; intuition discriminate|].
        intro shown. split.
        -- intro H. injection H as <-. now repeat split.
        -- intros (_ & _ & _ & -> & _). reflexivity.
      * eexists. split; [reflexivity|].
        split; [split; discriminate|].
        split; [intros; split; intros; try discriminate; intuition discriminate|].
        split; [intros; split; intros; try discriminate; intuition discriminate|].
        intro shown. split; [discriminate|].
        intros (_ & _ & _ & -> & T). exfalso.
        destruct (field data "data"); cbn in Tp, T; congruence.
    + rewrite (G "error"). cbn [bind]. eexists. split; [reflexivity|].
      split; [split; discriminate|].
      split; [intros; split; intros; try discriminate; intuition discriminate|].
      split.
      { intro message. split.
        - intro H. injection H as <-. now repeat split.
        - intros (_ & _ & _ & _ & ->). reflexivity. }
      intros; split; intros; try discriminate; intuition discriminate.
  - cbn [bind]. rewrite P. cbn [bind].
    assert (F : field data "data" = undefined).
    { destruct data; try reflexivity; discriminate. }
    rewrite F. cbn [nullish ToBoolean].
    eexists. split; [reflexivity|].
    split; [split; discriminate|].
    split; [intros; split; intros; try discriminate; intuition discriminate|].
    split; [intros; split; intros; try discriminate; intuition discriminate|].
    intro shown. split; [discriminate|].
    intros (_ & _ & Ts & _). apply S in Ts. discriminate.
Qed.

End Page.

(* ================================================================== *)
(** * The page on the sample snapshots *)

(** ** Normaliser *)

(** C1, counterexample to the specification as it stands: the rows of a
    leaderboard array are returned unchecked, a [null] and a number among
    them. *)
Lemma topIdentities_returns_unchecked_rows :
  topIdentities uncheckedRowsSnapshot = Normal [null; JNumber (Fin 7)]
  /\ isObjectLike null = false
  /\ isObjectLike (JNumber (Fin 7)) = false.
Proof. repeat split. Qed.

(** The conversion that raises, through the computed of the current
    series. *)
Lemma progressCurrentSeries_raises_on_shadowed_counter :
  plain shadowedCounterSnapshot = false
  /\ progressCurrentSeries hostNumber hostDigits shadowedCounterSnapshot
     = Throw TypeError.
Proof. split; reflexivity. Qed.

Lemma normalizer_on_sample :
  plain sampleSnapshot = true
  /\ topIdentities sampleSnapshot = Normal [sampleRow]
  /\ progressCurrentSeries hostNumber hostDigits sampleSnapshot
     = Normal (Some {| epoch := Fin 171; points := sampleKeptPoints |})
  /\ progressPreviousSeries hostNumber hostDigits sampleSnapshot
     = Normal sampleKeptPrevious
  /\ progressMinRefresh sampleSnapshot = Normal (Fin 30).
Proof. repeat split. Qed.

Lemma normalizer_never_raises_on_sample :
  plain sampleSnapshot = true
  /\ exists cur prev,
       progressCurrentSeries hostNumber hostDigits sampleSnapshot = Normal cur
       /\ progressPreviousSeries hostNumber hostDigits sampleSnapshot
          = Normal prev.
Proof.
  split; [reflexivity|].
  destruct (normalizer_never_raises_on_plain_input
              hostNumber hostDigits sampleSnapshot eq_refl)
    as (g & ti & il & tf & cur & prev & mr & H).
  exists cur, prev. tauto.
Defined.

Lemma progress_points_on_sample :
  normalizePoints hostNumber hostDigits (JArray samplePoints)
  = Normal sampleKeptPoints
  /\ sampleKeptPoints
     = map (pointOf hostNumber hostDigits) (filter keepsPoint samplePoints).
Proof.
  split; [reflexivity|].
  apply (progress_points_kept_in_order
           hostNumber hostDigits samplePoints sampleKeptPoints).
  reflexivity.
Defined.

Lemma previous_epochs_on_sample :
  progressPreviousSeries hostNumber hostDigits sampleSnapshot
  = Normal sampleKeptPrevious
  /\ exists rows,
       previousEpochsSource sampleSnapshot = Normal rows
       /\ sampleKeptPrevious
          = firstn 2 (map (keptSeries hostNumber hostDigits)
                          (filter (keepsSeries hostNumber hostDigits)
                                  (arrayElements rows))).
Proof.
  split; [reflexivity|].
  destruct (previous_epochs_filtered_then_capped
              hostNumber hostDigits sampleSnapshot sampleKeptPrevious eq_refl)
    as (rows & E & K & _).
  exists rows. now split.
Defined.

(** Cutting before filtering would have kept one entry of the sample, the
    epoch given as a string, and lost epoch 169. *)
Lemma cap_follows_filter_on_sample :
  map epoch sampleKeptPrevious = [Fin 170; Fin 169]
  /\ filter (keepsSeries hostNumber hostDigits) (firstn 2 samplePrevious)
     = [JObject [("epoch", JString "170"); ("points", JArray samplePoints)]].
Proof. split; reflexivity. Qed.

(** C8, counterexample to the specification as it stands: a current series
    whose epoch is 0 and a previous series whose epoch is 2.5. *)
Lemma epochs_zero_and_fractional :
  progressCurrentSeries hostNumber hostDigits oddEpochsSnapshot
  = Normal (Some {| epoch := Fin 0; points := [] |})
  /\ isPositiveInteger (Fin 0) = false
  /\ progressPreviousSeries hostNumber hostDigits oddEpochsSnapshot
     = Normal [{| epoch := Fin (5 # 2); points := [] |}]
  /\ isPositiveInteger (Fin (5 # 2)) = false.
Proof. repeat split. Qed.

(** ** Lookup *)

Lemma identityLookup_falls_back_on_sample :
  identityLookupSource sampleSnapshot = Normal (JArray [])
  /\ identityLookup sampleSnapshot = Normal [sampleRow].
Proof. split; reflexivity. Qed.

Lemma address_validation_runs :
  normalizedSearchAddress "0xABCDEF0123456789abcdef0123456789abcdef01"
  = "0xabcdef0123456789abcdef0123456789abcdef01"
  /\ isSearchAddressValid "0xABCDEF0123456789abcdef0123456789abcdef01" = true
  /\ hasSearchValue "0x123" = true
  /\ isSearchAddressValid "0x123" = false
  /\ hasSearchValue "" = false
  /\ hasSearchValue "   " = false.
Proof. repeat split. Qed.

Lemma lookup_on_sample :
  identityLookup sampleSnapshot = Normal [sampleRow]
  /\ Forall (fun row => row <> undefined /\ row <> null) [sampleRow]
  /\ lookupPanel "  0xAAAAaaaaAAAAaaaaAAAAaaaaAAAAaaaaAAAAaaaa " sampleSnapshot
     = Normal (ResultCard sampleRow)
  /\ lookupPanel "0x123" sampleSnapshot = Normal FormatLooksInvalid
  /\ lookupPanel " " sampleSnapshot = Normal EnterAnAddress
  /\ lookupPanel "0xbbbbbbbbbbbbbbbbbbbbbbbbbbbbbbbbbbbbbbbb" sampleSnapshot
     = Normal AddressNotFound.
Proof.
  assert (R : Forall (fun row => row <> undefined /\ row <> null) [sampleRow]).
  { repeat constructor; discriminate. }
  split; [reflexivity|]. split; [exact R|].
  pose proof (lookup_states "  0xAAAAaaaaAAAAaaaaAAAAaaaaAAAAaaaaAAAAaaaa "
                sampleSnapshot [sampleRow] eq_refl R) as (_ & _ & Found & _).
  pose proof (lookup_states "0x123" sampleSnapshot [sampleRow] eq_refl R)
    as (_ & Bad & _ & _).
  pose proof (lookup_states " " sampleSnapshot [sampleRow] eq_refl R)
    as (Empty & _ & _ & _).
  pose proof (lookup_states "0xbbbbbbbbbbbbbbbbbbbbbbbbbbbbbbbbbbbbbbbb"
                sampleSnapshot [sampleRow] eq_refl R) as (_ & _ & Missing & _).
  split; [exact (proj1 (Found eq_refl))|].
  split; [apply Bad; [discriminate | reflexivity]|].
  split; [exact (proj1 (Empty eq_refl))|].
  exact (proj1 (Missing eq_refl)).
Defined.

(** A [null] among the rows makes the lookup of a well-formed address
    raise. *)
Lemma lookup_raises_on_null_row :
  foundIdentity sampleAddress uncheckedRowsSnapshot = Throw TypeError.
Proof. reflexivity. Qed.

(** ** Countdown *)

Lemma countdown_runs :
  nextSessionTime sampleSnapshot = Normal (Some "2024-01-01T00:01:30.000Z")
  /\ nextSessionCountdownLabel hostDate hostDigits
       (Some "2024-01-01T00:01:30.000Z") (Fin 1704067200000)
     = "0d 00h 01m 30s"
  /\ nextSessionCountdownLabel hostDate hostDigits
       (Some "2024-01-01T00:01:30.000Z") (Fin 1704067290000)
     = "Session started"
  /\ nextSessionCountdownLabel hostDate hostDigits
       (Some "2024-01-01T00:01:30.000Z") (Fin 1704067289500)
     = "Session started"
  /\ nextSessionCountdownLabel hostDate hostDigits
       (Some "tomorrow") (Fin 1704067200000)
     = "Unavailable"
  /\ nextSessionCountdownLabel hostDate hostDigits None (Fin 1704067200000)
     = "Unavailable"
  /\ formatDuration hostDigits (Fin 93784) = "1d 02h 03m 04s".
Proof. repeat split. Qed.

(** ** Chart *)

Lemma line_path_runs :
  buildLinePath hostDigits [] (Fin 180) (Fin 10) = ""
  /\ buildLinePath hostDigits
       [{| elapsedSeconds := Fin 0; value := Fin 5 |}] (Fin 180) (Fin 10)
     = "M0 110.00 L720 110.00"
  /\ buildLinePath hostDigits
       [{| elapsedSeconds := Fin 0; value := Fin 0 |};
        {| elapsedSeconds := Fin 90; value := Fin 5 |};
        {| elapsedSeconds := Fin 180; value := Fin 10 |}] (Fin 180) (Fin 10)
     = "M0.00 220.00 L360.00 110.00 L720.00 0.00".
Proof. repeat split. Qed.

(** The point of the sample whose timestamp is not a date was kept by the
    normaliser and leaves the chart; put first, it empties the series. *)
Lemma chart_points_on_sample :
  map value (toChartPoints hostDate sampleKeptPoints flipsSeen) = [Fin 4; Fin 10]
  /\ toChartPoints hostDate
       ({| timestamp := "not a date"; flipsSeen := Fin 0; uniqueAuthors := Fin 0 |}
        :: sampleKeptPoints) flipsSeen = []
  /\ buildLinePath hostDigits
       (toChartPoints hostDate
          ({| timestamp := "not a date"; flipsSeen := Fin 0;
              uniqueAuthors := Fin 0 |} :: sampleKeptPoints) flipsSeen)
       (Fin 180) (Fin 10) = "".
Proof. repeat split. Qed.

Lemma flips_chart_on_sample :
  forallb finitePoint sampleKeptPoints = true
  /\ Forall (fun s => finiteSeries s = true) sampleKeptPrevious
  /\ metricChart hostNumber hostDate hostDigits flipsSeen sampleSnapshot
     = Normal (buildMetricChart hostDate hostDigits
                 (Some {| epoch := Fin 171; points := sampleKeptPoints |})
                 sampleKeptPrevious flipsSeen)
  /\ currentPath (buildMetricChart hostDate hostDigits
                    (Some {| epoch := Fin 171; points := sampleKeptPoints |})
                    sampleKeptPrevious flipsSeen)
     = "M0.00 132.00 L720.00 0.00"
  /\ num_leb (Fin 1)
       (chart_maxElapsedSeconds
          (buildMetricChart hostDate hostDigits
             (Some {| epoch := Fin 171; points := sampleKeptPoints |})
             sampleKeptPrevious flipsSeen)) = true
  /\ num_leb (Fin 1)
       (chart_maxValue
          (buildMetricChart hostDate hostDigits
             (Some {| epoch := Fin 171; points := sampleKeptPoints |})
             sampleKeptPrevious flipsSeen)) = true.
Proof.
  assert (Fc : forallb finitePoint sampleKeptPoints = true) by reflexivity.
  assert (Fp : Forall (fun s => finiteSeries s = true) sampleKeptPrevious)
    by (repeat constructor).
  split; [exact Fc|]. split; [exact Fp|].
  split; [reflexivity|]. split; [reflexivity|].
  destruct (chart_axes_shared hostDate hostDigits flipsSeen
              (Some {| epoch := Fin 171; points := sampleKeptPoints |})
              sampleKeptPrevious (or_introl eq_refl) Fc Fp)
    as (LE & LV & _).
  split; [exact LE | exact LV].
Defined.

(** Without any point the two maxima are the floor, 1. *)
Lemma authors_chart_without_points :
  exists chart,
    metricChart hostNumber hostDate hostDigits uniqueAuthors oddEpochsSnapshot
    = Normal chart
    /\ currentPath chart = ""
    /\ map path (trailingPaths chart) = [""]
    /\ chart_maxElapsedSeconds chart = Fin 1
    /\ chart_maxValue chart = Fin 1.
Proof. eexists. repeat split. Qed.

(** ** The other computeds on the samples *)

(** X4 on the response of a failed scan. *)
Lemma defaults_after_failed_scan :
  payload (scanHandler failedScanRun) = Normal null
  /\ topIdentities (scanHandler failedScanRun) = Normal []
  /\ progressMinRefresh (scanHandler failedScanRun) = Normal (Fin 30)
  /\ chartElapsedLabel hostNumber hostDate hostDigits (scanHandler failedScanRun)
     = Normal "0d 00h 00m 01s".
Proof.
  assert (P : payload (scanHandler failedScanRun) = Normal null) by reflexivity.
  split; [exact P|].
  destruct (defaults_without_payload hostNumber hostDate hostDigits
              (scanHandler failedScanRun) P)
    as (_ & T & _ & _ & _ & _ & _ & R & _ & _ & _ & _ & L).
  split; [exact T|]. split; [exact R | exact L].
Defined.

(** X5 on a leaderboard whose two lists are empty. *)
Lemma empty_lookup_means_empty_leaderboard :
  identityLookup
    (JObject [("data", JObject [("gradeLeaderboard",
                                 JObject [("topIdentities", JArray []);
                                          ("identityLookup", JArray [])])])])
  = Normal []
  /\ topIdentities
       (JObject [("data", JObject [("gradeLeaderboard",
                                    JObject [("topIdentities", JArray []);
                                             ("identityLookup", JArray [])])])])
     = Normal [].
Proof.
  split; [reflexivity|].
  apply identityLookup_empty_only_with_topIdentities. reflexivity.
Defined.

(** X7 on the sample address. *)
Lemma sample_address_is_normal :
  addressPattern_test sampleAddress = true
  /\ normalizedSearchAddress sampleAddress = sampleAddress
  /\ hasSearchValue sampleAddress = true
  /\ isSearchAddressValid sampleAddress = true.
Proof.
  split; [reflexivity|].
  apply wellformed_address_is_normal. reflexivity.
Defined.

(** X9 on the sample snapshot: the row of the typed address is shown. *)
Lemma lookup_finds_the_sample_row :
  identityLookup sampleSnapshot = Normal [sampleRow]
  /\ Forall (fun row => row <> undefined /\ row <> null) [sampleRow]
  /\ exists row,
       lookupPanel "  0xAAAAaaaaAAAAaaaaAAAAaaaaAAAAaaaaAAAAaaaa " sampleSnapshot
       = Normal (ResultCard row)
       /\ field row "address" = JString sampleAddress
       /\ showSearchNotFound "  0xAAAAaaaaAAAAaaaaAAAAaaaaAAAAaaaaAAAAaaaa "
            sampleSnapshot = Normal false.
Proof.
  assert (R : Forall (fun row => row <> undefined /\ row <> null) [sampleRow]).
  { repeat constructor; discriminate. }
  split; [reflexivity|]. split; [exact R|].
  destruct (lookup_sound_and_complete
              "  0xAAAAaaaaAAAAaaaaAAAAaaaaAAAAaaaaAAAAaaaa "
              sampleSnapshot [sampleRow] eq_refl R) as [_ Complete].
  apply Complete; [reflexivity|].
  exists sampleRow. split; [now left | reflexivity].
Defined.

(** X14 on one day, two hours, three minutes and four seconds. *)
Lemma duration_of_93784_seconds :
  0 <= 93784 <= 9007199254740991
  /\ exists d h m s,
       0 <= d /\ 0 <= h < 24 /\ 0 <= m < 60 /\ 0 <= s < 60
       /\ 93784 = 86400 * d + 3600 * h + 60 * m + s
       /\ formatDuration hostDigits (num_of_Z 93784)
          = NumberToString hostDigits (num_of_Z d) ++ "d "
              ++ twoDigits h ++ "h " ++ twoDigits m ++ "m "
              ++ twoDigits s ++ "s".
Proof.
  split; [lia|]. apply (formatDuration_decomposes hostDigits 93784). lia.
Defined.

(** X15 on a session time that does not parse. *)
Lemma no_date_beside_unavailable :
  nextSessionCountdownLabel hostDate hostDigits (Some "tomorrow") (Fin 0)
  = "Unavailable"
  /\ secondsUntilNextSession hostDate (Some "tomorrow") (Fin 0) = None
  /\ formatTimestamp hostDate (fun _ => "1/1/2024, 12:00:00 AM")
       (orUndefined (Some "tomorrow")) = "-".
Proof.
  split; [reflexivity|].
  apply (unavailable_countdown_has_no_date hostDate hostDigits
           (fun _ => "1/1/2024, 12:00:00 AM") (Some "tomorrow") (Fin 0)).
  reflexivity.
Defined.

(** X16 on the points kept of the sample snapshot. *)
Lemma sample_chart_starts_at_zero :
  hostDate "2024-01-01T00:00:00.000Z" = Fin 1704067200000
  /\ exists tail,
       toChartPoints hostDate sampleKeptPoints flipsSeen
       = {| elapsedSeconds := Fin 0; value := Fin 4 |} :: tail.
Proof.
  split; [reflexivity|].
  destruct (chart_points_offsets hostDate
              {| timestamp := "2024-01-01T00:00:00.000Z";
                 flipsSeen := Fin 4; uniqueAuthors := Fin 2 |}
              [ {| timestamp := "not a date";
                   flipsSeen := Fin 0; uniqueAuthors := Fin 0 |};
                {| timestamp := "2024-01-01T00:03:00.000Z";
                   flipsSeen := Fin 10; uniqueAuthors := Fin 5 |} ]
              flipsSeen 1704067200000 eq_refl) as (tail & E & _).
  exists tail. exact E.
Defined.

(** X17 on the sample snapshot. *)
Lemma sample_lines_inside_the_box :
  progressCurrentSeries hostNumber hostDigits sampleSnapshot
  = Normal (Some {| epoch := Fin 171; points := sampleKeptPoints |})
  /\ progressPreviousSeries hostNumber hostDigits sampleSnapshot
     = Normal sampleKeptPrevious
  /\ forall p,
       In p (toChartPoints hostDate sampleKeptPoints flipsSeen) ->
       exists x,
         scaledX (chart_maxElapsedSeconds
                    (buildMetricChart hostDate hostDigits
                       (Some {| epoch := Fin 171; points := sampleKeptPoints |})
                       sampleKeptPrevious flipsSeen)) p = Fin x
         /\ (0 <= x)%Q /\ (x <= 720)%Q.
Proof.
  split; [reflexivity|]. split; [reflexivity|].
  intros p Hp.
  exact (proj1 (lines_stay_in_the_chart hostNumber hostDate hostDigits
                  flipsSeen sampleSnapshot
                  (Some {| epoch := Fin 171; points := sampleKeptPoints |})
                  sampleKeptPrevious (or_introl eq_refl) eq_refl eq_refl
                  sampleKeptPoints p (or_introl eq_refl) Hp)).
Defined.

(** X18 with a zero and a [NaN] maximum. *)
Lemma coordinates_with_unusable_maxima :
  isNaN (scaledX (Fin 0) {| elapsedSeconds := Fin 0; value := Fin 4 |}) = false
  /\ isNaN (scaledY NaN {| elapsedSeconds := Fin 0; value := Fin 4 |}) = false
  /\ num_leb (scaledY NaN {| elapsedSeconds := Fin 180; value := Fin 10 |})
             (scaledY NaN {| elapsedSeconds := Fin 0; value := Fin 4 |}) = true.
Proof.
  destruct (coordinates_defined_and_ordered (Fin 0) NaN
              {| elapsedSeconds := Fin 0; value := Fin 4 |}
              {| elapsedSeconds := Fin 180; value := Fin 10 |}
              eq_refl eq_refl eq_refl eq_refl)
    as (_ & _ & Fx & Fy & _ & Oy).
  split; [exact Fx|]. split; [exact Fy|]. apply Oy. reflexivity.
Defined.

(** X19 on the sample snapshot: two trailing lines, epochs 170 and 169. *)
Lemma sample_trailing_lines :
  map line_epoch
      (trailingPaths
         (buildMetricChart hostDate hostDigits
            (Some {| epoch := Fin 171; points := sampleKeptPoints |})
            sampleKeptPrevious flipsSeen))
  = [Fin 170; Fin 169]
  /\ map opacity
         (trailingPaths
            (buildMetricChart hostDate hostDigits
               (Some {| epoch := Fin 171; points := sampleKeptPoints |})
               sampleKeptPrevious flipsSeen))
     = [45 # 100; 24 # 100]%Q.
Proof.
  destruct (trailing_lines_follow_previous_series hostNumber hostDate hostDigits
              flipsSeen sampleSnapshot
              (buildMetricChart hostDate hostDigits
                 (Some {| epoch := Fin 171; points := sampleKeptPoints |})
                 sampleKeptPrevious flipsSeen) eq_refl)
    as (prev & Ep & _ & Epochs & Opacities & _).
  assert (P : prev = sampleKeptPrevious).
  { assert (E : progressPreviousSeries hostNumber hostDigits sampleSnapshot
                = Normal sampleKeptPrevious) by reflexivity.
    rewrite E in Ep. now injection Ep as <-. }
  subst prev. split; [exact Epochs | exact Opacities].
Defined.

(** X20 on the sample snapshot: the latest value is the counter of the
    last point whose timestamp parses. *)
Lemma sample_latest_value :
  isFinite
    (latestValue
       (buildMetricChart hostDate hostDigits
          (Some {| epoch := Fin 171; points := sampleKeptPoints |})
          sampleKeptPrevious flipsSeen)) = true
  /\ num_leb
       (latestValue
          (buildMetricChart hostDate hostDigits
             (Some {| epoch := Fin 171; points := sampleKeptPoints |})
             sampleKeptPrevious flipsSeen))
       (chart_maxValue
          (buildMetricChart hostDate hostDigits
             (Some {| epoch := Fin 171; points := sampleKeptPoints |})
             sampleKeptPrevious flipsSeen)) = true
  /\ latestValue
       (buildMetricChart hostDate hostDigits
          (Some {| epoch := Fin 171; points := sampleKeptPoints |})
          sampleKeptPrevious flipsSeen) = Fin 10.
Proof.
  destruct (latest_value_is_last_parsed hostNumber hostDate hostDigits flipsSeen
              sampleSnapshot
              (Some {| epoch := Fin 171; points := sampleKeptPoints |})
              sampleKeptPrevious (or_introl eq_refl) eq_refl eq_refl)
    as (F & B & _).
  split; [exact F|]. split; [exact B | reflexivity].
Defined.

(** X21 on the sample snapshot: a window of three minutes. *)
Lemma sample_time_window :
  chartElapsedLabel hostNumber hostDate hostDigits sampleSnapshot
  = Normal "0d 00h 03m 00s"
  /\ exists flips authors,
       flipsChart hostNumber hostDate hostDigits sampleSnapshot = Normal flips
       /\ authorsChart hostNumber hostDate hostDigits sampleSnapshot
          = Normal authors
       /\ chart_maxElapsedSeconds authors = chart_maxElapsedSeconds flips.
Proof.
  split; [reflexivity|].
  destruct (charts_share_the_time_window hostNumber hostDate hostDigits
              sampleSnapshot "0d 00h 03m 00s" eq_refl)
    as (flips & authors & z & Ef & Ea & Same & _).
  exists flips, authors. repeat split; assumption.
Defined.

(** ** The scan endpoint on two requests *)

Lemma scan_runs :
  scanHandler sampleScanRun
  = JObject [("success", JBool true); ("data", JObject [])]
  /\ scanHandler failedScanRun
     = JObject [("success", JBool false);
                ("error", JString "Command failed: python3");
                ("command_failed", JBool true)]
  /\ endsWith ".meta.json" "epoch.meta.json" = true
  /\ endsWith ".meta.json" "flips.csv" = false
  /\ endsWith ".meta.json" ".json" = false.
Proof. repeat split. Qed.

(** X23 on the two requests. *)
Lemma page_after_sample_scans :
  ToBoolean null = false
  /\ pageBlock false null (scanHandler sampleScanRun)
     = Normal (Dashboard (JObject []))
  /\ pageBlock false null (scanHandler failedScanRun)
     = Normal (ScriptError (JString "Command failed: python3")).
Proof.
  split; [reflexivity|].
  destruct (page_after_scan sampleScanRun null eq_refl) as (_ & Shown & _).
  destruct (page_after_scan failedScanRun null eq_refl) as (_ & Failed' & _).
  split; [exact Shown | exact Failed'].
Defined.
